(** * RoleModelConnect, phase 2 curation: a shallow embedding of
    [phase2_curation.py] and the properties of its numbering and validation
    rules.

    Python strings are modelled as [string], a character being a code point
    below 256 (Latin-1); [len] is [String.length].  The operator's console is
    the list of lines still to be typed: [input()] takes the first one and
    raises [EOFError] when none is left.  The output folder is a flat
    directory, a finite map from file names to the entries written there; a
    run that comes to write under a name with a path separator, which names a
    file in another directory, ends there with [PathSeparatorInName].
    A recursive call costs one unit of the depth the interpreter still
    allows.  [print] has no effect on any value computed and is left out. *)

From Stdlib Require Import ZArith Ascii String List Lia Bool.
From Stdlib Require Import DecimalString DecimalPos.
From stdpp Require Import base option list strings gmap sorting.

Local Open Scope string_scope.
Local Open Scope Z_scope.
Local Open Scope list_scope.

(** ** Exceptions *)

(** The exceptions of Python that the program can meet, and one further
    outcome, [PathSeparatorInName], which is no exception of Python: it marks
    the point where a run leaves what the world below describes (see
    [write_json]). *)
Inductive exn : Type :=
  | EOFError
  | ValueError
  | IndexError
  | RecursionError
  | PathSeparatorInName.

Inductive result (A : Type) : Type :=
  | Return (a : A)
  | Raise (e : exn).
Arguments Return {A} a.
Arguments Raise {A} e.

Definition rbind {A B} (r : result A) (k : A -> result B) : result B :=
  match r with
  | Return a => k a
  | Raise e => Raise e
  end.

Fixpoint rmapM {A B} (f : A -> result B) (l : list A) : result (list B) :=
  match l with
  | [] => Return []
  | a :: l' =>
      rbind (f a) (fun b => rbind (rmapM f l') (fun bs => Return (b :: bs)))
  end.

(** [l[i]] for a non-negative index. *)
Definition getitem {A} (l : list A) (i : nat) : result A :=
  match l !! i with
  | Some a => Return a
  | None => Raise IndexError
  end.

(** ** Python string operations *)

Module Str.

Definition code (c : ascii) : N := N_of_ascii c.

Definition between (lo hi n : N) : bool := ((lo <=? n) && (n <=? hi))%N.

(** [str.isspace] on one character: what [str.strip()] removes. *)
Definition isspace (c : ascii) : bool :=
  let n := code c in
  between 9 13 n || between 28 32 n || (n =? 133)%N || (n =? 160)%N.

(** The whitespace [int()] skips around a number: the separators 28..31 are
    not in it. *)
Definition int_space (c : ascii) : bool :=
  let n := code c in
  between 9 13 n || (n =? 32)%N || (n =? 133)%N || (n =? 160)%N.

Definition is_upper (c : ascii) : bool :=
  let n := code c in
  between 65 90 n || between 192 214 n || between 216 222 n.

(** [str.lower] on text of code points below 256, the text a [string] can
    hold: there it maps each capital letter to its small letter, one
    character at a time.  Beyond that range [str.lower] is not a map on
    characters (a capital sigma is lowered according to its place in the
    word), and nothing here speaks of such text. *)
Definition lower_char (c : ascii) : ascii :=
  if is_upper c then ascii_of_N (code c + 32) else c.

Fixpoint lower (s : string) : string :=
  match s with
  | EmptyString => EmptyString
  | String c s' => String (lower_char c) (lower s')
  end.

Fixpoint lstrip_by (sp : ascii -> bool) (s : string) : string :=
  match s with
  | EmptyString => EmptyString
  | String c s' => if sp c then lstrip_by sp s' else s
  end.

Fixpoint rstrip_by (sp : ascii -> bool) (s : string) : string :=
  match s with
  | EmptyString => EmptyString
  | String c s' =>
      match rstrip_by sp s' with
      | EmptyString => if sp c then EmptyString else String c EmptyString
      | r => String c r
      end
  end.

Definition strip_by (sp : ascii -> bool) (s : string) : string :=
  rstrip_by sp (lstrip_by sp s).

Definition strip : string -> string := strip_by isspace.

Fixpoint startswith (s p : string) : bool :=
  match p, s with
  | EmptyString, _ => true
  | String _ _, EmptyString => false
  | String a p', String b s' => if ascii_dec a b then startswith s' p' else false
  end.

Fixpoint rev_append (s acc : string) : string :=
  match s with
  | EmptyString => acc
  | String c s' => rev_append s' (String c acc)
  end.

Definition rev (s : string) : string := rev_append s EmptyString.

Definition endswith (s p : string) : bool := startswith (rev s) (rev p).

(** [sub in s] *)
Fixpoint contains (s sub : string) : bool :=
  startswith s sub ||
  match s with
  | EmptyString => false
  | String _ s' => contains s' sub
  end.

Definition cons_head (c : ascii) (l : list string) : list string :=
  match l with
  | [] => [String c EmptyString]
  | x :: xs => String c x :: xs
  end.

(** [s.split(sep)] for a separator of one character. *)
Fixpoint split (sep : ascii) (s : string) : list string :=
  match s with
  | EmptyString => [EmptyString]
  | String c s' =>
      if ascii_dec c sep then EmptyString :: split sep s'
      else cons_head c (split sep s')
  end.

(** [s.split(sep, 1)] *)
Fixpoint split1 (sep : ascii) (s : string) : list string :=
  match s with
  | EmptyString => [EmptyString]
  | String c s' =>
      if ascii_dec c sep then [EmptyString; s']
      else cons_head c (split1 sep s')
  end.

(** [s.replace(old, "")] for [old] of one character. *)
Fixpoint remove_char (old : ascii) (s : string) : string :=
  match s with
  | EmptyString => EmptyString
  | String c s' =>
      if ascii_dec c old then remove_char old s'
      else String c (remove_char old s')
  end.

Definition is_linebreak (c : ascii) : bool :=
  let n := code c in
  between 10 13 n || between 28 30 n || (n =? 133)%N.

(** [s.splitlines()]; [after_cr] records that the previous character was a
    carriage return, so that a line feed right after it ends no new line. *)
Fixpoint splitlines_from (after_cr : bool) (s : string) : list string :=
  match s with
  | EmptyString => []
  | String c s' =>
      if after_cr && (code c =? 10)%N then splitlines_from false s'
      else if is_linebreak c then
        EmptyString :: splitlines_from (code c =? 13)%N s'
      else cons_head c (splitlines_from false s')
  end.

Definition splitlines (s : string) : list string := splitlines_from false s.

Definition digit (c : ascii) : option Z :=
  let n := code c in
  if between 48 57 n then Some (Z.of_N n - 48) else None.

(** The digits after the first one: single underscores may separate them. *)
Fixpoint int_digits (acc : Z) (after_underscore : bool) (s : string) : result Z :=
  match s with
  | EmptyString => if after_underscore then Raise ValueError else Return acc
  | String c s' =>
      if ascii_dec c "_" then
        if after_underscore then Raise ValueError else int_digits acc true s'
      else
        match digit c with
        | Some d => int_digits (10 * acc + d) false s'
        | None => Raise ValueError
        end
  end.

Definition int_body (s : string) : result Z :=
  match s with
  | EmptyString => Raise ValueError
  | String c s' =>
      match digit c with
      | Some d => int_digits d false s'
      | None => Raise ValueError
      end
  end.

(** [int(s)] in base ten. *)
Definition int (s : string) : result Z :=
  match strip_by int_space s with
  | String "+" r => int_body r
  | String "-" r => rbind (int_body r) (fun n => Return (- n))
  | t => int_body t
  end.

(** [str(n)] for an integer. *)
Definition of_int (n : Z) : string := NilZero.string_of_int (Z.to_int n).

End Str.

(** ** Computations over a state that may raise *)

Definition M (S A : Type) : Type := S -> result A * S.

Definition ret {S A} (a : A) : M S A := fun s => (Return a, s).

Definition raise {S A} (e : exn) : M S A := fun s => (Raise e, s).

Definition bind {S A B} (m : M S A) (k : A -> M S B) : M S B :=
  fun s =>
    match m s with
    | (Return a, s') => k a s'
    | (Raise e, s') => (Raise e, s')
    end.

Definition of_result {S A} (r : result A) : M S A := fun s => (r, s).

Notation "'let?' x ':=' r 'in' k" := (rbind r (fun x => k))
  (at level 10, x name, r at level 100, k at level 200).
Notation "'let*' x ':=' m 'in' k" := (bind m (fun x => k))
  (at level 10, x name, m at level 100, k at level 200).

(** ** The data of the program *)

Definition OUTPUT_FOLDER : string := "Generated_JSON_Entries".

Definition MENTAL_HEALTH_THEMES : list string :=
  [ "anxiety"; "depression"; "stress_management"; "burnout"; "grief";
    "addiction_recovery"; "imposter_syndrome"; "self_esteem";
    "relationship_challenges"; "public_pressure" ].

(** The dictionary that [create_json_entry] builds and [json.dump] writes. *)
Record json_entry : Type := {
  Role_Model_Name : string;
  Role_Model_Context : string;
  Situation_Faced : string;
  Challenge_Narrative : string;
  Mental_Health_Themes : list string;
  Coping_Strategies_Used : list string;
  Key_Action_Taken : string;
  Key_Quote_or_Insight : string;
  Summary_Psychological : string;
  Outcome_Resolution : string;
  Source_Reference : string
}.

(** A source file picked from the raw data folder: its name and its text. *)
Record raw_file : Type := {
  rf_name : string;
  rf_content : string
}.

(** The console is the list of lines the operator will type; the world adds
    the files of [OUTPUT_FOLDER], a flat directory keyed by file name. *)
Definition Console (A : Type) : Type := M (list string) A.

Record world : Type := {
  stdin : list string;
  output_folder : gmap string json_entry
}.

Definition IO (A : Type) : Type := M world A.

Definition console {A} (m : Console A) : IO A :=
  fun w =>
    let (r, lines) := m (stdin w) in
    (r, {| stdin := lines; output_folder := output_folder w |}).

Definition input : Console string :=
  fun lines =>
    match lines with
    | [] => (Raise EOFError, [])
    | line :: rest => (Return line, rest)
    end.

(** The names [os.listdir] finds in a folder. *)
Definition dir_listing (folder : gmap string json_entry) : list string :=
  (map_to_list folder).*1.

Definition os_listdir : IO (list string) :=
  fun w => (Return (dir_listing (output_folder w)), w).

(** The character of code 0, as a string. *)
Definition NUL : string := String "000" "".

(** [open(path, 'w')] followed by [json.dump], for the path that
    [os.path.join] makes of [OUTPUT_FOLDER] and [fname].  The folder exists
    (the program creates it when it starts) and is taken to be writable.
    - A name that holds the character of code 0 makes [open] raise
      [ValueError] before the file system is asked.
    - A name without a path separator names a file directly in the folder:
      it is created or replaced.
    - A name with a path separator names a file in another directory: in a
      subdirectory of the folder, in a directory above it, or, when the name
      starts with the separator, at an absolute path that holds no part of
      [OUTPUT_FOLDER].  Whether that directory exists ([FileNotFoundError] is
      raised when it does not) and where the file lands is not told by the
      flat folder of the world, so the run ends here with
      [PathSeparatorInName] and nothing is said about what follows. *)
Definition write_json (fname : string) (entry : json_entry) : IO unit :=
  fun w =>
    if Str.contains fname NUL then (Raise ValueError, w)
    else if Str.contains fname "/" then (Raise PathSeparatorInName, w)
    else
      (Return tt,
       {| stdin := stdin w; output_folder := <[fname := entry]> (output_folder w) |}).

(** Python truth of a string and [len] compared with a bound. *)
Definition truthy (s : string) : bool := negb (String.eqb s "").

Definition len (s : string) : nat := String.length s.

(** ** Helper functions *)

Definition sanitize_role_model_name (name : string) : string :=
  Str.remove_char "'" (Str.remove_char " " name).

Fixpoint infer_lines (lines : list string) : result (option string) :=
  match lines with
  | [] => Return None
  | line :: rest =>
      if Str.startswith (Str.lower line) "role model:" then
        let? value := getitem (Str.split1 ":" line) 1 in
        Return (Some (Str.strip value))
      else infer_lines rest
  end.

Definition infer_role_model_name_from_raw (raw_content : string) : result (option string) :=
  infer_lines (Str.splitlines raw_content).

(** [max(l)] *)
Definition py_max (l : list Z) : result Z :=
  match l with
  | [] => Raise ValueError
  | x :: xs => Return (fold_left Z.max xs x)
  end.

(** The [for fname in os.listdir(OUTPUT_FOLDER)] loop of
    [get_next_story_number]; [existing_numbers] is the list built so far. *)
Fixpoint scan_files (clean_name roll_number : string) (fnames : list string)
    (existing_numbers : list Z) : result (list Z) :=
  match fnames with
  | [] => Return existing_numbers
  | fname :: rest =>
      if negb (Str.endswith fname ".json") then
        scan_files clean_name roll_number rest existing_numbers
      else
        let parts := Str.split "_" fname in
        if (length parts <? 3)%nat then
          scan_files clean_name roll_number rest existing_numbers
        else
          let? file_clean_name := getitem parts 0 in
          let? story_part := getitem parts 1 in
          let? third := getitem parts 2 in
          let? roll_part := getitem (Str.split "." third) 0 in
          if negb (String.eqb file_clean_name clean_name) then
            scan_files clean_name roll_number rest existing_numbers
          else if negb (String.eqb roll_part roll_number) then
            scan_files clean_name roll_number rest existing_numbers
          else
            match Str.int story_part with
            | Return n =>
                scan_files clean_name roll_number rest (existing_numbers ++ [n])
            | Raise ValueError =>
                scan_files clean_name roll_number rest existing_numbers
            | Raise e => Raise e
            end
  end.

(** [get_next_story_number] on the listing that [os.listdir] returned. *)
Definition next_story_number (role_model_name roll_number : string)
    (listing : list string) : result Z :=
  let clean_name := sanitize_role_model_name role_model_name in
  let? existing_numbers := scan_files clean_name roll_number listing [] in
  if (length existing_numbers =? 0)%nat then Return 1
  else let? m := py_max existing_numbers in Return (m + 1).

Definition get_next_story_number (role_model_name roll_number : string) : IO Z :=
  let* listing := os_listdir in
  of_result (next_story_number role_model_name roll_number listing).

(** ** Prompts *)

(** The loop [while not x or len(x) < n: x = input(...).strip()], entered
    with the current value of [x]. *)
Fixpoint reprompt (n : nat) (x : string) (lines : list string) {struct lines}
    : result string * list string :=
  if negb (truthy x) || (len x <? n)%nat then
    match lines with
    | [] => (Raise EOFError, [])
    | line :: rest => reprompt n (Str.strip line) rest
    end
  else (Return x, lines).

(** [x = input(...).strip()] followed by the loop above. *)
Definition collect (n : nat) : Console string :=
  let* line := input in
  reprompt n (Str.strip line).

Fixpoint get_role_model_name (lines : list string) : result string * list string :=
  match lines with
  | [] => (Raise EOFError, [])
  | line :: rest =>
      let name := Str.strip line in
      if truthy name && (2 <=? len name)%nat then (Return name, rest)
      else get_role_model_name rest
  end.

Definition get_or_confirm_role_model_name (raw_content : string) : Console string :=
  let* inferred := of_result (infer_role_model_name_from_raw raw_content) in
  match inferred with
  | Some name =>
      if truthy name then
        let* line := input in
        let user_input := Str.strip line in
        if truthy user_input then ret user_input else ret name
      else get_role_model_name
  | None => get_role_model_name
  end.

Definition get_context (name : string) : Console string := collect 10.
Definition get_situation_faced : Console string := collect 10.
Definition get_challenge_narrative : Console string := collect 20.
Definition get_key_action : Console string := collect 5.
Definition get_psychological_lesson : Console string := collect 20.
Definition get_outcome_resolution : Console string := collect 10.

(** [[int(c.strip()) - 1 for c in line.split(',')]] *)
Definition parse_choices (line : string) : result (list Z) :=
  rmapM (fun c => let? n := Str.int (Str.strip c) in Return (n - 1))
        (Str.split "," line).

Definition in_vocabulary (c : Z) : bool :=
  (0 <=? c) && (c <? Z.of_nat (length MENTAL_HEALTH_THEMES)).

(** The [while len(selected) < 2 or len(selected) > 4] loop of
    [select_mental_health_themes]. *)
Fixpoint themes_loop (selected : list string) (lines : list string) {struct lines}
    : result (list string) * list string :=
  if (length selected <? 2)%nat || (4 <? length selected)%nat then
    match lines with
    | [] => (Raise EOFError, [])
    | line :: rest =>
        match parse_choices line with
        | Return choices =>
            if forallb in_vocabulary choices then
              if (2 <=? length choices)%nat && (length choices <=? 4)%nat then
                match rmapM (fun c => getitem MENTAL_HEALTH_THEMES (Z.to_nat c)) choices with
                | Return themes => themes_loop themes rest
                | Raise e => (Raise e, rest)
                end
              else themes_loop selected rest
            else themes_loop selected rest
        | Raise ValueError => themes_loop selected rest
        | Raise e => (Raise e, rest)
        end
    end
  else (Return selected, lines).

Definition select_mental_health_themes : Console (list string) := themes_loop [].

(** [[s.strip() for s in text.split(',') if s.strip()]] *)
Definition clean_and_split (text : string) : list string :=
  map Str.strip (List.filter (fun s => truthy (Str.strip s)) (Str.split "," text)).

Definition get_coping_strategies : Console (list string) :=
  let* strategies_input := collect 5 in
  ret (clean_and_split strategies_input).

(** [depth] is the number of frames the interpreter can still allocate: a
    call beyond it raises [RecursionError]. *)
Fixpoint get_quote_from_text (depth : nat) (raw_content : string) : Console string :=
  match depth with
  | O => raise RecursionError
  | S depth' =>
      let* quote := collect 10 in
      if negb (Str.contains (Str.lower raw_content) (Str.lower quote)) then
        let* answer := input in
        let confirm := Str.lower answer in
        if negb (String.eqb confirm "y") then get_quote_from_text depth' raw_content
        else ret quote
      else ret quote
  end.

Definition get_source_reference (filepath : raw_file) : string := rf_name filepath.

(** The text of the source file, which [display_raw_content] reads, previews
    and returns. *)
Definition display_raw_content (filepath : raw_file) : string := rf_content filepath.

(** ** Building and writing an entry *)

Definition output_filename_of (clean_name : string) (story_number : Z)
    (roll_number : string) : string :=
  clean_name +:+ "_" +:+ Str.of_int story_number +:+ "_" +:+ roll_number +:+ ".json".

(** [os.path.join(folder, name)]: a name that starts with the separator is
    absolute and is the result by itself; a folder that is empty or ends with
    the separator takes the name without another separator. *)
Definition os_path_join (folder name : string) : string :=
  if Str.startswith name "/" then name
  else if negb (truthy folder) || Str.endswith folder "/" then folder +:+ name
  else folder +:+ "/" +:+ name.

Definition create_json_entry (depth : nat) (raw_filepath : raw_file)
    (roll_number : string) : IO (string * json_entry) :=
  let raw_content := display_raw_content raw_filepath in
  let* role_model_name := console (get_or_confirm_role_model_name raw_content) in
  let* story_number := get_next_story_number role_model_name roll_number in
  let* context := console (get_context role_model_name) in
  let* situation := console get_situation_faced in
  let* narrative := console get_challenge_narrative in
  let* themes := console select_mental_health_themes in
  let* strategies := console get_coping_strategies in
  let* action := console get_key_action in
  let* quote := console (get_quote_from_text depth raw_content) in
  let* lesson := console get_psychological_lesson in
  let* outcome := console get_outcome_resolution in
  let source := get_source_reference raw_filepath in
  let json_entry :=
    {| Role_Model_Name := role_model_name;
       Role_Model_Context := context;
       Situation_Faced := situation;
       Challenge_Narrative := narrative;
       Mental_Health_Themes := themes;
       Coping_Strategies_Used := strategies;
       Key_Action_Taken := action;
       Key_Quote_or_Insight := quote;
       Summary_Psychological := lesson;
       Outcome_Resolution := outcome;
       Source_Reference := source |} in
  let clean_name := sanitize_role_model_name role_model_name in
  let output_filename := output_filename_of clean_name story_number roll_number in
  let output_path := os_path_join OUTPUT_FOLDER output_filename in
  let* _ := write_json output_filename json_entry in
  ret (output_path, json_entry).

(** ** Choosing a source file *)

(** Paths of one folder are ordered as their names are, character by
    character. *)
Definition path_le (a b : raw_file) : Prop := String.le (rf_name a) (rf_name b).

#[global] Instance path_le_dec : RelDecision path_le.
Proof. intros a b. apply String.le_dec. Defined.

(** [sorted(paths)]; the names in a folder differ from each other, so the
    order of the result does not depend on the sorting method. *)
Definition sorted (paths : list raw_file) : list raw_file :=
  merge_sort path_le paths.

(** [raw_data] is the content of [RAW_DATA_FOLDER] (empty when the folder is
    missing); [glob("*.txt")] keeps the names that end in [.txt]. *)
Definition display_available_files (raw_data : list raw_file) : list raw_file :=
  let raw_files := List.filter (fun f => Str.endswith (rf_name f) ".txt") raw_data in
  match raw_files with
  | [] => []
  | _ => sorted raw_files
  end.

Fixpoint select_raw_file (available_files : list raw_file) (lines : list string)
    : result (option raw_file) * list string :=
  match lines with
  | [] => (Raise EOFError, [])
  | line :: rest =>
      match Str.int line with
      | Return choice =>
          if choice =? 0 then (Return None, rest)
          else if (1 <=? choice) && (choice <=? Z.of_nat (length available_files)) then
            match getitem available_files (Z.to_nat (choice - 1)) with
            | Return filepath => (Return (Some filepath), rest)
            | Raise e => (Raise e, rest)
            end
          else select_raw_file available_files rest
      | Raise ValueError => select_raw_file available_files rest
      | Raise e => (Raise e, rest)
      end
  end.

(** ** The session *)

(** The loop of [main] that asks how many entries to make from the file
    chosen. *)
Fixpoint ask_num_entries (lines : list string) : result Z * list string :=
  match lines with
  | [] => (Raise EOFError, [])
  | line :: rest =>
      match Str.int line with
      | Return num_entries =>
          if (1 <=? num_entries) && (num_entries <=? 3) then (Return num_entries, rest)
          else ask_num_entries rest
      | Raise ValueError => ask_num_entries rest
      | Raise e => (Raise e, rest)
      end
  end.

(** The loop [for _ in range(num_entries)] of [main]: an entry, its summary,
    one more on the count, and a line read to go on. *)
Fixpoint create_entries (depth num_entries : nat) (selected_file : raw_file)
    (roll_number : string) (total_entries_created : Z) : IO Z :=
  match num_entries with
  | O => ret total_entries_created
  | S remaining =>
      let* _ := create_json_entry depth selected_file roll_number in
      let total_entries_created := total_entries_created + 1 in
      let* _ := console input in
      create_entries depth remaining selected_file roll_number total_entries_created
  end.

(** The [while True] loop of [main].  [rounds] bounds the number of times the
    body runs; [None] is returned when the bound is reached with the loop
    still going.  [raw_data] is the content of [RAW_DATA_FOLDER], which the
    session never writes to. *)
Fixpoint main_loop (rounds depth : nat) (raw_data : list raw_file)
    (roll_number : string) (total_entries_created : Z) : IO (option Z) :=
  match rounds with
  | O => ret None
  | S rounds' =>
      let available_files := display_available_files raw_data in
      match available_files with
      | [] => ret (Some total_entries_created)
      | _ :: _ =>
          let* selected_file := console (select_raw_file available_files) in
          match selected_file with
          | None => ret (Some total_entries_created)
          | Some selected_file =>
              let* num_entries := console ask_num_entries in
              let* total_entries_created :=
                create_entries depth (Z.to_nat num_entries) selected_file
                  roll_number total_entries_created in
              let* answer := console input in
              let continue_choice := Str.lower answer in
              if negb (String.eqb continue_choice "y")
              then ret (Some total_entries_created)
              else main_loop rounds' depth raw_data roll_number total_entries_created
          end
      end
  end.

(** [main], returning the count it prints at the end.  Every turn of the
    loop that goes on reads a line, so one turn more than there are lines to
    type is a bound that is never reached (see [main_loop_enough]). *)
Definition main (depth : nat) (raw_data : list raw_file) : IO (option Z) :=
  let* roll_number := console (collect 0) in
  fun w => main_loop (S (length (stdin w))) depth raw_data roll_number 0 w.

(** [sep.join(items)], which [display_json_summary] uses with [", "] to show
    the themes and the strategies of an entry. *)
Fixpoint join (sep : string) (items : list string) : string :=
  match items with
  | [] => ""
  | [x] => x
  | x :: rest => x +:+ sep +:+ join sep rest
  end.

(** ** Definitions used to state the properties *)

(** What the [while] loop of a validated field sends back to the prompt. *)
Definition too_short (n : nat) (x : string) : bool :=
  negb (truthy x) || (len x <? n)%nat.

(** The six validated free-text fields with the minimum each is called with. *)
Definition validated_fields (name : string) : list (Console string * nat) :=
  [ (get_context name, 10%nat); (get_situation_faced, 10%nat);
    (get_outcome_resolution, 10%nat); (get_challenge_narrative, 20%nat);
    (get_psychological_lesson, 20%nat); (get_key_action, 5%nat) ].

(** A string whose first character, if any, is kept by [lstrip_by sp]. *)
Definition head_kept (sp : ascii -> bool) (s : string) : Prop :=
  match s with
  | EmptyString => True
  | String c _ => sp c = false
  end.

(** The test [line.lower().startswith("role model:")]. *)
Definition is_header (line : string) : bool :=
  Str.startswith (Str.lower line) "role model:".

(** [c in s] for one character. *)
Fixpoint has_char (c : ascii) (s : string) : bool :=
  match s with
  | EmptyString => false
  | String d s' => if ascii_dec d c then true else has_char c s'
  end.

(** The pieces of a file name that [get_next_story_number] compares: the
    first and second underscore-separated parts, and the third one up to its
    first dot. *)
Definition subject_segment (fname : string) : string :=
  nth 0 (Str.split "_" fname) "".

Definition sequence_segment (fname : string) : string :=
  nth 1 (Str.split "_" fname) "".

Definition operator_segment (fname : string) : string :=
  nth 0 (Str.split "." (nth 2 (Str.split "_" fname) "")) "".

(** The two tests a file name passes before its parts are looked at. *)
Definition matches_pattern (fname : string) : bool :=
  Str.endswith fname ".json" && (3 <=? length (Str.split "_" fname))%nat.

(** What one file adds to [existing_numbers]. *)
Definition counted (clean_name roll_number fname : string) : list Z :=
  if matches_pattern fname
     && String.eqb (subject_segment fname) clean_name
     && String.eqb (operator_segment fname) roll_number
  then match Str.int (sequence_segment fname) with
       | Return n => [n]
       | Raise _ => []
       end
  else [].

(** Every character of [s] passes the test [P]. *)
Fixpoint all_chars (P : ascii -> bool) (s : string) : bool :=
  match s with
  | EmptyString => true
  | String c s' => P c && all_chars P s'
  end.

(** The characters [str] uses to print an integer. *)
Definition numeral_char (c : ascii) : bool :=
  match Str.digit c with
  | Some _ => true
  | None => Ascii.eqb c "-"
  end.

(** The name under which record [n] of a key is written. *)
Definition own_file (clean_name roll_number : string) (n : Z) : string :=
  output_filename_of clean_name n roll_number.

(** The characters [sanitize_role_model_name] keeps. *)
Definition kept_in_filename (c : ascii) : bool :=
  negb (Ascii.eqb c " ") && negb (Ascii.eqb c "'").

(** A source file and two sets of answers for one entry each, used in the
    worked runs below.  The first answer is the empty line that confirms the
    name found in the header. *)
Definition jane_file : raw_file :=
  {| rf_name := "jane_doe.txt";
     rf_content :=
       "Interview notes" +:+ String "010" "Role Model: Jane Doe" +:+
       String "010" "She said: I was not okay, and I asked for help." |}.

Definition first_answers : list string :=
  [ ""; "a singer and actress"; "anxiety in public life";
    "She spoke about it openly."; "1,2"; "therapy, rest"; "sought help";
    "I was not okay, and I asked for help."; "Asking for help is a strength.";
    "returned to work" ].

Definition second_answers : list string :=
  [ ""; "an advocate for mental health"; "burnout after a long tour";
    "She cancelled the tour dates."; "3,4"; "taking breaks"; "took a break";
    "a sentence she never said"; "y"; "Rest is part of the work we do.";
    "came back rested" ].

Definition first_entry : json_entry :=
  {| Role_Model_Name := "Jane Doe";
     Role_Model_Context := "a singer and actress";
     Situation_Faced := "anxiety in public life";
     Challenge_Narrative := "She spoke about it openly.";
     Mental_Health_Themes := ["anxiety"; "depression"];
     Coping_Strategies_Used := ["therapy"; "rest"];
     Key_Action_Taken := "sought help";
     Key_Quote_or_Insight := "I was not okay, and I asked for help.";
     Summary_Psychological := "Asking for help is a strength.";
     Outcome_Resolution := "returned to work";
     Source_Reference := "jane_doe.txt" |}.

Definition second_entry : json_entry :=
  {| Role_Model_Name := "Jane Doe";
     Role_Model_Context := "an advocate for mental health";
     Situation_Faced := "burnout after a long tour";
     Challenge_Narrative := "She cancelled the tour dates.";
     Mental_Health_Themes := ["stress_management"; "burnout"];
     Coping_Strategies_Used := ["taking breaks"];
     Key_Action_Taken := "took a break";
     Key_Quote_or_Insight := "a sentence she never said";
     Summary_Psychological := "Rest is part of the work we do.";
     Outcome_Resolution := "came back rested";
     Source_Reference := "jane_doe.txt" |}.

(** Two runs of [m], one in a world with folder [F1] and one in a world with
    folder [F2], both with the same lines to be typed, give the same result
    and leave the same lines; [agrees] adds that neither changes its
    folder. *)
Definition agrees_out {A} (F1 F2 : gmap string json_entry) (m : IO A) : Prop :=
  forall w1 w2,
    stdin w1 = stdin w2 -> output_folder w1 = F1 -> output_folder w2 = F2 ->
    fst (m w1) = fst (m w2) /\ stdin (snd (m w1)) = stdin (snd (m w2)).

Definition agrees {A} (F1 F2 : gmap string json_entry) (m : IO A) : Prop :=
  forall w1 w2,
    stdin w1 = stdin w2 -> output_folder w1 = F1 -> output_folder w2 = F2 ->
    fst (m w1) = fst (m w2) /\ stdin (snd (m w1)) = stdin (snd (m w2)) /\
    output_folder (snd (m w1)) = F1 /\ output_folder (snd (m w2)) = F2.

(** The 256 characters of the model. *)
Definition all_chars_list : list ascii := map ascii_of_nat (seq 0 256).

Definition codes_where (P : ascii -> bool) : list N :=
  map Str.code (List.filter P all_chars_list).

(** The world after a first entry for roll number [42] was written, with the
    answers for a second entry still to be typed, and the world after that
    second entry. *)
Definition one_written : world :=
  {| stdin := second_answers;
     output_folder := {[ "JaneDoe_1_42.json" := first_entry ]} |}.

Definition two_written : world :=
  {| stdin := [];
     output_folder := {[ "JaneDoe_2_42.json" := second_entry;
                         "JaneDoe_1_42.json" := first_entry ]} |}.

(** A text field as the prompts deliver it: trimmed, and at least [n]
    characters long. *)
Definition field_ok (n : nat) (s : string) : Prop :=
  Str.strip s = s /\ (n <= len s)%nat.

(** A line that [select_raw_file] answers by asking again: not a number, or
    a number that is neither 0 nor a position in the list. *)
Definition not_a_choice (available_files : list raw_file) (line : string) : Prop :=
  match Str.int line with
  | Return choice => choice < 0 \/ Z.of_nat (length available_files) < choice
  | Raise _ => True
  end.

(** [k] times the same refused quote: the quote, then the answer to the
    question whether to keep it. *)
Fixpoint refusals (k : nat) (quote answer : string) : list string :=
  match k with
  | O => []
  | S k' => quote :: answer :: refusals k' quote answer
  end.

(** Three source files, one of them not a text file. *)
Definition raw_folder : list raw_file :=
  [ {| rf_name := "zoe.txt"; rf_content := "Role Model: Zoe" |};
    {| rf_name := "notes.md"; rf_content := "to do" |};
    jane_file ].

(** A raw folder without a name that [glob("*.txt")] keeps. *)
Definition other_folder : list raw_file :=
  [ {| rf_name := "notes.md"; rf_content := "to do" |};
    {| rf_name := "story.TXT"; rf_content := "Role Model: Zoe" |} ].

(** A console computation leaves no more lines than it found. *)
Definition consumes {A} (m : Console A) : Prop :=
  forall lines r rest, m lines = (r, rest) -> (length rest <= length lines)%nat.

(** What a part of the session may do to the world: it reads lines, it keeps
    every file name of the output folder, and a name whose entry it changes
    is a name written for [roll_number]. *)
Definition session_step (roll_number : string) (w w' : world) : Prop :=
  (length (stdin w') <= length (stdin w))%nat /\
  (forall fname, is_Some (output_folder w !! fname) ->
                 is_Some (output_folder w' !! fname)) /\
  (forall fname,
     output_folder w' !! fname = output_folder w !! fname \/
     exists clean_name n, fname = output_filename_of clean_name n roll_number).

Definition io_session (roll_number : string) {A} (m : IO A) : Prop :=
  forall w r w', m w = (r, w') -> session_step roll_number w w'.

(** A line that the question about the number of entries answers by asking
    again. *)
Definition not_a_count (line : string) : Prop :=
  match Str.int line with
  | Return n => n < 1 \/ 3 < n
  | Raise _ => True
  end.

(** A session: the roll number, the second file, two entries from it, no
    further file. *)
Definition session_answers : list string :=
  [ " "; " 42 "; "2"; "2" ]
  ++ [ ""; "an athlete and a writer"; "injury before the games";
       "She trained alone for a year."; "3,9"; "rest, family"; "rested";
       "a sentence she never said"; "Y"; "Healing takes the time it takes.";
       "came back stronger"; "" ]
  ++ [ "Zoe B"; "a coach and a mentor"; "pressure from the public";
       "She stepped back from the team."; "10,1"; "breathing"; "spoke up";
       "another sentence not in it"; "y"; "Saying no can be the right answer.";
       "found her balance"; "" ]
  ++ [ "n"; "left over" ].

(** A world with an empty output folder and the given lines to be typed. *)
Definition fresh_world (lines : list string) : world :=
  {| stdin := lines; output_folder := ∅ |}.

(** The world at the end of the session above. *)
Definition session_end : world :=
  snd (main 10 raw_folder (fresh_world session_answers)).

(** The world after a first entry for roll number [CS_42] was written, with
    the answers for a second entry still to be typed, and the world after
    that second entry. *)
Definition first_written : world :=
  {| stdin := second_answers;
     output_folder := {[ "JaneDoe_1_CS_42.json" := first_entry ]} |}.

Definition second_written : world :=
  {| stdin := [];
     output_folder := {[ "JaneDoe_1_CS_42.json" := second_entry ]} |}.

(** * Properties *)

(** ** Small computations *)

Example strip_ex : Str.strip "  a b	 " = "a b".
Proof. reflexivity. Qed.

Example split_ex : Str.split "," "a,,b," = ["a"; ""; "b"; ""].
Proof. reflexivity. Qed.

Example splitlines_ex :
  Str.splitlines (String "a" (String "013" (String "010" (String "010" "b"))))
  = ["a"; ""; "b"].
Proof. reflexivity. Qed.

Example int_ex :
  Str.int " -1_0 " = Return (-10) /\ Str.int "1__0" = Raise ValueError
  /\ Str.int "" = Raise ValueError /\ Str.int "007" = Return 7.
Proof. repeat split. Qed.

Example of_int_ex :
  Str.of_int 12 = "12" /\ Str.of_int (-3) = "-3" /\ Str.of_int 0 = "0".
Proof. repeat split. Qed.

(** The character classes, as code points: what [strip] removes, what [int]
    skips, where [splitlines] cuts, and what [lower] changes. *)
Example isspace_codes :
  codes_where Str.isspace = [9; 10; 11; 12; 13; 28; 29; 30; 31; 32; 133; 160]%N.
Proof. vm_compute. reflexivity. Qed.

Example int_space_codes :
  codes_where Str.int_space = [9; 10; 11; 12; 13; 32; 133; 160]%N.
Proof. vm_compute. reflexivity. Qed.

Example linebreak_codes :
  codes_where Str.is_linebreak = [10; 11; 12; 13; 28; 29; 30; 133]%N.
Proof. vm_compute. reflexivity. Qed.

Example upper_codes :
  codes_where Str.is_upper = map N.of_nat (seq 65 26 ++ seq 192 23 ++ seq 216 7) /\
  Forall (fun c => Str.code (Str.lower_char c) = (Str.code c + 32)%N)
         (List.filter Str.is_upper all_chars_list).
Proof. split; [vm_compute; reflexivity|]. vm_compute. repeat constructor. Qed.

Example int_more_ex :
  Str.int "+_1" = Raise ValueError /\ Str.int "+" = Raise ValueError /\
  Str.int "-0" = Return 0 /\ Str.int "+ 5" = Raise ValueError /\
  Str.int "0_0" = Return 0 /\ Str.int "1 2" = Raise ValueError /\
  Str.int "_1" = Raise ValueError /\ Str.int "1_" = Raise ValueError.
Proof. repeat split. Qed.

Example splitlines_more_ex :
  Str.splitlines (String "013" (String "013" "")) = [""; ""] /\
  Str.splitlines (String "010" (String "013" (String "010" ""))) = [""; ""] /\
  Str.splitlines (String "a" (String "b" (String "010" ""))) = ["ab"] /\
  Str.splitlines "" = [] /\
  Str.split1 ":" "a:b:c" = ["a"; "b:c"] /\ Str.split1 ":" "abc" = ["abc"] /\
  Str.split "," "" = [""].
Proof. repeat split. Qed.

(** ** Stripping *)

Section Strip.
Variable sp : ascii -> bool.

Lemma lstrip_by_head (s : string) : head_kept sp (Str.lstrip_by sp s).
Proof.
  induction s as [|c s IH]; simpl; [exact I|].
  destruct (sp c) eqn:E; [exact IH | exact E].
Qed.

Lemma lstrip_by_fix (s : string) : head_kept sp s -> Str.lstrip_by sp s = s.
Proof. destruct s as [|c s]; simpl; [reflexivity|]. intros ->. reflexivity. Qed.

Lemma rstrip_by_head (s : string) : head_kept sp s -> head_kept sp (Str.rstrip_by sp s).
Proof.
  destruct s as [|c s]; simpl; [trivial|]. intros E.
  destruct (Str.rstrip_by sp s); [rewrite E|]; exact E.
Qed.

Lemma rstrip_by_idem (s : string) :
  Str.rstrip_by sp (Str.rstrip_by sp s) = Str.rstrip_by sp s.
Proof.
  induction s as [|c s IH]; simpl; [reflexivity|].
  destruct (Str.rstrip_by sp s) as [|d r] eqn:E.
  - destruct (sp c) eqn:Ec; simpl; [reflexivity|]. rewrite Ec. reflexivity.
  - change (Str.rstrip_by sp (String c (String d r))) with
      (match Str.rstrip_by sp (String d r) with
       | EmptyString => if sp c then EmptyString else String c EmptyString
       | x => String c x
       end).
    rewrite IH. reflexivity.
Qed.

Lemma strip_by_idem (s : string) :
  Str.strip_by sp (Str.strip_by sp s) = Str.strip_by sp s.
Proof.
  unfold Str.strip_by.
  rewrite (lstrip_by_fix (Str.rstrip_by sp (Str.lstrip_by sp s))).
  - apply rstrip_by_idem.
  - apply rstrip_by_head, lstrip_by_head.
Qed.

End Strip.

Lemma strip_idem (s : string) : Str.strip (Str.strip s) = Str.strip s.
Proof. apply strip_by_idem. Qed.

(** ** Validated free-text fields *)

Lemma reprompt_returns (n : nat) (lines : list string) :
  forall x s rest,
    reprompt n x lines = (Return s, rest) ->
    too_short n s = false /\
    ((s = x /\ rest = lines) \/
     exists pre line,
       lines = pre ++ line :: rest /\ s = Str.strip line /\
       too_short n x = true /\
       Forall (fun l => too_short n (Str.strip l) = true) pre).
Proof.
  induction lines as [|line lines IH]; intros x s rest; simpl;
    fold (too_short n x); destruct (too_short n x) eqn:E; intros H;
    try discriminate.
  - injection H as <- <-. auto.
  - apply IH in H as [Hs [[-> ->] | (pre & l & -> & -> & Hx & Hpre)]].
    + split; [exact Hs|]. right. exists [], line. auto.
    + split; [exact Hs|]. right. exists (line :: pre), l.
      repeat split; auto.
  - injection H as <- <-. auto.
Qed.

Lemma reprompt_raises (n : nat) (lines : list string) :
  forall x e rest, reprompt n x lines = (Raise e, rest) -> e = EOFError /\ rest = [].
Proof.
  induction lines as [|line lines IH]; intros x e rest; simpl;
    destruct (negb (truthy x) || (len x <? n)%nat); intros H;
    try discriminate.
  - injection H as <- <-. auto.
  - eapply IH, H.
Qed.

Lemma reprompt_eq (n : nat) (x : string) (lines : list string) :
  reprompt n x lines =
  if too_short n x then
    match lines with
    | [] => (Raise EOFError, [])
    | line :: rest => reprompt n (Str.strip line) rest
    end
  else (Return x, lines).
Proof. destruct lines; reflexivity. Qed.

Lemma collect_short (n : nat) (line : string) (rest : list string) :
  too_short n (Str.strip line) = true ->
  collect n (line :: rest) = collect n rest.
Proof.
  intros E. unfold collect, bind, input.
  rewrite reprompt_eq, E. destruct rest; reflexivity.
Qed.

Lemma collect_long (n : nat) (line : string) (rest : list string) :
  too_short n (Str.strip line) = false ->
  collect n (line :: rest) = (Return (Str.strip line), rest).
Proof.
  intros E. unfold collect, bind, input.
  rewrite reprompt_eq, E. reflexivity.
Qed.

Lemma collect_returns (n : nat) (lines : list string) (s : string) (rest : list string) :
  collect n lines = (Return s, rest) ->
  too_short n s = false /\
  exists pre line,
    lines = pre ++ line :: rest /\ s = Str.strip line /\
    Forall (fun l => too_short n (Str.strip l) = true) pre.
Proof.
  destruct lines as [|l0 lines]; [discriminate|].
  unfold collect, bind, input. intros H.
  apply reprompt_returns in H as [Hs [[-> ->] | (pre & l & -> & -> & Hx & Hpre)]].
  - split; [exact Hs|]. exists [], l0. auto.
  - split; [exact Hs|]. exists (l0 :: pre), l. auto.
Qed.

Lemma collect_raises (n : nat) (lines : list string) (e : exn) (rest : list string) :
  collect n lines = (Raise e, rest) -> e = EOFError /\ rest = [].
Proof.
  destruct lines as [|l0 lines]; unfold collect, bind, input.
  - intros H. injection H as <- <-. auto.
  - apply reprompt_raises.
Qed.

Lemma too_short_false (n : nat) (s : string) :
  too_short n s = false -> (n <= len s)%nat /\ s <> "".
Proof.
  unfold too_short, truthy. intros H.
  apply orb_false_iff in H as [H1 H2].
  apply Nat.ltb_ge in H2. split; [exact H2|].
  intros ->. discriminate.
Qed.

Lemma too_short_lt (n : nat) (x : string) :
  (0 < n)%nat -> too_short n x = true <-> (len x < n)%nat.
Proof.
  intros Hn. unfold too_short, truthy. rewrite orb_true_iff, Nat.ltb_lt.
  split; [|auto]. intros [H|H]; [|exact H].
  destruct x; [exact Hn | discriminate].
Qed.

Lemma validated_fields_collect (name : string) (field : Console string) (n : nat) :
  (field, n) ∈ validated_fields name -> field = collect n /\ (0 < n)%nat.
Proof.
  unfold validated_fields. intros H.
  repeat (apply elem_of_cons in H as [H|H];
          [injection H as -> ->; split; [reflexivity | lia] | ]).
  inversion H.
Qed.

(** C8: each of the six validated free-text prompts ([get_context],
    [get_situation_faced] and [get_outcome_resolution] with minimum 10,
    [get_challenge_narrative] and [get_psychological_lesson] with minimum 20,
    [get_key_action] with minimum 5) only ever returns a string that is
    already trimmed and has at least the minimum length: it is the trimmed
    form of the first typed line that is long enough, every line typed before
    it was too short, and a line that is too short is answered by asking
    again. *)
Theorem C8_validated_fields_meet_minimum
    (name : string) (field : Console string) (n : nat)
    (lines : list string) (s : string) (rest : list string) :
  (field, n) ∈ validated_fields name ->
  field lines = (Return s, rest) ->
  (n <= len (Str.strip s))%nat /\ Str.strip s = s /\
  (exists pre line,
     lines = pre ++ line :: rest /\ s = Str.strip line /\
     Forall (fun l => (len (Str.strip l) < n)%nat) pre) /\
  (forall line more,
     (len (Str.strip line) < n)%nat -> field (line :: more) = field more).
Proof.
  intros Hin H. apply validated_fields_collect in Hin as [-> Hn].
  apply collect_returns in H as (Hs & pre & line & -> & -> & Hpre).
  apply too_short_false in Hs as [Hlen _].
  rewrite strip_idem. repeat split.
  - exact Hlen.
  - exists pre, line. repeat split.
    eapply Forall_impl; [exact Hpre|]. intros l Hl. apply too_short_lt in Hl; assumption.
  - intros l more Hl. apply collect_short, too_short_lt; assumption.
Qed.

Lemma C8_validated_fields_witness :
  (10 <= len (Str.strip "a singer and actress"))%nat /\
  Str.strip "a singer and actress" = "a singer and actress" /\
  (exists pre line,
     ["short"; "  a singer and actress  "; "next"] = pre ++ line :: ["next"] /\
     "a singer and actress" = Str.strip line /\
     Forall (fun l => (len (Str.strip l) < 10)%nat) pre) /\
  (forall line more,
     (len (Str.strip line) < 10)%nat ->
     get_context "Jane" (line :: more) = get_context "Jane" more).
Proof.
  apply (C8_validated_fields_meet_minimum "Jane" (get_context "Jane") 10
           ["short"; "  a singer and actress  "; "next"]
           "a singer and actress" ["next"]).
  - constructor.
  - reflexivity.
Defined.

(** ** Coping strategies *)


Lemma get_coping_strategies_returns (lines : list string) (l : list string)
    (rest : list string) :
  get_coping_strategies lines = (Return l, rest) ->
  exists pre line,
    lines = pre ++ line :: rest /\ (5 <= len (Str.strip line))%nat /\
    l = clean_and_split (Str.strip line) /\
    Forall (fun p => (len (Str.strip p) < 5)%nat) pre.
Proof.
  unfold get_coping_strategies, bind, ret.
  destruct (collect 5 lines) as [[s|e] rest'] eqn:E; [|discriminate].
  intros H. injection H as <- <-.
  apply collect_returns in E as (Hs & pre & line & -> & -> & Hpre).
  apply too_short_false in Hs as [Hlen _].
  exists pre, line. repeat split; [exact Hlen|].
  eapply Forall_impl; [exact Hpre|]. intros p Hp.
  apply too_short_lt in Hp; [exact Hp | lia].
Qed.

Example coping_strategies_scenario (rest : list string) :
  get_coping_strategies ("therapy, meditation ,  journaling" :: rest)
  = (Return ["therapy"; "meditation"; "journaling"], rest).
Proof.
  unfold get_coping_strategies, bind.
  rewrite collect_long by reflexivity. reflexivity.
Qed.

(** C3: the list of coping strategies can come back empty.  The operator
    types five commas: the raw text is five characters long, so the loop that
    asks for at least one strategy lets it through, and every piece between
    the commas is empty and dropped.  The claim promises one or more items. *)
Theorem C3_strategy_list_may_be_empty :
  get_coping_strategies [",,,,,"] = (Return [], []) /\
  (5 <= len (Str.strip ",,,,,"))%nat.
Proof. split; [reflexivity | simpl; lia]. Qed.

(** ** Theme selection *)

Lemma rmapM_Forall2 {A B} (f : A -> result B) (l : list A) :
  forall l', rmapM f l = Return l' -> Forall2 (fun a b => f a = Return b) l l'.
Proof.
  induction l as [|a l IH]; simpl; intros l' H.
  - injection H as <-. constructor.
  - destruct (f a) as [b|] eqn:Ea; [|discriminate]. simpl in H.
    destruct (rmapM f l) as [bs|] eqn:El; [|discriminate]. simpl in H.
    injection H as <-. constructor; auto.
Qed.

Lemma themes_loop_eq (selected lines : list string) :
  themes_loop selected lines =
  if (length selected <? 2)%nat || (4 <? length selected)%nat then
    match lines with
    | [] => (Raise EOFError, [])
    | line :: rest =>
        match parse_choices line with
        | Return choices =>
            if forallb in_vocabulary choices then
              if (2 <=? length choices)%nat && (length choices <=? 4)%nat then
                match rmapM (fun c => getitem MENTAL_HEALTH_THEMES (Z.to_nat c)) choices with
                | Return themes => themes_loop themes rest
                | Raise e => (Raise e, rest)
                end
              else themes_loop selected rest
            else themes_loop selected rest
        | Raise ValueError => themes_loop selected rest
        | Raise e => (Raise e, rest)
        end
    end
  else (Return selected, lines).
Proof. destruct lines; reflexivity. Qed.

Lemma in_vocabulary_bounds (c : Z) :
  in_vocabulary c = true <-> 1 <= c + 1 <= 10.
Proof.
  unfold in_vocabulary. simpl length.
  rewrite andb_true_iff, Z.leb_le, Z.ltb_lt. lia.
Qed.

Lemma count_in_range (n : nat) :
  (2 <=? n)%nat && (n <=? 4)%nat = true <-> (2 <= n <= 4)%nat.
Proof. rewrite andb_true_iff, !Nat.leb_le. tauto. Qed.

Lemma themes_loop_returns (lines : list string) :
  forall selected sel rest,
    themes_loop selected lines = (Return sel, rest) ->
    (sel = selected /\ rest = lines /\
     (length selected <? 2)%nat || (4 <? length selected)%nat = false) \/
    exists pre line choices,
      lines = pre ++ line :: rest /\
      parse_choices line = Return choices /\
      forallb in_vocabulary choices = true /\
      (2 <= length choices <= 4)%nat /\
      rmapM (fun c => getitem MENTAL_HEALTH_THEMES (Z.to_nat c)) choices = Return sel.
Proof.
  induction lines as [|line lines IH]; intros selected sel rest;
    rewrite themes_loop_eq;
    destruct ((length selected <? 2)%nat || (4 <? length selected)%nat) eqn:Ec;
    intros H; try discriminate; try (injection H as <- <-; auto; fail).
  assert (Hskip : themes_loop selected lines = (Return sel, rest) ->
    exists pre l choices,
      line :: lines = pre ++ l :: rest /\
      parse_choices l = Return choices /\
      forallb in_vocabulary choices = true /\
      (2 <= length choices <= 4)%nat /\
      rmapM (fun c => getitem MENTAL_HEALTH_THEMES (Z.to_nat c)) choices = Return sel).
  { intros Hc.
    apply IH in Hc as [(_ & _ & Hc) | (pre & l & ch & -> & Hp & Hv & Hn & Hm)].
    - congruence.
    - exists (line :: pre), l, ch. auto. }
  right.
  destruct (parse_choices line) as [choices|[]] eqn:Ep; try discriminate; auto.
  destruct (forallb in_vocabulary choices) eqn:Ev; auto.
  destruct ((2 <=? length choices)%nat && (length choices <=? 4)%nat) eqn:En; auto.
  apply count_in_range in En.
  destruct (rmapM _ choices) as [themes|] eqn:Em; [|discriminate].
  apply IH in H as [(-> & -> & _) | (pre & l & ch & -> & Hp & Hv & Hn & Hm)].
  - exists [], line, choices. auto.
  - exists (line :: pre), l, ch. auto.
Qed.

Lemma themes_loop_reprompt (line : string) (more : list string) (choices : list Z) :
  parse_choices line = Return choices ->
  (length choices < 2)%nat \/ (4 < length choices)%nat \/
    Exists (fun c => ~ 1 <= c + 1 <= 10) choices ->
  themes_loop [] (line :: more) = themes_loop [] more.
Proof.
  intros Hp Hbad. rewrite themes_loop_eq. simpl length. simpl orb. cbv iota.
  rewrite Hp.
  destruct (forallb in_vocabulary choices) eqn:Ev; [|reflexivity].
  destruct ((2 <=? length choices)%nat && (length choices <=? 4)%nat) eqn:En;
    [|reflexivity].
  exfalso. apply count_in_range in En.
  destruct Hbad as [Hb | [Hb | Hb]]; try lia.
  apply Exists_exists in Hb as (c & Hc & Hout).
  rewrite forallb_forall in Ev. apply Hout, in_vocabulary_bounds, Ev.
  apply list_elem_of_In, Hc.
Qed.

Lemma themes_known (choices : list Z) (sel : list string) :
  rmapM (fun c => getitem MENTAL_HEALTH_THEMES (Z.to_nat c)) choices = Return sel ->
  Forall2 (fun c t => MENTAL_HEALTH_THEMES !! Z.to_nat c = Some t) choices sel.
Proof.
  intros H. apply rmapM_Forall2 in H.
  eapply Forall2_impl; [exact H|]. intros c t. unfold getitem.
  destruct (MENTAL_HEALTH_THEMES !! Z.to_nat c); [|discriminate].
  intros E. injection E as ->. reflexivity.
Qed.

(** What [select_mental_health_themes] does return: the themes at the
    positions typed on one accepted line, in the order typed and with repeats
    kept.  That line has two to four comma-separated entries, each a 1-based
    position between 1 and 10, so the selection has two to four members, all
    of the vocabulary.  A line of numbers with fewer than two or more than
    four entries, or with a position outside 1..10, is answered by asking
    again. *)
Lemma theme_selection_returns
    (lines : list string) (sel : list string) (rest : list string) :
  select_mental_health_themes lines = (Return sel, rest) ->
  (2 <= length sel <= 4)%nat /\
  Forall (fun t => t ∈ MENTAL_HEALTH_THEMES) sel /\
  (exists pre line choices,
     lines = pre ++ line :: rest /\
     parse_choices line = Return choices /\
     Forall (fun c => 1 <= c + 1 <= 10) choices /\
     Forall2 (fun c t => MENTAL_HEALTH_THEMES !! Z.to_nat c = Some t) choices sel) /\
  (forall line more choices,
     parse_choices line = Return choices ->
     (length choices < 2)%nat \/ (4 < length choices)%nat \/
       Exists (fun c => ~ 1 <= c + 1 <= 10) choices ->
     select_mental_health_themes (line :: more) = select_mental_health_themes more).
Proof.
  unfold select_mental_health_themes. intros H.
  apply themes_loop_returns in H
    as [(_ & _ & Hc) | (pre & line & choices & -> & Hp & Hv & Hn & Hm)];
    [discriminate|].
  apply themes_known in Hm.
  assert (Hlen : length choices = length sel) by (eapply Forall2_length, Hm).
  repeat split.
  - lia.
  - lia.
  - apply Forall_forall. intros t Ht.
    apply list_elem_of_lookup in Ht as [i Hi].
    destruct (Forall2_lookup_r _ _ _ _ _ Hm Hi) as (c & _ & Hc).
    apply list_elem_of_lookup. eauto.
  - exists pre, line, choices. repeat split; [exact Hp | | exact Hm].
    apply Forall_forall. intros c Hc. apply in_vocabulary_bounds.
    rewrite forallb_forall in Hv. apply Hv, list_elem_of_In, Hc.
  - intros l more ch. apply themes_loop_reprompt.
Qed.

Lemma theme_selection_run :
  (2 <= length ["anxiety"; "stress_management"; "grief"] <= 4)%nat /\
  Forall (fun t => t ∈ MENTAL_HEALTH_THEMES) ["anxiety"; "stress_management"; "grief"] /\
  (exists pre line choices,
     ["7"; "1,3,50"; "1,3,5"; "next"] = pre ++ line :: ["next"] /\
     parse_choices line = Return choices /\
     Forall (fun c => 1 <= c + 1 <= 10) choices /\
     Forall2 (fun c t => MENTAL_HEALTH_THEMES !! Z.to_nat c = Some t) choices
       ["anxiety"; "stress_management"; "grief"]) /\
  (forall line more choices,
     parse_choices line = Return choices ->
     (length choices < 2)%nat \/ (4 < length choices)%nat \/
       Exists (fun c => ~ 1 <= c + 1 <= 10) choices ->
     select_mental_health_themes (line :: more) = select_mental_health_themes more).
Proof.
  apply (theme_selection_returns ["7"; "1,3,50"; "1,3,5"; "next"]
           ["anxiety"; "stress_management"; "grief"] ["next"]).
  reflexivity.
Defined.

(** C2: the selection returned can hold the same theme more than once, so it
    need not consist of 2 to 4 distinct values.  The function, whose
    docstring and banner read "select 2-4 mental health themes" and "Choose
    2-4", counts the entries typed and never compares them: the line [1,1]
    is accepted and gives one theme, twice.  In the second run a line that
    is not a list of numbers, an empty line, a line with a fifth entry that
    is no number, a single position and a position outside the vocabulary
    are each answered by asking again, and the line that names the fourth
    theme four times is accepted. *)
Theorem C2_selection_may_repeat_a_theme :
  select_mental_health_themes ["1,1"] = (Return ["anxiety"; "anxiety"], []) /\
  parse_choices "1,1" = Return [0; 0] /\
  ~ NoDup ["anxiety"; "anxiety"] /\
  select_mental_health_themes
    ["abc"; ""; "1,2,3,4,x"; "7"; "1,3,50"; "4, 4 ,4,4"; "next"]
  = (Return ["burnout"; "burnout"; "burnout"; "burnout"], ["next"]).
Proof.
  split; [reflexivity|]. split; [reflexivity|]. split; [|reflexivity].
  intros H. apply NoDup_cons in H as [H _].
  apply H. constructor.
Qed.

(** ** The quotation *)

Lemma get_quote_from_text_eq (depth : nat) (raw_content : string) (lines : list string) :
  get_quote_from_text (S depth) raw_content lines =
  match collect 10 lines with
  | (Return quote, after) =>
      if negb (Str.contains (Str.lower raw_content) (Str.lower quote)) then
        match after with
        | [] => (Raise EOFError, [])
        | answer :: more =>
            if negb (String.eqb (Str.lower answer) "y")
            then get_quote_from_text depth raw_content more
            else (Return quote, more)
        end
      else (Return quote, after)
  | (Raise e, after) => (Raise e, after)
  end.
Proof.
  simpl. unfold bind at 1.
  destruct (collect 10 lines) as [[quote|e] after]; [|reflexivity].
  destruct (negb (Str.contains _ _)); [|reflexivity].
  unfold bind, input. destruct after as [|answer more]; [reflexivity|].
  destruct (negb (String.eqb _ _)); reflexivity.
Qed.

Lemma get_quote_from_text_returns (raw_content : string) (depth : nat) :
  forall lines q rest,
    get_quote_from_text depth raw_content lines = (Return q, rest) ->
    too_short 10 q = false /\
    ((Str.contains (Str.lower raw_content) (Str.lower q) = true /\
      exists pre line, lines = pre ++ line :: rest /\ Str.strip line = q) \/
     (Str.contains (Str.lower raw_content) (Str.lower q) = false /\
      exists pre line answer,
        lines = pre ++ line :: answer :: rest /\ Str.strip line = q /\
        Str.lower answer = "y")).
Proof.
  induction depth as [|depth IH]; intros lines q rest; [discriminate|].
  rewrite get_quote_from_text_eq.
  destruct (collect 10 lines) as [[quote|e] after] eqn:Ec; [|discriminate].
  apply collect_returns in Ec as (Hs & pre & line & -> & -> & _).
  destruct (Str.contains _ _) eqn:Ein; simpl negb; cbv iota.
  - intros H. injection H as <- <-. split; [exact Hs|]. left.
    split; [exact Ein|]. exists pre, line. auto.
  - destruct after as [|answer more]; [discriminate|].
    destruct (String.eqb (Str.lower answer) "y") eqn:Ey; simpl negb; cbv iota.
    + intros H. injection H as <- <-. split; [exact Hs|]. right.
      split; [exact Ein|]. apply String.eqb_eq in Ey.
      exists pre, line, answer. auto.
    + intros H. apply IH in H as [Hq Hcase]. split; [exact Hq|].
      destruct Hcase as [[Hin (pre' & l & -> & Hl)] | [Hin (pre' & l & a & -> & Hl & Ha)]].
      * left. split; [exact Hin|].
        exists (pre ++ line :: answer :: pre'), l.
        split; [|exact Hl]. rewrite <- !app_assoc. reflexivity.
      * right. split; [exact Hin|].
        exists (pre ++ line :: answer :: pre'), l, a.
        split; [|auto]. rewrite <- !app_assoc. reflexivity.
Qed.

Lemma get_quote_from_text_confirmed (raw_content : string) (depth : nat)
    (line answer : string) (more : list string) :
  (10 <= len (Str.strip line))%nat ->
  Str.contains (Str.lower raw_content) (Str.lower (Str.strip line)) = false ->
  Str.lower answer = "y" ->
  get_quote_from_text (S depth) raw_content (line :: answer :: more)
  = (Return (Str.strip line), more).
Proof.
  intros Hlen Hin Hy. rewrite get_quote_from_text_eq, collect_long.
  - rewrite Hin, Hy. reflexivity.
  - destruct (too_short 10 (Str.strip line)) eqn:E; [|reflexivity].
    apply too_short_lt in E; lia.
Qed.

Lemma get_quote_from_text_declined (raw_content : string) (depth : nat)
    (line answer : string) (more : list string) :
  (10 <= len (Str.strip line))%nat ->
  Str.contains (Str.lower raw_content) (Str.lower (Str.strip line)) = false ->
  Str.lower answer <> "y" ->
  get_quote_from_text (S depth) raw_content (line :: answer :: more)
  = get_quote_from_text depth raw_content more.
Proof.
  intros Hlen Hin Hy. rewrite get_quote_from_text_eq, collect_long.
  - rewrite Hin. apply String.eqb_neq in Hy. rewrite Hy. reflexivity.
  - destruct (too_short 10 (Str.strip line)) eqn:E; [|reflexivity].
    apply too_short_lt in E; lia.
Qed.

(** C4: a quote returned by [get_quote_from_text] is trimmed and at least ten
    characters long, and either its lower-case form occurs in the lower-case
    source text, or the line typed right after it was [y] or [Y], the
    operator's answer to the override question.  A quote that is not found is
    never refused outright: answered with [y] it is returned, answered with
    anything else the prompt starts over. *)
Theorem C4_quote_found_or_confirmed
    (depth : nat) (raw_content : string) (lines : list string)
    (q : string) (rest : list string) :
  get_quote_from_text depth raw_content lines = (Return q, rest) ->
  (10 <= len (Str.strip q))%nat /\ Str.strip q = q /\
  ((Str.contains (Str.lower raw_content) (Str.lower q) = true /\
    exists pre line, lines = pre ++ line :: rest /\ Str.strip line = q) \/
   (Str.contains (Str.lower raw_content) (Str.lower q) = false /\
    exists pre line answer,
      lines = pre ++ line :: answer :: rest /\ Str.strip line = q /\
      Str.lower answer = "y")) /\
  (forall d line answer more,
     (10 <= len (Str.strip line))%nat ->
     Str.contains (Str.lower raw_content) (Str.lower (Str.strip line)) = false ->
     (Str.lower answer = "y" ->
      get_quote_from_text (S d) raw_content (line :: answer :: more)
      = (Return (Str.strip line), more)) /\
     (Str.lower answer <> "y" ->
      get_quote_from_text (S d) raw_content (line :: answer :: more)
      = get_quote_from_text d raw_content more)).
Proof.
  intros H. apply get_quote_from_text_returns in H as [Hs Hcase].
  assert (Hq : Str.strip q = q).
  { destruct Hcase as [[_ (pre & l & _ & <-)] | [_ (pre & l & a & _ & <- & _)]];
      apply strip_idem. }
  apply too_short_false in Hs as [Hlen _]. rewrite Hq.
  repeat split; try assumption.
  - apply get_quote_from_text_confirmed; assumption.
  - apply get_quote_from_text_declined; assumption.
Qed.

Lemma C4_quote_found_or_confirmed_witness :
  (10 <= len (Str.strip "a line that is not there"))%nat /\
  Str.strip "a line that is not there" = "a line that is not there" /\
  ((Str.contains (Str.lower "Role Model: Jane Doe") (Str.lower "a line that is not there") = true /\
    exists pre line,
      ["short"; "never said this"; "n"; " a line that is not there "; "Y"; "next"]
      = pre ++ line :: ["next"] /\ Str.strip line = "a line that is not there") \/
   (Str.contains (Str.lower "Role Model: Jane Doe") (Str.lower "a line that is not there") = false /\
    exists pre line answer,
      ["short"; "never said this"; "n"; " a line that is not there "; "Y"; "next"]
      = pre ++ line :: answer :: ["next"] /\
      Str.strip line = "a line that is not there" /\ Str.lower answer = "y")) /\
  (forall d line answer more,
     (10 <= len (Str.strip line))%nat ->
     Str.contains (Str.lower "Role Model: Jane Doe") (Str.lower (Str.strip line)) = false ->
     (Str.lower answer = "y" ->
      get_quote_from_text (S d) "Role Model: Jane Doe" (line :: answer :: more)
      = (Return (Str.strip line), more)) /\
     (Str.lower answer <> "y" ->
      get_quote_from_text (S d) "Role Model: Jane Doe" (line :: answer :: more)
      = get_quote_from_text d "Role Model: Jane Doe" more)).
Proof.
  apply (C4_quote_found_or_confirmed 3 "Role Model: Jane Doe"
           ["short"; "never said this"; "n"; " a line that is not there "; "Y"; "next"]
           "a line that is not there" ["next"]).
  reflexivity.
Defined.

(** ** The header of a source text *)

Lemma startswith_app (p : string) :
  forall s, Str.startswith s p = true -> exists t, s = p +:+ t.
Proof.
  induction p as [|a p IH]; intros s H.
  - exists s. reflexivity.
  - destruct s as [|b s]; [discriminate|]. simpl in H.
    destruct (ascii_dec a b) as [->|]; [|discriminate].
    apply IH in H as [t ->]. exists t. reflexivity.
Qed.

Lemma lower_app_inv (p : string) :
  forall s t, Str.lower s = p +:+ t ->
    exists a b, s = a +:+ b /\ Str.lower a = p /\ Str.lower b = t.
Proof.
  induction p as [|c p IH]; intros s t H.
  - exists "", s. auto.
  - destruct s as [|d s]; [discriminate|]. simpl in H.
    injection H as Hc H. apply IH in H as (a & b & -> & <- & <-).
    exists (String d a), b. simpl. rewrite Hc. auto.
Qed.

Lemma lower_char_colon (c : ascii) : Str.lower_char c = ":"%char -> c = ":"%char.
Proof.
  destruct c as [[] [] [] [] [] [] [] []]; vm_compute; intros H;
    first [reflexivity | discriminate H].
Qed.

Lemma has_char_lower_colon (s : string) :
  has_char ":" (Str.lower s) = false -> has_char ":" s = false.
Proof.
  induction s as [|c s IH]; simpl; [reflexivity|].
  destruct (ascii_dec (Str.lower_char c) ":"); [discriminate|].
  intros H. destruct (ascii_dec c ":") as [->|]; [|auto].
  exfalso. apply n. reflexivity.
Qed.

Lemma split1_at_first (sep : ascii) (label value : string) :
  has_char sep label = false ->
  Str.split1 sep (label +:+ String sep value) = [label; value].
Proof.
  induction label as [|c label IH]; simpl.
  - intros _. destruct (ascii_dec sep sep); [reflexivity | congruence].
  - destruct (ascii_dec c sep); [discriminate|].
    intros H. rewrite IH by exact H. reflexivity.
Qed.

Lemma header_shape (line : string) :
  is_header line = true ->
  exists label value,
    line = label +:+ ":" +:+ value /\ Str.lower label = "role model" /\
    Str.split1 ":" line = [label; value].
Proof.
  unfold is_header. intros H.
  apply startswith_app in H as [t H].
  change ("role model:" +:+ t) with ("role model" +:+ (":" +:+ t)) in H.
  apply lower_app_inv in H as (label & tail & -> & Hl & Ht).
  destruct tail as [|c value]; [discriminate|].
  simpl in Ht. injection Ht as Hc _. apply lower_char_colon in Hc as ->.
  exists label, value. repeat split; [exact Hl|].
  apply split1_at_first, has_char_lower_colon. rewrite Hl. reflexivity.
Qed.

Lemma infer_lines_find (lines : list string) :
  match List.find is_header lines with
  | Some line =>
      exists label value,
        line = label +:+ ":" +:+ value /\ Str.lower label = "role model" /\
        infer_lines lines = Return (Some (Str.strip value))
  | None => infer_lines lines = Return None
  end.
Proof.
  induction lines as [|line lines IH]; simpl; [reflexivity|].
  fold (is_header line). destruct (is_header line) eqn:E; [|exact IH].
  destruct (header_shape line E) as (label & value & Hline & Hl & Hs).
  exists label, value. rewrite Hs. auto.
Qed.

(** C6 (as amended): [infer_role_model_name_from_raw] looks at the first line
    of the text that starts with [role model:] in any letter case: that line
    is a label, a colon and a value, the label spelling [role model], and the
    function returns the value trimmed; with no such line it returns nothing.
    A text whose first such line is [Role Model: Jane Doe], wherever it
    stands, gives [Jane Doe]. *)
Theorem C6_infer_role_model_name (raw_content : string) :
  match List.find is_header (Str.splitlines raw_content) with
  | Some line =>
      exists label value,
        line = label +:+ ":" +:+ value /\ Str.lower label = "role model" /\
        infer_role_model_name_from_raw raw_content = Return (Some (Str.strip value))
  | None => infer_role_model_name_from_raw raw_content = Return None
  end /\
  (List.find is_header (Str.splitlines raw_content) = Some "Role Model: Jane Doe" ->
   infer_role_model_name_from_raw raw_content = Return (Some "Jane Doe")).
Proof.
  unfold infer_role_model_name_from_raw.
  pose proof (infer_lines_find (Str.splitlines raw_content)) as H.
  split; [exact H|]. intros E. rewrite E in H.
  destruct H as (label & value & Hline & Hl & ->).
  destruct (header_shape "Role Model: Jane Doe" eq_refl) as (l' & v' & Hline' & Hl' & Hs').
  assert (Hs : Str.split1 ":" "Role Model: Jane Doe" = [label; value]).
  { rewrite Hline. apply split1_at_first, has_char_lower_colon.
    rewrite Hl. reflexivity. }
  vm_compute in Hs. injection Hs as <- <-. reflexivity.
Qed.

Lemma C6_infer_role_model_name_witness :
  infer_role_model_name_from_raw
    ("A story" +:+ String "010" "Role Model: Jane Doe" +:+ String "010" "role model: other")
  = Return (Some "Jane Doe").
Proof.
  apply (proj2 (C6_infer_role_model_name
    ("A story" +:+ String "010" "Role Model: Jane Doe" +:+ String "010" "role model: other"))).
  reflexivity.
Defined.

(** C6, as first stated, fails: this text contains the line
    [Role Model: Jane Doe], yet an earlier line already starts with the label
    and the name inferred is the earlier one. *)
Lemma C6_earlier_header_wins :
  In "Role Model: Jane Doe"
     (Str.splitlines ("role model: John Roe" +:+ String "010" "Role Model: Jane Doe")) /\
  infer_role_model_name_from_raw
    ("role model: John Roe" +:+ String "010" "Role Model: Jane Doe")
  = Return (Some "John Roe").
Proof. split; [right; left; reflexivity | reflexivity]. Qed.

(** ** Scanning the output folder *)

Lemma int_digits_raises (s : string) :
  forall acc u e, Str.int_digits acc u s = Raise e -> e = ValueError.
Proof.
  induction s as [|c s IH]; intros acc u e; simpl.
  - destruct u; [|discriminate]. intros H. injection H as <-. reflexivity.
  - destruct (ascii_dec c "_").
    + destruct u; [intros H; injection H as <-; reflexivity | apply IH].
    + destruct (Str.digit c); [apply IH|].
      intros H. injection H as <-. reflexivity.
Qed.

Lemma int_body_raises (s : string) (e : exn) :
  Str.int_body s = Raise e -> e = ValueError.
Proof.
  destruct s as [|c s]; simpl.
  - intros H. injection H as <-. reflexivity.
  - destruct (Str.digit c); [apply int_digits_raises|].
    intros H. injection H as <-. reflexivity.
Qed.

Lemma int_raises (s : string) (e : exn) : Str.int s = Raise e -> e = ValueError.
Proof.
  unfold Str.int.
  assert (Hneg : forall r, rbind (Str.int_body r) (fun n => Return (- n)) = Raise e ->
                           e = ValueError).
  { intros r. destruct (Str.int_body r) eqn:E; [discriminate|].
    simpl. intros H. injection H as <-. eapply int_body_raises, E. }
  destruct (Str.strip_by Str.int_space s) as [|c t] eqn:E.
  - apply int_body_raises.
  - destruct c as [[] [] [] [] [] [] [] []];
      first [apply int_body_raises | apply Hneg].
Qed.

Lemma getitem_nth {A} (l : list A) (i : nat) (d : A) :
  (i < length l)%nat -> getitem l i = Return (nth i l d).
Proof.
  intros H. unfold getitem.
  destruct (l !! i) as [a|] eqn:E.
  - f_equal. symmetry. apply nth_lookup_Some with (d := d) in E. exact E.
  - apply lookup_ge_None in E. lia.
Qed.

Lemma cons_head_length (c : ascii) (l : list string) :
  (1 <= length (Str.cons_head c l))%nat.
Proof. destruct l; simpl; lia. Qed.

Lemma split_length (sep : ascii) (s : string) : (1 <= length (Str.split sep s))%nat.
Proof.
  destruct s as [|c s]; simpl; [lia|].
  destruct (ascii_dec c sep); [simpl; lia | apply cons_head_length].
Qed.

Lemma scan_files_cons (clean_name roll_number fname : string) (rest : list string)
    (existing_numbers : list Z) :
  scan_files clean_name roll_number (fname :: rest) existing_numbers
  = if negb (Str.endswith fname ".json") then
      scan_files clean_name roll_number rest existing_numbers
    else
      if (length (Str.split "_" fname) <? 3)%nat then
        scan_files clean_name roll_number rest existing_numbers
      else
        let? file_clean_name := getitem (Str.split "_" fname) 0 in
        let? story_part := getitem (Str.split "_" fname) 1 in
        let? third := getitem (Str.split "_" fname) 2 in
        let? roll_part := getitem (Str.split "." third) 0 in
        if negb (String.eqb file_clean_name clean_name) then
          scan_files clean_name roll_number rest existing_numbers
        else if negb (String.eqb roll_part roll_number) then
          scan_files clean_name roll_number rest existing_numbers
        else
          match Str.int story_part with
          | Return n =>
              scan_files clean_name roll_number rest (existing_numbers ++ [n])
          | Raise ValueError =>
              scan_files clean_name roll_number rest existing_numbers
          | Raise e => Raise e
          end.
Proof. reflexivity. Qed.

Lemma scan_files_eq (clean_name roll_number fname : string) (rest : list string)
    (existing_numbers : list Z) :
  scan_files clean_name roll_number (fname :: rest) existing_numbers
  = scan_files clean_name roll_number rest
      (existing_numbers ++ counted clean_name roll_number fname).
Proof.
  rewrite scan_files_cons.
  unfold counted, matches_pattern, subject_segment, sequence_segment, operator_segment.
  rewrite Nat.ltb_antisym.
  destruct (Str.endswith fname ".json"); cbn [negb andb];
    [|rewrite app_nil_r; reflexivity].
  destruct (3 <=? length (Str.split "_" fname))%nat eqn:El; cbn [negb andb];
    [|rewrite app_nil_r; reflexivity].
  apply Nat.leb_le in El.
  rewrite (getitem_nth (Str.split "_" fname) 0 "") by lia.
  rewrite (getitem_nth (Str.split "_" fname) 1 "") by lia.
  rewrite (getitem_nth (Str.split "_" fname) 2 "") by lia.
  cbn [rbind].
  rewrite (getitem_nth (Str.split "." _) 0 "") by apply split_length.
  cbn [rbind].
  destruct (String.eqb (nth 0 (Str.split "_" fname) "") clean_name);
    cbn [negb andb]; [|rewrite app_nil_r; reflexivity].
  destruct (String.eqb _ roll_number);
    cbn [negb andb]; [|rewrite app_nil_r; reflexivity].
  destruct (Str.int (nth 1 (Str.split "_" fname) "")) as [n|e] eqn:Ei;
    [reflexivity|].
  apply int_raises in Ei as ->. rewrite app_nil_r. reflexivity.
Qed.

Lemma scan_files_counted (clean_name roll_number : string) (fnames : list string) :
  forall existing_numbers,
    scan_files clean_name roll_number fnames existing_numbers
    = Return (existing_numbers ++ flat_map (counted clean_name roll_number) fnames).
Proof.
  induction fnames as [|fname rest IH]; intros acc.
  - simpl. rewrite app_nil_r. reflexivity.
  - rewrite scan_files_eq, IH. simpl flat_map. rewrite app_assoc. reflexivity.
Qed.

(** The number computed from the numbers counted. *)
Lemma next_story_number_counted (role_model_name roll_number : string)
    (listing : list string) :
  next_story_number role_model_name roll_number listing
  = Return
      match flat_map (counted (sanitize_role_model_name role_model_name) roll_number)
                     listing with
      | [] => 1
      | x :: xs => fold_left Z.max xs x + 1
      end.
Proof.
  unfold next_story_number. rewrite scan_files_counted. simpl.
  destruct (flat_map _ listing); reflexivity.
Qed.

Lemma get_next_story_number_eq (role_model_name roll_number : string) (w : world) :
  get_next_story_number role_model_name roll_number w
  = (next_story_number role_model_name roll_number (dir_listing (output_folder w)), w).
Proof. reflexivity. Qed.

(** ** The parts of a file name *)

Lemma cons_head_Forall (P : string -> Prop) (c : ascii) (l : list string) :
  P (String c "") -> (forall x, P x -> P (String c x)) ->
  Forall P l -> Forall P (Str.cons_head c l).
Proof.
  intros H0 Hc Hl. destruct Hl as [|x xs Hx Hxs]; simpl; constructor; auto.
Qed.

Lemma split_without_sep (sep : ascii) (s : string) :
  Forall (fun p => has_char sep p = false) (Str.split sep s).
Proof.
  induction s as [|c s IH]; simpl.
  - repeat constructor.
  - destruct (ascii_dec c sep) as [|Hne].
    + constructor; [reflexivity | exact IH].
    + apply cons_head_Forall; [| |exact IH]; simpl;
        destruct (ascii_dec c sep); try contradiction; auto.
Qed.

Lemma split_keeps_absent (c sep : ascii) (s : string) :
  has_char c s = false ->
  Forall (fun p => has_char c p = false) (Str.split sep s).
Proof.
  induction s as [|d s IH]; simpl.
  - intros _. repeat constructor.
  - destruct (ascii_dec d c) as [|Hne]; [discriminate|]. intros H.
    destruct (ascii_dec d sep).
    + constructor; [reflexivity | auto].
    + apply cons_head_Forall; [| |auto]; simpl;
        destruct (ascii_dec d c); try contradiction; auto.
Qed.

Lemma nth_Forall_default (P : string -> Prop) (l : list string) (i : nat) :
  P "" -> Forall P l -> P (nth i l "").
Proof.
  intros H0 Hl. revert i. induction Hl as [|x xs Hx _ IH]; intros [|i]; simpl; auto.
Qed.

Lemma segments_without_separators (fname : string) :
  has_char "_" (subject_segment fname) = false /\
  has_char "_" (operator_segment fname) = false /\
  has_char "." (operator_segment fname) = false.
Proof.
  unfold subject_segment, operator_segment. repeat split.
  - apply (nth_Forall_default (fun p => has_char "_" p = false));
      [reflexivity | apply split_without_sep].
  - apply (nth_Forall_default (fun p => has_char "_" p = false)); [reflexivity|].
    apply split_keeps_absent.
    apply (nth_Forall_default (fun p => has_char "_" p = false));
      [reflexivity | apply split_without_sep].
  - apply (nth_Forall_default (fun p => has_char "." p = false));
      [reflexivity | apply split_without_sep].
Qed.

Lemma split_at_first (sep : ascii) (a b : string) :
  has_char sep a = false ->
  Str.split sep (a +:+ String sep b) = a :: Str.split sep b.
Proof.
  induction a as [|c a IH]; simpl.
  - intros _. destruct (ascii_dec sep sep); [reflexivity | congruence].
  - destruct (ascii_dec c sep); [discriminate|].
    intros H. rewrite IH by exact H. reflexivity.
Qed.

Lemma subject_segment_prefix (a b : string) :
  has_char "_" a = false -> subject_segment (a +:+ "_" +:+ b) = a.
Proof.
  intros H. unfold subject_segment.
  change (a +:+ "_" +:+ b) with (a +:+ String "_" b).
  rewrite split_at_first by exact H. reflexivity.
Qed.

Lemma counted_nil (clean_name roll_number fname : string) :
  matches_pattern fname = false \/
  subject_segment fname <> clean_name \/
  operator_segment fname <> roll_number \/
  (forall n, Str.int (sequence_segment fname) <> Return n) ->
  counted clean_name roll_number fname = [].
Proof.
  unfold counted. intros [H | [H | [H | H]]].
  - rewrite H. reflexivity.
  - apply String.eqb_neq in H. rewrite H, andb_false_r. reflexivity.
  - apply String.eqb_neq in H. rewrite H, andb_false_r. reflexivity.
  - destruct (_ && _ && _); [|reflexivity].
    destruct (Str.int (sequence_segment fname)) as [n|e]; [|reflexivity].
    destruct (H n eq_refl).
Qed.

Lemma counted_nil_separator (clean_name roll_number fname : string) :
  has_char "_" clean_name = true \/
  has_char "_" roll_number = true \/ has_char "." roll_number = true ->
  counted clean_name roll_number fname = [].
Proof.
  intros H. apply counted_nil. right.
  destruct (segments_without_separators fname) as (Hs & Ho & Hd).
  destruct H as [H | [H | H]].
  - left. intros E. rewrite E in Hs. congruence.
  - right. left. intros E. rewrite E in Ho. congruence.
  - right. left. intros E. rewrite E in Hd. congruence.
Qed.

Lemma next_story_number_total (role_model_name roll_number : string)
    (listing : list string) :
  exists n, next_story_number role_model_name roll_number listing = Return n.
Proof. rewrite next_story_number_counted. eauto. Qed.

(** What [get_next_story_number] does pass over.  It returns a number,
    without raising, whatever the output folder holds; and a file name adds
    nothing, the result being the one computed without it, when it does not
    end in [.json] or has fewer than three underscore-separated parts, when
    its first part is not the sanitized subject name, when its third part up
    to the first dot is not the roll number, or when [int] rejects its second
    part.  The parts are those the code cuts, not those the name was written
    from. *)
Lemma cut_mismatch_is_skipped
    (role_model_name roll_number : string)
    (before : list string) (fname : string) (after : list string) :
  matches_pattern fname = false \/
  subject_segment fname <> sanitize_role_model_name role_model_name \/
  operator_segment fname <> roll_number \/
  (forall n, Str.int (sequence_segment fname) <> Return n) ->
  next_story_number role_model_name roll_number (before ++ fname :: after)
  = next_story_number role_model_name roll_number (before ++ after) /\
  (exists n,
     next_story_number role_model_name roll_number (before ++ fname :: after)
     = Return n) /\
  (forall w, exists n,
     get_next_story_number role_model_name roll_number w = (Return n, w)).
Proof.
  intros H. repeat split.
  - rewrite !next_story_number_counted, !flat_map_app. simpl flat_map.
    rewrite (counted_nil _ _ _ H). reflexivity.
  - apply next_story_number_total.
  - intros w. rewrite get_next_story_number_eq.
    destruct (next_story_number_total role_model_name roll_number
                (dir_listing (output_folder w))) as [n ->].
    eauto.
Qed.

Lemma cut_mismatch_is_skipped_run :
  next_story_number "Jane Doe" "42"
    (["JaneDoe_1_42.json"; "notes.txt"] ++ "JaneDoe_draft_42.json" :: ["JohnRoe_9_42.json"])
  = next_story_number "Jane Doe" "42"
    (["JaneDoe_1_42.json"; "notes.txt"] ++ ["JohnRoe_9_42.json"]) /\
  (exists n,
     next_story_number "Jane Doe" "42"
       (["JaneDoe_1_42.json"; "notes.txt"] ++ "JaneDoe_draft_42.json" :: ["JohnRoe_9_42.json"])
     = Return n) /\
  (forall w, exists n, get_next_story_number "Jane Doe" "42" w = (Return n, w)).
Proof.
  apply (cut_mismatch_is_skipped "Jane Doe" "42"
           ["JaneDoe_1_42.json"; "notes.txt"] "JaneDoe_draft_42.json"
           ["JohnRoe_9_42.json"]).
  right. right. right. intros n. vm_compute. discriminate.
Defined.

(** C5: [get_next_story_number] never raises, but it does not skip every
    file of another key.  Its docstring has it compute the next number "for
    this role model + roll number" from files of the pattern
    [RoleModelName_StoryNumber_YourRollNumber.json]; the file names are cut
    at every underscore and the third part at its first dot, so a file
    written for another roll number or another subject can be read as one of
    the key asked for.  [JaneDoe_1_42_x.json] is the first file of roll
    number [42_x], and [JaneDoe_7_42.bak.json] matches no name the program
    writes for roll number [42]; both are counted for [Jane Doe] and roll
    number [42], which gets the numbers 2 and 8 where 1 is due.
    [JaneDoe_5_1_42.json] is the first file of subject [JaneDoe_5] and roll
    number [42]; it is counted, as number 5, for subject [JaneDoe] and roll
    number [1]. *)
Theorem C5_file_of_another_key_is_counted :
  (forall role_model_name roll_number listing,
     exists n, next_story_number role_model_name roll_number listing = Return n) /\
  next_story_number "Jane Doe" "42" [] = Return 1 /\
  output_filename_of (sanitize_role_model_name "Jane Doe") 1 "42_x"
  = "JaneDoe_1_42_x.json" /\
  next_story_number "Jane Doe" "42" ["JaneDoe_1_42_x.json"] = Return 2 /\
  next_story_number "Jane Doe" "42" ["JaneDoe_7_42.bak.json"] = Return 8 /\
  output_filename_of (sanitize_role_model_name "JaneDoe_5") 1 "42"
  = "JaneDoe_5_1_42.json" /\
  next_story_number "JaneDoe" "1" ["JaneDoe_5_1_42.json"] = Return 6.
Proof.
  split; [intros; apply next_story_number_total|].
  repeat split; vm_compute; reflexivity.
Qed.

(** C9: [get_next_story_number] compares the part of a file name before its
    first underscore with the sanitized subject name, and the third
    underscore-separated part cut at its first dot with the roll number;
    neither piece can contain an underscore, and the second no dot.  So when
    the sanitized name contains an underscore, or the roll number an
    underscore or a dot, no file is counted and the result is 1 for every
    content of the folder, the files this program wrote for that very key
    included. *)
Theorem C9_separator_in_key_restarts_numbering
    (role_model_name roll_number : string) (listing : list string) :
  has_char "_" (sanitize_role_model_name role_model_name) = true \/
  has_char "_" roll_number = true \/ has_char "." roll_number = true ->
  next_story_number role_model_name roll_number listing = Return 1 /\
  (forall n,
     next_story_number role_model_name roll_number
       (output_filename_of (sanitize_role_model_name role_model_name) n roll_number
          :: listing)
     = Return 1) /\
  (forall w, get_next_story_number role_model_name roll_number w = (Return 1, w)) /\
  (forall fname,
     has_char "_" (subject_segment fname) = false /\
     has_char "_" (operator_segment fname) = false /\
     has_char "." (operator_segment fname) = false) /\
  (forall a b, has_char "_" a = false -> subject_segment (a +:+ "_" +:+ b) = a) /\
  (forall fnames existing,
     scan_files (sanitize_role_model_name role_model_name) roll_number fnames existing
     = Return (existing ++
               flat_map (counted (sanitize_role_model_name role_model_name) roll_number)
                        fnames)).
Proof.
  intros H.
  assert (Hone : forall l, next_story_number role_model_name roll_number l = Return 1).
  { intros l. rewrite next_story_number_counted.
    replace (flat_map _ l) with (@nil Z); [reflexivity|].
    induction l as [|f l IH]; simpl; [reflexivity|].
    rewrite (counted_nil_separator _ _ f H). exact IH. }
  split; [apply Hone|]. split; [intros n; apply Hone|].
  split; [intros w; rewrite get_next_story_number_eq, Hone; reflexivity|].
  split; [apply segments_without_separators|].
  split; [apply subject_segment_prefix | apply scan_files_counted].
Qed.

Lemma C9_separator_in_key_witness :
  next_story_number "Jane Doe" "CS_42" ["JaneDoe_1_CS_42.json"] = Return 1.
Proof.
  apply (C9_separator_in_key_restarts_numbering "Jane Doe" "CS_42"
           ["JaneDoe_1_CS_42.json"]).
  right. left. reflexivity.
Defined.

(** ** Writing an entry *)

Lemma console_folder {A} (m : Console A) (w w' : world) (r : result A) :
  console m w = (r, w') -> output_folder w' = output_folder w.
Proof.
  unfold console. destruct (m (stdin w)) as [r' lines].
  intros H. injection H as _ <-. reflexivity.
Qed.

Lemma contains_eq (s sub : string) :
  Str.contains s sub =
  Str.startswith s sub ||
  match s with
  | EmptyString => false
  | String _ s' => Str.contains s' sub
  end.
Proof. destruct s; reflexivity. Qed.

Lemma os_path_join_plain (fname : string) :
  Str.contains fname "/" = false ->
  os_path_join OUTPUT_FOLDER fname = OUTPUT_FOLDER +:+ "/" +:+ fname.
Proof.
  rewrite contains_eq. intros H. apply orb_false_iff in H as [H _].
  unfold os_path_join. rewrite H. reflexivity.
Qed.

Lemma write_json_returns (fname : string) (entry : json_entry) (w : world)
    (u : unit) (w' : world) :
  write_json fname entry w = (Return u, w') ->
  Str.contains fname NUL = false /\ Str.contains fname "/" = false /\
  w' = {| stdin := stdin w; output_folder := <[fname := entry]> (output_folder w) |}.
Proof.
  unfold write_json.
  destruct (Str.contains fname NUL); [discriminate|].
  destruct (Str.contains fname "/"); [discriminate|].
  intros H. injection H as _ <-. auto.
Qed.

Lemma write_json_raises (fname : string) (entry : json_entry) (w : world)
    (e : exn) (w' : world) :
  write_json fname entry w = (Raise e, w') ->
  w' = w /\
  ((e = ValueError /\ Str.contains fname NUL = true) \/
   (e = PathSeparatorInName /\ Str.contains fname "/" = true)).
Proof.
  unfold write_json.
  destruct (Str.contains fname NUL).
  - intros H. injection H as <- <-. auto.
  - destruct (Str.contains fname "/"); [|discriminate].
    intros H. injection H as <- <-. auto.
Qed.

Lemma create_json_entry_written (depth : nat) (raw_filepath : raw_file)
    (roll_number : string) (w : world) (path : string) (entry : json_entry)
    (w' : world) :
  create_json_entry depth raw_filepath roll_number w = (Return (path, entry), w') ->
  exists n,
    next_story_number (Role_Model_Name entry) roll_number
      (dir_listing (output_folder w)) = Return n /\
    path = os_path_join OUTPUT_FOLDER
             (output_filename_of (sanitize_role_model_name (Role_Model_Name entry))
                n roll_number) /\
    output_folder w' =
      <[output_filename_of (sanitize_role_model_name (Role_Model_Name entry))
          n roll_number := entry]> (output_folder w) /\
    Str.contains
      (output_filename_of (sanitize_role_model_name (Role_Model_Name entry))
         n roll_number) NUL = false /\
    Str.contains
      (output_filename_of (sanitize_role_model_name (Role_Model_Name entry))
         n roll_number) "/" = false.
Proof.
  unfold create_json_entry. intros H.
  unfold bind at 1 in H.
  destruct (console _ w) as [[role_model_name|] w1] eqn:E1; [|discriminate].
  apply console_folder in E1.
  unfold bind at 1 in H. rewrite get_next_story_number_eq in H.
  destruct (next_story_number role_model_name roll_number _) as [n|] eqn:En;
    [|discriminate].
  repeat (unfold bind at 1 in H;
          match type of H with
          | context [console ?m ?v] =>
              let E := fresh "E" in
              destruct (console m v) as [[?|] ?] eqn:E; [|discriminate];
              apply console_folder in E
          end).
  unfold bind at 1 in H.
  match type of H with
  | context [write_json ?f ?x ?v] =>
      destruct (write_json f x v) as [[u|] wz] eqn:Ew; [|discriminate]
  end.
  apply write_json_returns in Ew as (Hnul & Hsep & ->).
  unfold ret in H. injection H as <- <- <-.
  exists n. simpl. rewrite <- E1.
  split; [exact En|]. split; [reflexivity|]. split; [congruence|].
  split; [exact Hnul | exact Hsep].
Qed.

Lemma create_json_entry_returns (depth : nat) (raw_filepath : raw_file)
    (roll_number : string) (w : world) (path : string) (entry : json_entry)
    (w' : world) :
  create_json_entry depth raw_filepath roll_number w = (Return (path, entry), w') ->
  exists n,
    next_story_number (Role_Model_Name entry) roll_number
      (dir_listing (output_folder w)) = Return n /\
    path = os_path_join OUTPUT_FOLDER
             (output_filename_of (sanitize_role_model_name (Role_Model_Name entry))
                n roll_number) /\
    output_folder w' =
      <[output_filename_of (sanitize_role_model_name (Role_Model_Name entry))
          n roll_number := entry]> (output_folder w).
Proof.
  intros H. apply create_json_entry_written in H as (n & Hn & Hp & Hw & _).
  exists n. auto.
Qed.

Lemma remove_char_filter (old : ascii) (s : string) :
  list_ascii_of_string (Str.remove_char old s)
  = List.filter (fun c => negb (Ascii.eqb c old)) (list_ascii_of_string s).
Proof.
  induction s as [|c s IH]; simpl; [reflexivity|].
  destruct (ascii_dec c old) as [->|Hne].
  - rewrite Ascii.eqb_refl. exact IH.
  - apply Ascii.eqb_neq in Hne. rewrite Hne. simpl. rewrite IH. reflexivity.
Qed.

Lemma sanitize_keeps (name : string) :
  list_ascii_of_string (sanitize_role_model_name name)
  = List.filter kept_in_filename (list_ascii_of_string name).
Proof.
  unfold sanitize_role_model_name. rewrite !remove_char_filter.
  induction (list_ascii_of_string name) as [|c l IH]; simpl; [reflexivity|].
  unfold kept_in_filename at 1.
  destruct (Ascii.eqb c " "); simpl; [exact IH|].
  destruct (Ascii.eqb c "'"); simpl; rewrite IH; reflexivity.
Qed.

Lemma next_story_number_empty (role_model_name roll_number : string)
    (folder : gmap string json_entry) :
  folder = ∅ ->
  next_story_number role_model_name roll_number (dir_listing folder) = Return 1.
Proof.
  intros ->. unfold dir_listing. rewrite map_to_list_empty. reflexivity.
Qed.

(** C7: an entry is written under the name made of the sanitized subject
    name, an underscore, the story number in decimal, an underscore, the roll
    number and [.json], inside the output folder; the sanitized name is the
    subject name with its spaces and apostrophes taken out and every other
    character kept in place.  With an empty output folder the number is 1,
    and for subject [Jane Doe] and roll number [42] the name is
    [JaneDoe_1_42.json]. *)
Theorem C7_persisted_filename
    (depth : nat) (raw_filepath : raw_file) (roll_number : string)
    (w : world) (path : string) (entry : json_entry) (w' : world) :
  create_json_entry depth raw_filepath roll_number w = (Return (path, entry), w') ->
  (exists n,
     next_story_number (Role_Model_Name entry) roll_number
       (dir_listing (output_folder w)) = Return n /\
     path = OUTPUT_FOLDER +:+ "/" +:+
            sanitize_role_model_name (Role_Model_Name entry) +:+ "_" +:+
            Str.of_int n +:+ "_" +:+ roll_number +:+ ".json" /\
     output_folder w' =
       <[sanitize_role_model_name (Role_Model_Name entry) +:+ "_" +:+
         Str.of_int n +:+ "_" +:+ roll_number +:+ ".json" := entry]>
         (output_folder w) /\
     (output_folder w = ∅ -> n = 1)) /\
  (forall name,
     list_ascii_of_string (sanitize_role_model_name name)
     = List.filter kept_in_filename (list_ascii_of_string name)) /\
  sanitize_role_model_name "Jane Doe" +:+ "_" +:+ Str.of_int 1 +:+ "_" +:+ "42" +:+ ".json"
  = "JaneDoe_1_42.json".
Proof.
  intros H. apply create_json_entry_written in H as (n & Hn & Hp & Hw & _ & Hsep).
  split; [|split; [apply sanitize_keeps | reflexivity]].
  rewrite (os_path_join_plain _ Hsep) in Hp.
  exists n. repeat split; [exact Hn | exact Hp | exact Hw |].
  intros He. rewrite (next_story_number_empty _ _ _ He) in Hn. congruence.
Qed.

Lemma C7_persisted_filename_witness :
  (exists n,
     next_story_number (Role_Model_Name first_entry) "42"
       (dir_listing (output_folder (fresh_world first_answers))) = Return n /\
     "Generated_JSON_Entries/JaneDoe_1_42.json"
     = OUTPUT_FOLDER +:+ "/" +:+
       sanitize_role_model_name (Role_Model_Name first_entry) +:+ "_" +:+
       Str.of_int n +:+ "_" +:+ "42" +:+ ".json" /\
     output_folder
       {| stdin := []; output_folder := {[ "JaneDoe_1_42.json" := first_entry ]} |} =
       <[sanitize_role_model_name (Role_Model_Name first_entry) +:+ "_" +:+
         Str.of_int n +:+ "_" +:+ "42" +:+ ".json" := first_entry]>
         (output_folder (fresh_world first_answers)) /\
     (output_folder (fresh_world first_answers) = ∅ -> n = 1)) /\
  (forall name,
     list_ascii_of_string (sanitize_role_model_name name)
     = List.filter kept_in_filename (list_ascii_of_string name)) /\
  sanitize_role_model_name "Jane Doe" +:+ "_" +:+ Str.of_int 1 +:+ "_" +:+ "42" +:+ ".json"
  = "JaneDoe_1_42.json".
Proof.
  apply (C7_persisted_filename 10 jane_file "42" (fresh_world first_answers)
           "Generated_JSON_Entries/JaneDoe_1_42.json" first_entry
           {| stdin := []; output_folder := {[ "JaneDoe_1_42.json" := first_entry ]} |}).
  vm_compute. reflexivity.
Defined.

(** ** What a run depends on *)

Section Agreement.
Variables F1 F2 : gmap string json_entry.

Lemma agrees_weaken {A} (m : IO A) : agrees F1 F2 m -> agrees_out F1 F2 m.
Proof. intros H w1 w2 Hs H1 H2. destruct (H w1 w2 Hs H1 H2) as (? & ? & _). auto. Qed.

Lemma agrees_console {A} (m : Console A) : agrees F1 F2 (console m).
Proof.
  intros w1 w2 Hs H1 H2. unfold console. rewrite Hs.
  destruct (m (stdin w2)) as [r lines]. simpl. auto.
Qed.

Lemma agrees_ret {A} (a : A) : agrees F1 F2 (ret a).
Proof. intros w1 w2 Hs H1 H2. simpl. auto. Qed.

Lemma agrees_out_write (fname : string) (entry : json_entry) :
  agrees_out F1 F2 (write_json fname entry).
Proof.
  intros w1 w2 Hs _ _. unfold write_json.
  destruct (Str.contains fname NUL); [simpl; auto|].
  destruct (Str.contains fname "/"); simpl; auto.
Qed.

Lemma agrees_bind {A B} (m : IO A) (k : A -> IO B) :
  agrees F1 F2 m -> (forall a, agrees F1 F2 (k a)) -> agrees F1 F2 (bind m k).
Proof.
  intros Hm Hk w1 w2 Hs H1 H2. unfold bind.
  destruct (Hm w1 w2 Hs H1 H2) as (Hr & Hs' & H1' & H2').
  destruct (m w1) as [[a|e] v1], (m w2) as [[a'|e'] v2]; simpl in *;
    try discriminate.
  - injection Hr as <-. apply Hk; assumption.
  - injection Hr as <-. repeat split; assumption.
Qed.

Lemma agrees_out_bind {A B} (m : IO A) (k : A -> IO B) :
  agrees F1 F2 m -> (forall a, agrees_out F1 F2 (k a)) ->
  agrees_out F1 F2 (bind m k).
Proof.
  intros Hm Hk w1 w2 Hs H1 H2. unfold bind.
  destruct (Hm w1 w2 Hs H1 H2) as (Hr & Hs' & H1' & H2').
  destruct (m w1) as [[a|e] v1], (m w2) as [[a'|e'] v2]; simpl in *;
    try discriminate.
  - injection Hr as <-. apply Hk; assumption.
  - injection Hr as <-. repeat split; assumption.
Qed.

Lemma agrees_next (role_model_name roll_number : string) :
  next_story_number role_model_name roll_number (dir_listing F1)
  = next_story_number role_model_name roll_number (dir_listing F2) ->
  agrees F1 F2 (get_next_story_number role_model_name roll_number).
Proof.
  intros Hn w1 w2 Hs H1 H2. rewrite !get_next_story_number_eq, H1, H2, Hn.
  simpl. auto.
Qed.

Lemma create_json_entry_agrees (depth : nat) (raw_filepath : raw_file)
    (roll_number : string) :
  (forall name,
     next_story_number name roll_number (dir_listing F1)
     = next_story_number name roll_number (dir_listing F2)) ->
  agrees_out F1 F2 (create_json_entry depth raw_filepath roll_number).
Proof.
  intros Hn. unfold create_json_entry.
  apply agrees_out_bind; [apply agrees_console | intros role_model_name].
  apply agrees_out_bind; [apply agrees_next, Hn | intros story_number].
  repeat (apply agrees_out_bind; [apply agrees_console | intros ?]).
  intros w1 w2 Hs H1 H2. unfold bind, write_json, ret.
  destruct (Str.contains _ NUL); [simpl; auto|].
  destruct (Str.contains _ "/"); simpl; auto.
Qed.

End Agreement.

(** C10: [create_json_entry] ends by writing the entry under the computed
    name whatever the folder already holds there: the folder afterwards is
    the folder before with that name bound to the new entry, so an entry
    stored under the same name is replaced and every other file is left as
    it was.  Nothing is raised and nothing more is asked for it: a run with
    the same lines to type in a folder that yields the same story numbers,
    with or without a file of that name, returns the same path and entry
    and reads the same lines. *)
Theorem C10_existing_file_is_overwritten
    (depth : nat) (raw_filepath : raw_file) (roll_number : string)
    (w : world) (path : string) (entry : json_entry) (w' : world) :
  create_json_entry depth raw_filepath roll_number w = (Return (path, entry), w') ->
  exists fname,
    path = os_path_join OUTPUT_FOLDER fname /\
    output_folder w' = <[fname := entry]> (output_folder w) /\
    (forall old, output_folder w !! fname = Some old ->
                 output_folder w' !! fname = Some entry) /\
    (forall other, other <> fname ->
                   output_folder w' !! other = output_folder w !! other) /\
    (forall v,
       stdin v = stdin w ->
       (forall name,
          next_story_number name roll_number (dir_listing (output_folder v))
          = next_story_number name roll_number (dir_listing (output_folder w))) ->
       fst (create_json_entry depth raw_filepath roll_number v) = Return (path, entry) /\
       stdin (snd (create_json_entry depth raw_filepath roll_number v)) = stdin w').
Proof.
  intros H.
  destruct (create_json_entry_returns _ _ _ _ _ _ _ H) as (n & _ & Hp & Hw).
  eexists. split; [exact Hp|]. split; [exact Hw|]. rewrite Hw.
  split; [|split].
  - intros old _. apply lookup_insert_eq.
  - intros other Hne. apply lookup_insert_ne. congruence.
  - intros v Hs Hn.
    destruct (create_json_entry_agrees (output_folder v) (output_folder w)
                depth raw_filepath roll_number Hn v w Hs eq_refl eq_refl)
      as [Hr Hl].
    rewrite Hr, Hl, H. auto.
Qed.

Lemma C10_existing_file_is_overwritten_witness :
  exists fname,
    "Generated_JSON_Entries/JaneDoe_1_CS_42.json" = os_path_join OUTPUT_FOLDER fname /\
    output_folder second_written
    = <[fname := second_entry]> (output_folder first_written) /\
    (forall old, output_folder first_written !! fname = Some old ->
                 output_folder second_written !! fname = Some second_entry) /\
    (forall other, other <> fname ->
                   output_folder second_written !! other
                   = output_folder first_written !! other) /\
    (forall v,
       stdin v = stdin first_written ->
       (forall name,
          next_story_number name "CS_42" (dir_listing (output_folder v))
          = next_story_number name "CS_42" (dir_listing (output_folder first_written))) ->
       fst (create_json_entry 10 jane_file "CS_42" v)
       = Return ("Generated_JSON_Entries/JaneDoe_1_CS_42.json", second_entry) /\
       stdin (snd (create_json_entry 10 jane_file "CS_42" v)) = stdin second_written).
Proof.
  apply (C10_existing_file_is_overwritten 10 jane_file "CS_42" first_written
           "Generated_JSON_Entries/JaneDoe_1_CS_42.json" second_entry
           second_written).
  vm_compute. reflexivity.
Defined.

(** The file replaced in that run held another entry, and the same answers
    typed with an empty folder give the same outcome. *)
Example overwritten_file_was_there :
  output_folder first_written !! "JaneDoe_1_CS_42.json" = Some first_entry /\
  output_folder second_written !! "JaneDoe_1_CS_42.json" = Some second_entry /\
  first_entry <> second_entry /\
  create_json_entry 10 jane_file "CS_42" (fresh_world second_answers)
  = (Return ("Generated_JSON_Entries/JaneDoe_1_CS_42.json", second_entry),
     second_written).
Proof. repeat split; try discriminate. Qed.

(** ** Printing a number and reading it back *)

Ltac read_digit :=
  cbn [NilEmpty.string_of_uint Str.int_digits Str.int_body Pos.of_uint_acc Pos.of_uint];
  try (destruct (ascii_dec _ "_") as [E|_]; [discriminate E|]);
  match goal with
  | |- context [Str.digit ?c] =>
      let v := eval vm_compute in (Str.digit c) in
      change (Str.digit c) with v
  end;
  cbv iota beta.

Lemma int_digits_uint (l : Decimal.uint) :
  forall p, Str.int_digits (Z.pos p) false (NilEmpty.string_of_uint l)
            = Return (Z.pos (Pos.of_uint_acc l p)).
Proof.
  induction l as [|l IH|l IH|l IH|l IH|l IH|l IH|l IH|l IH|l IH|l IH];
    intros p; [reflexivity|..];
    read_digit; rewrite <- IH; f_equal; lia.
Qed.

Lemma int_digits_uint_zero (l : Decimal.uint) :
  Str.int_digits 0 false (NilEmpty.string_of_uint l)
  = Return (Z.of_N (Pos.of_uint l)).
Proof.
  induction l as [|l IH|l IH|l IH|l IH|l IH|l IH|l IH|l IH|l IH|l IH];
    [reflexivity | read_digit; exact IH | ..];
    read_digit; apply int_digits_uint.
Qed.

Lemma int_body_uint (d : Decimal.uint) :
  Str.int_body (NilZero.string_of_uint d) = Return (Z.of_uint d).
Proof.
  unfold Z.of_uint, NilZero.string_of_uint.
  destruct d as [|l|l|l|l|l|l|l|l|l|l];
    [reflexivity | read_digit; apply int_digits_uint_zero | ..];
    read_digit; apply int_digits_uint.
Qed.

Lemma all_chars_impl (P Q : ascii -> bool) (s : string) :
  (forall c, P c = true -> Q c = true) ->
  all_chars P s = true -> all_chars Q s = true.
Proof.
  intros HPQ. induction s as [|c s IH]; simpl; [reflexivity|].
  rewrite !andb_true_iff. intros [Hc Hs]. auto.
Qed.

Lemma all_chars_has_char (P : ascii -> bool) (c : ascii) (s : string) :
  P c = false -> all_chars P s = true -> has_char c s = false.
Proof.
  intros Hc. induction s as [|d s IH]; simpl; [reflexivity|].
  rewrite andb_true_iff. intros [Hd Hs].
  destruct (ascii_dec d c) as [->|]; [congruence | auto].
Qed.

Lemma all_chars_app (P : ascii -> bool) (a b : string) :
  all_chars P (a +:+ b) = all_chars P a && all_chars P b.
Proof.
  induction a as [|c a IH]; simpl; [reflexivity|].
  rewrite IH, andb_assoc. reflexivity.
Qed.

Lemma strip_by_kept (sp : ascii -> bool) (s : string) :
  all_chars (fun c => negb (sp c)) s = true -> Str.strip_by sp s = s.
Proof.
  intros H. unfold Str.strip_by.
  assert (Hl : Str.lstrip_by sp s = s).
  { destruct s as [|c s]; [reflexivity|]. simpl in *.
    apply andb_true_iff in H as [Hc _]. apply negb_true_iff in Hc.
    rewrite Hc. reflexivity. }
  rewrite Hl. clear Hl.
  induction s as [|c s IH]; [reflexivity|]. simpl in *.
  apply andb_true_iff in H as [Hc Hs]. apply negb_true_iff in Hc.
  rewrite (IH Hs). destruct s; [rewrite Hc|]; reflexivity.
Qed.

Lemma uint_numeral (d : Decimal.uint) :
  all_chars numeral_char (NilEmpty.string_of_uint d) = true.
Proof. induction d; simpl; auto. Qed.

Lemma of_int_numeral (n : Z) : all_chars numeral_char (Str.of_int n) = true.
Proof.
  unfold Str.of_int, NilZero.string_of_int, NilZero.string_of_uint.
  destruct (Z.to_int n) as [d|d]; destruct d; simpl; auto using uint_numeral.
Qed.

Lemma numeral_not_space (c : ascii) :
  numeral_char c = true -> negb (Str.int_space c) = true.
Proof.
  destruct c as [[] [] [] [] [] [] [] []]; vm_compute; intros H;
    first [reflexivity | discriminate H].
Qed.

Lemma int_of_int (n : Z) : Str.int (Str.of_int n) = Return n.
Proof.
  unfold Str.int.
  rewrite strip_by_kept
    by (eapply all_chars_impl; [apply numeral_not_space | apply of_int_numeral]).
  unfold Str.of_int, NilZero.string_of_int.
  destruct n as [|p|p]; [reflexivity| |]; cbn [Z.to_int].
  - assert (H : Str.int_body (NilZero.string_of_uint (Pos.to_uint p)) = Return (Z.pos p)).
    { rewrite int_body_uint. unfold Z.of_uint.
      rewrite DecimalPos.Unsigned.of_to. reflexivity. }
    pose proof (DecimalPos.Unsigned.to_uint_nonnil p) as Hnn.
    revert H. unfold NilZero.string_of_uint.
    destruct (Pos.to_uint p); [contradiction | ..]; intros H; exact H.
  - rewrite int_body_uint. unfold Z.of_uint.
    rewrite DecimalPos.Unsigned.of_to. reflexivity.
Qed.

(** ** The files of a key without separators *)

Lemma append_cons (x : ascii) (a b : string) :
  String x a +:+ b = String x (a +:+ b).
Proof. reflexivity. Qed.

Lemma append_assoc (a b c : string) : (a +:+ b) +:+ c = a +:+ (b +:+ c).
Proof.
  induction a as [|x a IH]; [reflexivity|].
  rewrite !append_cons, IH. reflexivity.
Qed.

Lemma has_char_app (c : ascii) (a b : string) :
  has_char c (a +:+ b) = has_char c a || has_char c b.
Proof.
  induction a as [|x a IH]; [reflexivity|].
  rewrite append_cons. simpl.
  destruct (ascii_dec x c); [reflexivity | exact IH].
Qed.

Lemma split_none (sep : ascii) (s : string) :
  has_char sep s = false -> Str.split sep s = [s].
Proof.
  induction s as [|c s IH]; simpl; [reflexivity|].
  destruct (ascii_dec c sep); [discriminate|].
  intros H. rewrite IH by exact H. reflexivity.
Qed.

Lemma rev_append_app (s : string) :
  forall acc, Str.rev_append s acc = Str.rev s +:+ acc.
Proof.
  unfold Str.rev. induction s as [|c s IH]; intros acc; simpl; [reflexivity|].
  rewrite (IH (String c acc)), (IH (String c "")), append_assoc. reflexivity.
Qed.

Lemma rev_append_append (a b : string) :
  forall acc, Str.rev_append (a +:+ b) acc = Str.rev_append b (Str.rev_append a acc).
Proof.
  induction a as [|c a IH]; intros acc; [reflexivity|].
  rewrite append_cons. simpl. apply IH.
Qed.

Lemma rev_app (a b : string) : Str.rev (a +:+ b) = Str.rev b +:+ Str.rev a.
Proof.
  unfold Str.rev at 1. rewrite rev_append_append, rev_append_app. reflexivity.
Qed.

Lemma startswith_prefix (p t : string) : Str.startswith (p +:+ t) p = true.
Proof.
  induction p as [|c p IH]; [destruct t; reflexivity|].
  rewrite append_cons. simpl.
  destruct (ascii_dec c c); [exact IH | congruence].
Qed.

Lemma endswith_app (a b : string) : Str.endswith (a +:+ b) b = true.
Proof. unfold Str.endswith. rewrite rev_app. apply startswith_prefix. Qed.

Lemma own_file_parts (clean_name roll_number : string) (n : Z) :
  has_char "_" clean_name = false ->
  has_char "_" roll_number = false ->
  has_char "." roll_number = false ->
  matches_pattern (own_file clean_name roll_number n) = true /\
  subject_segment (own_file clean_name roll_number n) = clean_name /\
  sequence_segment (own_file clean_name roll_number n) = Str.of_int n /\
  operator_segment (own_file clean_name roll_number n) = roll_number.
Proof.
  intros Hc Hr Hd.
  assert (Hn : has_char "_" (Str.of_int n) = false)
    by (apply (all_chars_has_char numeral_char); [reflexivity | apply of_int_numeral]).
  assert (Hparts : Str.split "_" (own_file clean_name roll_number n)
                   = [clean_name; Str.of_int n; roll_number +:+ ".json"]).
  { unfold own_file, output_filename_of.
    change (clean_name +:+ "_" +:+ Str.of_int n +:+ "_" +:+ roll_number +:+ ".json")
      with (clean_name +:+ String "_" (Str.of_int n +:+ String "_" (roll_number +:+ ".json"))).
    rewrite !split_at_first by assumption.
    rewrite split_none; [reflexivity|].
    rewrite has_char_app, Hr. reflexivity. }
  unfold matches_pattern, subject_segment, sequence_segment, operator_segment.
  rewrite Hparts. cbn [length nth]. repeat split.
  - rewrite andb_true_r. unfold own_file, output_filename_of.
    rewrite <- !append_assoc. apply endswith_app.
  - change (roll_number +:+ ".json") with (roll_number +:+ String "." "json").
    rewrite split_at_first by assumption. reflexivity.
Qed.

Lemma counted_own_file (clean_name roll_number : string) (n : Z) :
  has_char "_" clean_name = false ->
  has_char "_" roll_number = false ->
  has_char "." roll_number = false ->
  counted clean_name roll_number (own_file clean_name roll_number n) = [n].
Proof.
  intros Hc Hr Hd.
  destruct (own_file_parts clean_name roll_number n Hc Hr Hd) as (Hm & Hs & Hq & Ho).
  unfold counted. rewrite Hm, Hs, Hq, Ho, !String.eqb_refl, int_of_int. reflexivity.
Qed.

(** For a key without separators the scan reads back exactly the numbers
    under which the files of the key were written. *)
Lemma next_story_number_own_files (role_model_name roll_number : string)
    (numbers : list Z) :
  has_char "_" (sanitize_role_model_name role_model_name) = false ->
  has_char "_" roll_number = false ->
  has_char "." roll_number = false ->
  next_story_number role_model_name roll_number
    (map (own_file (sanitize_role_model_name role_model_name) roll_number) numbers)
  = Return match numbers with
           | [] => 1
           | x :: xs => fold_left Z.max xs x + 1
           end.
Proof.
  intros Hc Hr Hd. rewrite next_story_number_counted.
  replace (flat_map _ _) with numbers; [reflexivity|].
  induction numbers as [|n ns IH]; simpl; [reflexivity|].
  rewrite counted_own_file by assumption. simpl. f_equal. exact IH.
Qed.

Lemma fold_left_max_seqZ (k : nat) :
  fold_left Z.max (seqZ 2 (Z.of_nat k)) 1 = Z.of_nat k + 1.
Proof.
  induction k as [|k IH]; [reflexivity|].
  rewrite seqZ_S, fold_left_app, IH. simpl. lia.
Qed.

(** With the records 1, ..., k of such a key in the folder, the next number
    is k + 1: the numbers given one after the other are 1, 2, 3, ... *)
Lemma next_story_number_run (role_model_name roll_number : string) (k : nat) :
  has_char "_" (sanitize_role_model_name role_model_name) = false ->
  has_char "_" roll_number = false ->
  has_char "." roll_number = false ->
  next_story_number role_model_name roll_number
    (map (own_file (sanitize_role_model_name role_model_name) roll_number)
         (seqZ 1 (Z.of_nat k)))
  = Return (Z.of_nat k + 1).
Proof.
  intros Hc Hr Hd. rewrite next_story_number_own_files by assumption.
  destruct k as [|k]; [reflexivity|].
  rewrite Nat2Z.inj_succ.
  replace (seqZ 1 (Z.succ (Z.of_nat k))) with (1 :: seqZ 2 (Z.of_nat k)).
  - rewrite fold_left_max_seqZ. f_equal; lia.
  - rewrite (seqZ_cons 1) by lia. repeat f_equal; lia.
Qed.

(** C1: the number given to a new record is not always one more than the
    largest number already written for its key.  With roll number [CS_42] and
    an empty folder, the first entry for [Jane Doe] is written as
    [JaneDoe_1_CS_42.json]; the second run, with that file in the folder,
    computes the number 1 again and writes under the same name, where the
    claim has 2.  With roll number [42] and a folder holding only
    [JaneDoe_1_42_x.json], a file of roll number [42_x], the first entry of
    roll number [42] is numbered 2, where the claim has 1.  For keys without
    an underscore or a dot the numbers do run 1, 2, 3, ...: see
    [next_story_number_run]. *)
Theorem C1_number_not_one_more_than_maximum :
  create_json_entry 10 jane_file "CS_42" (fresh_world (first_answers ++ second_answers))
  = (Return ("Generated_JSON_Entries/JaneDoe_1_CS_42.json", first_entry),
     first_written) /\
  create_json_entry 10 jane_file "CS_42" first_written
  = (Return ("Generated_JSON_Entries/JaneDoe_1_CS_42.json", second_entry),
     second_written) /\
  next_story_number "Jane Doe" "CS_42" ["JaneDoe_1_CS_42.json"] = Return 1 /\
  output_filename_of (sanitize_role_model_name "Jane Doe") 1 "42_x" = "JaneDoe_1_42_x.json" /\
  next_story_number "Jane Doe" "42" ["JaneDoe_1_42_x.json"] = Return 2.
Proof. repeat split; vm_compute; reflexivity. Qed.

(** * Further properties of the program *)

(** ** Sanitized names *)

Lemma remove_char_absent (c : ascii) (s : string) :
  has_char c (Str.remove_char c s) = false.
Proof.
  induction s as [|d s IH]; simpl; [reflexivity|].
  destruct (ascii_dec d c) as [|Hne]; [exact IH|]. simpl.
  destruct (ascii_dec d c); [contradiction | exact IH].
Qed.

Lemma remove_char_keeps_absent (c d : ascii) (s : string) :
  has_char d s = false -> has_char d (Str.remove_char c s) = false.
Proof.
  induction s as [|x s IH]; simpl; [reflexivity|].
  destruct (ascii_dec x d); [discriminate|]. intros H.
  destruct (ascii_dec x c); [auto|]. simpl.
  destruct (ascii_dec x d); [contradiction | auto].
Qed.

Lemma remove_char_id (c : ascii) (s : string) :
  has_char c s = false -> Str.remove_char c s = s.
Proof.
  induction s as [|x s IH]; simpl; [reflexivity|].
  destruct (ascii_dec x c); [discriminate|]. intros H. rewrite IH by exact H.
  reflexivity.
Qed.

Lemma remove_char_app (c : ascii) (a b : string) :
  Str.remove_char c (a +:+ b) = Str.remove_char c a +:+ Str.remove_char c b.
Proof.
  induction a as [|x a IH]; [reflexivity|].
  rewrite append_cons. simpl. destruct (ascii_dec x c); [exact IH|].
  rewrite append_cons, IH. reflexivity.
Qed.

(** X1: a sanitized name holds neither a space nor an apostrophe; a name that
    holds neither is left as it is, so sanitizing twice is sanitizing once;
    and a name is sanitized piece by piece. *)
Theorem X1_sanitized_name_has_no_space_or_apostrophe (name : string) :
  has_char " " (sanitize_role_model_name name) = false /\
  has_char "'" (sanitize_role_model_name name) = false /\
  (has_char " " name = false -> has_char "'" name = false ->
   sanitize_role_model_name name = name) /\
  sanitize_role_model_name (sanitize_role_model_name name)
  = sanitize_role_model_name name /\
  (forall rest,
     sanitize_role_model_name (name +:+ rest)
     = sanitize_role_model_name name +:+ sanitize_role_model_name rest).
Proof.
  unfold sanitize_role_model_name.
  assert (Hs : has_char " " (Str.remove_char "'" (Str.remove_char " " name)) = false)
    by apply remove_char_keeps_absent, remove_char_absent.
  assert (Ha : has_char "'" (Str.remove_char "'" (Str.remove_char " " name)) = false)
    by apply remove_char_absent.
  repeat split.
  - exact Hs.
  - exact Ha.
  - intros H1 H2. rewrite (remove_char_id " ") by exact H1.
    apply remove_char_id, H2.
  - rewrite (remove_char_id " " _ Hs). apply remove_char_id, Ha.
  - intros rest. rewrite !remove_char_app. reflexivity.
Qed.

(** ** The subject's name *)

Lemma lstrip_by_all (sp P : ascii -> bool) (s : string) :
  all_chars P s = true -> all_chars P (Str.lstrip_by sp s) = true.
Proof.
  induction s as [|c s IH]; [reflexivity|]. intros H. simpl.
  destruct (sp c); [|exact H].
  simpl in H. apply andb_true_iff in H as [_ H]. auto.
Qed.

Lemma rstrip_by_all (sp P : ascii -> bool) (s : string) :
  all_chars P s = true -> all_chars P (Str.rstrip_by sp s) = true.
Proof.
  induction s as [|c s IH]; [reflexivity|]. simpl.
  rewrite andb_true_iff. intros [Hc Hs]. specialize (IH Hs).
  destruct (Str.rstrip_by sp s) as [|d r].
  - destruct (sp c); simpl; [reflexivity | rewrite Hc; reflexivity].
  - change (all_chars P (String c (String d r)))
      with (P c && all_chars P (String d r)).
    rewrite Hc, IH. reflexivity.
Qed.

Lemma strip_all (P : ascii -> bool) (s : string) :
  all_chars P s = true -> all_chars P (Str.strip s) = true.
Proof. intros H. apply rstrip_by_all, lstrip_by_all, H. Qed.

Lemma splitlines_from_unbroken (s : string) :
  forall after_cr,
    Forall (fun l => all_chars (fun c => negb (Str.is_linebreak c)) l = true)
           (Str.splitlines_from after_cr s).
Proof.
  induction s as [|c s IH]; intros after_cr; simpl; [constructor|].
  destruct (after_cr && (Str.code c =? 10)%N); [apply IH|].
  destruct (Str.is_linebreak c) eqn:E.
  - constructor; [reflexivity | apply IH].
  - apply cons_head_Forall; [| |apply IH]; simpl; rewrite E; auto.
Qed.

Lemma infer_lines_value (lines : list string) :
  exists r,
    infer_lines lines = Return r /\
    forall name, r = Some name ->
      exists line label value,
        line ∈ lines /\ is_header line = true /\
        line = label +:+ ":" +:+ value /\ name = Str.strip value.
Proof.
  induction lines as [|line lines IH]; simpl.
  - eexists. split; [reflexivity|]. discriminate.
  - fold (is_header line). destruct (is_header line) eqn:E.
    + destruct (header_shape line E) as (label & value & Hline & _ & Hs).
      rewrite Hs. simpl. eexists. split; [reflexivity|].
      intros name Hn. injection Hn as <-.
      exists line, label, value. repeat split; auto. constructor.
    + destruct IH as (r & Hr & Hname). exists r. split; [exact Hr|].
      intros name Hn. destruct (Hname name Hn) as (l & label & value & Hin & H).
      exists l, label, value. split; [right; exact Hin | exact H].
Qed.

Lemma inferred_name_trimmed (raw_content name : string) :
  infer_role_model_name_from_raw raw_content = Return (Some name) ->
  Str.strip name = name.
Proof.
  unfold infer_role_model_name_from_raw. intros H.
  destruct (infer_lines_value (Str.splitlines raw_content)) as (r & Hr & Hname).
  rewrite H in Hr. injection Hr as <-.
  destruct (Hname name eq_refl) as (_ & _ & value & _ & _ & _ & ->).
  apply strip_idem.
Qed.

(** X2: reading the header never raises, whatever the text.  A name that is
    found is trimmed, lies on one line (it holds no line-break character) and
    comes from a line of the text that starts with the label. *)
Theorem X2_inferred_name_is_one_trimmed_line (raw_content : string) :
  exists r,
    infer_role_model_name_from_raw raw_content = Return r /\
    forall name, r = Some name ->
      Str.strip name = name /\
      all_chars (fun c => negb (Str.is_linebreak c)) name = true /\
      exists line, line ∈ Str.splitlines raw_content /\ is_header line = true.
Proof.
  unfold infer_role_model_name_from_raw.
  destruct (infer_lines_value (Str.splitlines raw_content)) as (r & Hr & Hname).
  exists r. split; [exact Hr|]. intros name Hn.
  destruct (Hname name Hn) as (line & label & value & Hin & Hh & Hline & ->).
  split; [apply strip_idem|]. split; [|eauto].
  apply strip_all.
  pose proof (splitlines_from_unbroken raw_content false) as Hall.
  rewrite Forall_forall in Hall. specialize (Hall line Hin).
  rewrite Hline, !all_chars_app in Hall.
  apply andb_true_iff in Hall as [_ Hall].
  apply andb_true_iff in Hall as [_ Hall]. exact Hall.
Qed.

Lemma get_role_model_name_cons (line : string) (lines : list string) :
  get_role_model_name (line :: lines) =
  if truthy (Str.strip line) && (2 <=? len (Str.strip line))%nat
  then (Return (Str.strip line), lines)
  else get_role_model_name lines.
Proof. reflexivity. Qed.

Lemma get_role_model_name_returns (lines : list string) (name : string)
    (rest : list string) :
  get_role_model_name lines = (Return name, rest) ->
  exists pre line,
    lines = pre ++ line :: rest /\ name = Str.strip line /\
    (2 <= len name)%nat /\
    Forall (fun l => (len (Str.strip l) < 2)%nat) pre.
Proof.
  revert name rest. induction lines as [|line lines IH]; intros name rest;
    [discriminate|]. rewrite get_role_model_name_cons.
  destruct (truthy (Str.strip line) && (2 <=? len (Str.strip line))%nat) eqn:E.
  - intros H. injection H as <- <-.
    apply andb_true_iff in E as [_ E]. apply Nat.leb_le in E.
    exists [], line. auto.
  - intros H. apply IH in H as (pre & l & -> & -> & Hlen & Hpre).
    exists (line :: pre), l. repeat split; auto. constructor; [|exact Hpre].
    apply andb_false_iff in E as [E|E].
    + unfold truthy in E. apply negb_false_iff, String.eqb_eq in E.
      rewrite E. simpl. lia.
    + apply Nat.leb_gt in E. exact E.
Qed.

Lemma get_role_model_name_raises (lines : list string) (e : exn) (rest : list string) :
  get_role_model_name lines = (Raise e, rest) -> e = EOFError /\ rest = [].
Proof.
  induction lines as [|line lines IH].
  - intros H. injection H as <- <-. auto.
  - rewrite get_role_model_name_cons.
    destruct (truthy _ && _); [discriminate | exact IH].
Qed.

(** X3: the name typed at the manual prompt comes back trimmed and at least
    two characters long: it is the first typed line whose trimmed form has
    two characters or more, every line before it being shorter; and the
    prompt fails only when the console is exhausted. *)
Theorem X3_typed_name_has_two_characters
    (lines : list string) (name : string) (rest : list string) :
  get_role_model_name lines = (Return name, rest) ->
  Str.strip name = name /\ (2 <= len name)%nat /\
  (exists pre line,
     lines = pre ++ line :: rest /\ name = Str.strip line /\
     Forall (fun l => (len (Str.strip l) < 2)%nat) pre) /\
  (forall lines' e rest',
     get_role_model_name lines' = (Raise e, rest') -> e = EOFError /\ rest' = []).
Proof.
  intros H. apply get_role_model_name_returns in H as (pre & line & -> & -> & Hlen & Hpre).
  split; [apply strip_idem|]. split; [exact Hlen|]. split.
  - exists pre, line. auto.
  - apply get_role_model_name_raises.
Qed.

Lemma X3_typed_name_witness :
  Str.strip "Jo" = "Jo" /\ (2 <= len "Jo")%nat /\
  (exists pre line,
     [" "; "J"; " Jo "; "next"] = pre ++ line :: ["next"] /\ "Jo" = Str.strip line /\
     Forall (fun l => (len (Str.strip l) < 2)%nat) pre) /\
  (forall lines' e rest',
     get_role_model_name lines' = (Raise e, rest') -> e = EOFError /\ rest' = []).
Proof.
  apply (X3_typed_name_has_two_characters [" "; "J"; " Jo "; "next"] "Jo" ["next"]).
  reflexivity.
Defined.

Lemma truthy_true (s : string) : truthy s = true <-> s <> "".
Proof.
  unfold truthy. rewrite negb_true_iff. apply String.eqb_neq.
Qed.

Lemma get_or_confirm_returns (raw_content : string) (lines : list string)
    (name : string) (rest : list string) :
  get_or_confirm_role_model_name raw_content lines = (Return name, rest) ->
  (exists inferred line,
     infer_role_model_name_from_raw raw_content = Return (Some inferred) /\
     inferred <> "" /\ lines = line :: rest /\
     name = if truthy (Str.strip line) then Str.strip line else inferred) \/
  ((infer_role_model_name_from_raw raw_content = Return None \/
    infer_role_model_name_from_raw raw_content = Return (Some "")) /\
   get_role_model_name lines = (Return name, rest)).
Proof.
  unfold get_or_confirm_role_model_name, bind, of_result.
  destruct (infer_role_model_name_from_raw raw_content) as [[inferred|]|e] eqn:Ei;
    [| |discriminate].
  - destruct (truthy inferred) eqn:Et.
    + unfold input. destruct lines as [|line lines']; [discriminate|].
      intros H. left. exists inferred, line.
      apply truthy_true in Et.
      destruct (truthy (Str.strip line)); injection H as <- <-; auto.
    + intros H. right. split; [|exact H]. right.
      unfold truthy in Et. apply negb_false_iff, String.eqb_eq in Et.
      rewrite Et. reflexivity.
  - intros H. right. auto.
Qed.

(** X4: the name that [get_or_confirm_role_model_name] returns is never empty
    and is trimmed.  When the header gives a non-empty name, one line is
    read: left blank it keeps the name from the header, otherwise its trimmed
    form replaces it, however short.  When the header gives no name or an
    empty one, the name is typed at the manual prompt and has at least two
    characters. *)
Theorem X4_confirmed_name_is_not_empty
    (raw_content : string) (lines : list string) (name : string)
    (rest : list string) :
  get_or_confirm_role_model_name raw_content lines = (Return name, rest) ->
  name <> "" /\ Str.strip name = name /\
  ((exists inferred line,
      infer_role_model_name_from_raw raw_content = Return (Some inferred) /\
      inferred <> "" /\ lines = line :: rest /\
      (Str.strip line = "" -> name = inferred) /\
      (Str.strip line <> "" -> name = Str.strip line)) \/
   ((infer_role_model_name_from_raw raw_content = Return None \/
     infer_role_model_name_from_raw raw_content = Return (Some "")) /\
    get_role_model_name lines = (Return name, rest) /\ (2 <= len name)%nat)).
Proof.
  intros H.
  apply get_or_confirm_returns in H
    as [(inferred & line & Hi & Hne & -> & ->) | [Hi H]].
  - destruct (truthy (Str.strip line)) eqn:Et.
    + apply truthy_true in Et. split; [exact Et|]. split; [apply strip_idem|].
      left. exists inferred, line. repeat split; auto. intros E. contradiction.
    + unfold truthy in Et. apply negb_false_iff, String.eqb_eq in Et.
      split; [exact Hne|]. split.
      * apply (inferred_name_trimmed raw_content), Hi.
      * left. exists inferred, line. repeat split; auto. intros E. contradiction.
  - pose proof H as H'.
    apply get_role_model_name_returns in H as (pre & line & -> & -> & Hlen & _).
    split; [|split; [apply strip_idem|]].
    + intros E. rewrite E in Hlen. simpl in Hlen. lia.
    + right. auto.
Qed.

Lemma X4_confirmed_name_witness :
  "J" <> "" /\ Str.strip "J" = "J" /\
  ((exists inferred line,
      infer_role_model_name_from_raw "Role Model: Jane Doe" = Return (Some inferred) /\
      inferred <> "" /\ ["  J "; "next"] = line :: ["next"] /\
      (Str.strip line = "" -> "J" = inferred) /\
      (Str.strip line <> "" -> "J" = Str.strip line)) \/
   ((infer_role_model_name_from_raw "Role Model: Jane Doe" = Return None \/
     infer_role_model_name_from_raw "Role Model: Jane Doe" = Return (Some "")) /\
    get_role_model_name ["  J "; "next"] = (Return "J", ["next"]) /\ (2 <= len "J")%nat)).
Proof.
  apply (X4_confirmed_name_is_not_empty "Role Model: Jane Doe" ["  J "; "next"] "J" ["next"]).
  reflexivity.
Defined.

(** ** The next story number *)

Lemma fold_left_max_spec (xs : list Z) :
  forall x,
    x <= fold_left Z.max xs x /\
    Forall (fun y => y <= fold_left Z.max xs x) xs /\
    (fold_left Z.max xs x = x \/ fold_left Z.max xs x ∈ xs).
Proof.
  induction xs as [|y xs IH]; intros x; simpl.
  - split; [lia|]. split; [constructor | auto].
  - destruct (IH (Z.max x y)) as (Hx & Hall & Hin). split; [lia|]. split.
    + constructor; [lia | exact Hall].
    + destruct Hin as [Hin|Hin]; [|right; right; exact Hin].
      rewrite Hin. destruct (Z.max_spec x y) as [[_ ->] | [_ ->]];
        [right; left | left]; reflexivity.
Qed.

Lemma counted_elem (clean_name roll_number fname : string) (k : Z) :
  k ∈ counted clean_name roll_number fname <->
  matches_pattern fname = true /\
  subject_segment fname = clean_name /\
  operator_segment fname = roll_number /\
  Str.int (sequence_segment fname) = Return k.
Proof.
  unfold counted.
  destruct (matches_pattern fname); simpl;
    [|split; [intros H; inversion H | intros [H _]; discriminate]].
  destruct (String.eqb_spec (subject_segment fname) clean_name) as [Hs|Hs]; simpl;
    [|split; [intros H; inversion H | intros (_ & H & _); contradiction]].
  destruct (String.eqb_spec (operator_segment fname) roll_number) as [Ho|Ho]; simpl;
    [|split; [intros H; inversion H | intros (_ & _ & H & _); contradiction]].
  destruct (Str.int (sequence_segment fname)) as [n|e].
  - rewrite list_elem_of_singleton. split.
    + intros ->. auto.
    + intros (_ & _ & _ & H). injection H as ->. reflexivity.
  - split; [intros H; inversion H | intros (_ & _ & _ & H); discriminate].
Qed.

Lemma next_story_number_max (role_model_name roll_number : string)
    (listing : list string) :
  exists n,
    next_story_number role_model_name roll_number listing = Return n /\
    Forall (fun k => k < n)
      (flat_map (counted (sanitize_role_model_name role_model_name) roll_number)
                listing) /\
    ((flat_map (counted (sanitize_role_model_name role_model_name) roll_number)
               listing = [] /\ n = 1) \/
     (n - 1) ∈ flat_map (counted (sanitize_role_model_name role_model_name) roll_number)
                        listing).
Proof.
  rewrite next_story_number_counted.
  destruct (flat_map _ listing) as [|x xs].
  - exists 1. split; [reflexivity|]. split; [constructor | auto].
  - exists (fold_left Z.max xs x + 1). split; [reflexivity|].
    destruct (fold_left_max_spec xs x) as (Hx & Hall & Hin). split.
    + constructor; [lia|]. eapply Forall_impl; [exact Hall|]. simpl. intros; lia.
    + right. replace (fold_left Z.max xs x + 1 - 1) with (fold_left Z.max xs x) by lia.
      destruct Hin as [->|Hin]; [left | right; exact Hin].
Qed.

(** X5: the number does not depend on the order in which [os.listdir] hands
    out the file names. *)
Theorem X5_number_independent_of_listing_order
    (role_model_name roll_number : string) (listing1 listing2 : list string) :
  listing1 ≡ₚ listing2 ->
  next_story_number role_model_name roll_number listing1
  = next_story_number role_model_name roll_number listing2.
Proof.
  intros Hp.
  destruct (next_story_number_max role_model_name roll_number listing1)
    as (n1 & -> & Hall1 & Hin1).
  destruct (next_story_number_max role_model_name roll_number listing2)
    as (n2 & -> & Hall2 & Hin2).
  assert (Hq : flat_map (counted (sanitize_role_model_name role_model_name) roll_number)
                 listing1
               ≡ₚ flat_map (counted (sanitize_role_model_name role_model_name) roll_number)
                    listing2)
    by (apply Permutation_flat_map, Hp).
  rewrite Forall_forall in Hall1, Hall2. f_equal.
  destruct Hin1 as [[E1 ->] | Hin1], Hin2 as [[E2 ->] | Hin2].
  - reflexivity.
  - rewrite <- Hq, E1 in Hin2. inversion Hin2.
  - rewrite Hq, E2 in Hin1. inversion Hin1.
  - pose proof (Hall2 (n1 - 1)) as H12. rewrite <- Hq in H12. specialize (H12 Hin1).
    pose proof (Hall1 (n2 - 1)) as H21. rewrite Hq in H21. specialize (H21 Hin2).
    lia.
Qed.

Lemma X5_number_independent_witness :
  next_story_number "Jane Doe" "42"
    ["JaneDoe_3_42.json"; "JaneDoe_1_42.json"; "notes.txt"]
  = next_story_number "Jane Doe" "42"
    ["JaneDoe_1_42.json"; "JaneDoe_3_42.json"; "notes.txt"].
Proof.
  apply (X5_number_independent_of_listing_order "Jane Doe" "42"
           ["JaneDoe_3_42.json"; "JaneDoe_1_42.json"; "notes.txt"]
           ["JaneDoe_1_42.json"; "JaneDoe_3_42.json"; "notes.txt"]).
  apply perm_swap.
Defined.

(** X6: the number returned is larger than the number of every file that
    passes the tests of the scan (ends in [.json], has three parts or more,
    first part the sanitized name, third part up to the dot the roll number,
    second part accepted by [int]); and it is 1 when no file passes them,
    otherwise one more than the number of some file that does. *)
Theorem X6_number_exceeds_every_number_read
    (role_model_name roll_number : string) (listing : list string) :
  exists n,
    next_story_number role_model_name roll_number listing = Return n /\
    (forall fname k,
       fname ∈ listing ->
       matches_pattern fname = true ->
       subject_segment fname = sanitize_role_model_name role_model_name ->
       operator_segment fname = roll_number ->
       Str.int (sequence_segment fname) = Return k ->
       k < n) /\
    ((n = 1 /\
      forall fname, fname ∈ listing ->
        counted (sanitize_role_model_name role_model_name) roll_number fname = []) \/
     (exists fname,
        fname ∈ listing /\
        matches_pattern fname = true /\
        subject_segment fname = sanitize_role_model_name role_model_name /\
        operator_segment fname = roll_number /\
        Str.int (sequence_segment fname) = Return (n - 1))).
Proof.
  destruct (next_story_number_max role_model_name roll_number listing)
    as (n & Hn & Hall & Hin).
  exists n. split; [exact Hn|]. split.
  - intros fname k Hf Hm Hs Ho Hk. rewrite Forall_forall in Hall. apply Hall.
    apply list_elem_of_In, in_flat_map. exists fname. split; [apply list_elem_of_In, Hf|].
    apply list_elem_of_In, counted_elem. auto.
  - destruct Hin as [[E ->] | Hin].
    + left. split; [reflexivity|]. intros fname Hf.
      destruct (counted _ _ fname) as [|k ks] eqn:Ec; [reflexivity|].
      assert (Hk : In k (flat_map (counted (sanitize_role_model_name role_model_name)
                                           roll_number) listing)).
      { apply in_flat_map. exists fname. split; [apply list_elem_of_In, Hf|].
        rewrite Ec. left. reflexivity. }
      rewrite E in Hk. destruct Hk.
    + right. apply list_elem_of_In, in_flat_map in Hin as (fname & Hf & Hk).
      exists fname. split; [apply list_elem_of_In, Hf|].
      apply counted_elem, list_elem_of_In, Hk.
Qed.

(** ** Keys without separators *)

Lemma counted_other_key (clean_name roll_number clean_name' roll_number' : string)
    (n : Z) :
  has_char "_" clean_name = false ->
  has_char "_" roll_number = false ->
  has_char "." roll_number = false ->
  clean_name' <> clean_name \/ roll_number' <> roll_number ->
  counted clean_name' roll_number' (own_file clean_name roll_number n) = [].
Proof.
  intros Hc Hr Hd Hne.
  destruct (own_file_parts clean_name roll_number n Hc Hr Hd) as (_ & Hs & _ & Ho).
  apply counted_nil. right. rewrite Hs, Ho.
  destruct Hne as [Hne|Hne]; [left | right; left]; congruence.
Qed.

(** X7: for a sanitized name without underscore and a roll number without
    underscore or dot, the file name written for a number is read back by the
    scan as exactly that name, number and roll number; the file is counted
    for its own key and for no other. *)
Theorem X7_written_name_reads_back (clean_name roll_number : string) (n : Z) :
  has_char "_" clean_name = false ->
  has_char "_" roll_number = false ->
  has_char "." roll_number = false ->
  matches_pattern (output_filename_of clean_name n roll_number) = true /\
  subject_segment (output_filename_of clean_name n roll_number) = clean_name /\
  Str.int (sequence_segment (output_filename_of clean_name n roll_number)) = Return n /\
  operator_segment (output_filename_of clean_name n roll_number) = roll_number /\
  counted clean_name roll_number (output_filename_of clean_name n roll_number) = [n] /\
  (forall clean_name' roll_number',
     clean_name' <> clean_name \/ roll_number' <> roll_number ->
     counted clean_name' roll_number' (output_filename_of clean_name n roll_number) = []).
Proof.
  intros Hc Hr Hd.
  destruct (own_file_parts clean_name roll_number n Hc Hr Hd) as (Hm & Hs & Hq & Ho).
  unfold own_file in *. rewrite Hq, int_of_int. repeat split; try assumption.
  - apply (counted_own_file clean_name roll_number n); assumption.
  - intros c' r' Hne. apply (counted_other_key clean_name roll_number); assumption.
Qed.

Lemma X7_written_name_witness :
  matches_pattern (output_filename_of "JaneDoe" 12 "42") = true /\
  subject_segment (output_filename_of "JaneDoe" 12 "42") = "JaneDoe" /\
  Str.int (sequence_segment (output_filename_of "JaneDoe" 12 "42")) = Return 12 /\
  operator_segment (output_filename_of "JaneDoe" 12 "42") = "42" /\
  counted "JaneDoe" "42" (output_filename_of "JaneDoe" 12 "42") = [12] /\
  (forall clean_name' roll_number',
     clean_name' <> "JaneDoe" \/ roll_number' <> "42" ->
     counted clean_name' roll_number' (output_filename_of "JaneDoe" 12 "42") = []).
Proof.
  apply (X7_written_name_reads_back "JaneDoe" "42" 12); reflexivity.
Defined.

Lemma elem_of_dir_listing (folder : gmap string json_entry) (fname : string) :
  fname ∈ dir_listing folder <-> is_Some (folder !! fname).
Proof.
  unfold dir_listing. rewrite list_elem_of_fmap. split.
  - intros ([k e] & -> & H). apply elem_of_map_to_list in H. eauto.
  - intros [e H]. exists (fname, e). split; [reflexivity|].
    apply elem_of_map_to_list, H.
Qed.

Lemma counted_in_listing (clean_name roll_number : string) (listing : list string)
    (k : Z) :
  In k (flat_map (counted clean_name roll_number) listing) <->
  exists fname, fname ∈ listing /\ k ∈ counted clean_name roll_number fname.
Proof.
  rewrite in_flat_map. split; intros (f & Hf & Hk); exists f;
    (split; [apply list_elem_of_In, Hf | apply list_elem_of_In, Hk]).
Qed.

Lemma contains_char (c : ascii) (s : string) :
  Str.contains s (String c "") = has_char c s.
Proof.
  induction s as [|d s IH]; [reflexivity|].
  rewrite contains_eq, IH. simpl.
  destruct (ascii_dec d c) as [->|Hne].
  - destruct (ascii_dec c c); [|congruence]. destruct s; reflexivity.
  - destruct (ascii_dec c d); [congruence | reflexivity].
Qed.

Lemma filename_has_char (c : ascii) (clean_name : string) (n : Z)
    (roll_number : string) :
  numeral_char c = false -> has_char c "_.json" = false ->
  has_char c (output_filename_of clean_name n roll_number)
  = has_char c clean_name || has_char c roll_number.
Proof.
  intros Hnum Hfix. unfold output_filename_of.
  rewrite !has_char_app.
  rewrite (all_chars_has_char numeral_char c (Str.of_int n) Hnum (of_int_numeral n)).
  change "_.json" with ("_" +:+ ".json") in Hfix.
  rewrite has_char_app in Hfix. apply orb_false_iff in Hfix as [H1 H2].
  rewrite H1, H2, !orb_false_r. reflexivity.
Qed.

Lemma create_json_entry_fresh (depth : nat) (raw_filepath : raw_file)
    (roll_number : string) (w : world) (path : string) (entry : json_entry)
    (w' : world) :
  create_json_entry depth raw_filepath roll_number w = (Return (path, entry), w') ->
  has_char "_" (sanitize_role_model_name (Role_Model_Name entry)) = false ->
  has_char "_" roll_number = false ->
  has_char "." roll_number = false ->
  exists n,
    next_story_number (Role_Model_Name entry) roll_number
      (dir_listing (output_folder w)) = Return n /\
    path = os_path_join OUTPUT_FOLDER
             (own_file (sanitize_role_model_name (Role_Model_Name entry)) roll_number n) /\
    output_folder w' =
      <[own_file (sanitize_role_model_name (Role_Model_Name entry)) roll_number n
        := entry]> (output_folder w) /\
    output_folder w
      !! own_file (sanitize_role_model_name (Role_Model_Name entry)) roll_number n
    = None.
Proof.
  intros H Hc Hr Hd.
  apply create_json_entry_returns in H as (n & Hn & Hp & Hw).
  exists n. repeat split; try assumption.
  destruct (output_folder w !! own_file _ roll_number n) as [e|] eqn:E; [|reflexivity].
  exfalso.
  destruct (next_story_number_max (Role_Model_Name entry) roll_number
              (dir_listing (output_folder w))) as (n' & Hn' & Hall & _).
  rewrite Hn in Hn'. injection Hn' as <-.
  rewrite Forall_forall in Hall.
  assert (Hlt : n < n); [|lia].
  apply Hall, list_elem_of_In, counted_in_listing.
  eexists. split; [apply elem_of_dir_listing; eauto|].
  rewrite counted_own_file by assumption. constructor.
Qed.

(** X8: when the sanitized name has no underscore and the roll number neither
    underscore nor dot, [create_json_entry] writes under a name that was not
    in the folder: every file that was there keeps its entry, and the folder
    has one file more. *)
Theorem X8_plain_key_never_overwrites
    (depth : nat) (raw_filepath : raw_file) (roll_number : string)
    (w : world) (path : string) (entry : json_entry) (w' : world) :
  create_json_entry depth raw_filepath roll_number w = (Return (path, entry), w') ->
  has_char "/" (sanitize_role_model_name (Role_Model_Name entry)) = false ->
  has_char "/" roll_number = false ->
  has_char "_" (sanitize_role_model_name (Role_Model_Name entry)) = false ->
  has_char "_" roll_number = false ->
  has_char "." roll_number = false ->
  exists fname,
    path = OUTPUT_FOLDER +:+ "/" +:+ fname /\
    has_char "/" fname = false /\
    output_folder w !! fname = None /\
    output_folder w' !! fname = Some entry /\
    (forall other old, output_folder w !! other = Some old ->
                       output_folder w' !! other = Some old) /\
    size (output_folder w') = S (size (output_folder w)).
Proof.
  intros H Hs1 Hs2 Hc Hr Hd.
  destruct (create_json_entry_fresh _ _ _ _ _ _ _ H Hc Hr Hd) as (n & _ & Hp & Hw & Hnone).
  assert (Hplain : has_char "/"
            (own_file (sanitize_role_model_name (Role_Model_Name entry)) roll_number n)
          = false).
  { unfold own_file. rewrite filename_has_char by reflexivity.
    rewrite Hs1, Hs2. reflexivity. }
  rewrite os_path_join_plain in Hp by (rewrite contains_char; exact Hplain).
  eexists. split; [exact Hp|]. split; [exact Hplain|].
  split; [exact Hnone|]. rewrite Hw. split; [|split].
  - apply lookup_insert_eq.
  - intros other old Ho. rewrite lookup_insert_ne; [exact Ho|].
    intros E. rewrite E, Ho in Hnone. discriminate.
  - apply map_size_insert_None, Hnone.
Qed.

Lemma X8_plain_key_witness :
  exists fname,
    "Generated_JSON_Entries/JaneDoe_2_42.json" = OUTPUT_FOLDER +:+ "/" +:+ fname /\
    has_char "/" fname = false /\
    output_folder one_written !! fname = None /\
    output_folder two_written !! fname = Some second_entry /\
    (forall other old, output_folder one_written !! other = Some old ->
                       output_folder two_written !! other = Some old) /\
    size (output_folder two_written) = S (size (output_folder one_written)).
Proof.
  apply (X8_plain_key_never_overwrites 10 jane_file "42" one_written
           "Generated_JSON_Entries/JaneDoe_2_42.json" second_entry two_written);
    vm_compute; reflexivity.
Defined.

(** X9: under the same condition on the key, once an entry has been written
    with number [n], the next number computed for that key is [n + 1]: the
    entries of a key created one after the other are numbered
    consecutively. *)
Theorem X9_plain_key_numbers_are_consecutive
    (depth : nat) (raw_filepath : raw_file) (roll_number : string)
    (w : world) (path : string) (entry : json_entry) (w' : world) :
  create_json_entry depth raw_filepath roll_number w = (Return (path, entry), w') ->
  has_char "/" (sanitize_role_model_name (Role_Model_Name entry)) = false ->
  has_char "/" roll_number = false ->
  has_char "_" (sanitize_role_model_name (Role_Model_Name entry)) = false ->
  has_char "_" roll_number = false ->
  has_char "." roll_number = false ->
  exists n,
    get_next_story_number (Role_Model_Name entry) roll_number w = (Return n, w) /\
    path = OUTPUT_FOLDER +:+ "/" +:+
           output_filename_of (sanitize_role_model_name (Role_Model_Name entry))
             n roll_number /\
    get_next_story_number (Role_Model_Name entry) roll_number w' = (Return (n + 1), w').
Proof.
  intros H Hs1 Hs2 Hc Hr Hd.
  destruct (create_json_entry_fresh _ _ _ _ _ _ _ H Hc Hr Hd) as (n & Hn & Hp & Hw & Hnone).
  rewrite os_path_join_plain in Hp
    by (unfold own_file; rewrite contains_char, filename_has_char by reflexivity;
        rewrite Hs1, Hs2; reflexivity).
  exists n. rewrite !get_next_story_number_eq, Hn. split; [reflexivity|].
  split; [exact Hp|]. f_equal.
  destruct (next_story_number_max (Role_Model_Name entry) roll_number
              (dir_listing (output_folder w))) as (n0 & Hn0 & Hall & _).
  rewrite Hn in Hn0. injection Hn0 as <-.
  destruct (next_story_number_max (Role_Model_Name entry) roll_number
              (dir_listing (output_folder w'))) as (n' & -> & Hall' & Hin').
  rewrite Forall_forall in Hall, Hall'. f_equal.
  assert (Hnew : In n (flat_map
                         (counted (sanitize_role_model_name (Role_Model_Name entry))
                                  roll_number) (dir_listing (output_folder w')))).
  { apply counted_in_listing. eexists. split.
    - apply elem_of_dir_listing. rewrite Hw, lookup_insert_eq. eauto.
    - rewrite counted_own_file by assumption. constructor. }
  pose proof (Hall' n (proj2 (list_elem_of_In _ _) Hnew)) as Hlt.
  destruct Hin' as [[E _] | Hin']; [rewrite E in Hnew; destruct Hnew|].
  apply list_elem_of_In, counted_in_listing in Hin' as (f & Hf & Hk).
  apply elem_of_dir_listing in Hf. rewrite Hw in Hf.
  apply lookup_insert_is_Some in Hf as [<- | [_ Hf]].
  - rewrite counted_own_file in Hk by assumption.
    apply list_elem_of_singleton in Hk. lia.
  - assert (Hold : n' - 1 < n); [|lia].
    apply Hall, list_elem_of_In, counted_in_listing.
    exists f. split; [apply elem_of_dir_listing, Hf | exact Hk].
Qed.

Lemma X9_plain_key_witness :
  exists n,
    get_next_story_number (Role_Model_Name second_entry) "42" one_written
    = (Return n, one_written) /\
    "Generated_JSON_Entries/JaneDoe_2_42.json"
    = OUTPUT_FOLDER +:+ "/" +:+
      output_filename_of (sanitize_role_model_name (Role_Model_Name second_entry))
        n "42" /\
    get_next_story_number (Role_Model_Name second_entry) "42" two_written
    = (Return (n + 1), two_written).
Proof.
  apply (X9_plain_key_numbers_are_consecutive 10 jane_file "42" one_written
           "Generated_JSON_Entries/JaneDoe_2_42.json" second_entry two_written);
    vm_compute; reflexivity.
Defined.

(** ** The entry written *)

Lemma console_inv {A} (m : Console A) (w w' : world) (r : result A) :
  console m w = (r, w') ->
  m (stdin w) = (r, stdin w') /\ output_folder w' = output_folder w.
Proof.
  unfold console. destruct (m (stdin w)) as [r' lines].
  intros H. injection H as <- <-. auto.
Qed.

Lemma collect_field_ok (n : nat) (lines : list string) (s : string)
    (rest : list string) :
  collect n lines = (Return s, rest) -> field_ok n s.
Proof.
  intros H. apply collect_returns in H as (Hs & pre & line & _ & -> & _).
  apply too_short_false in Hs as [Hlen _]. split; [apply strip_idem | exact Hlen].
Qed.









(** ** Failures *)

Lemma rmapM_raises {A B} (f : A -> result B) (l : list A) (e : exn) :
  rmapM f l = Raise e -> exists a, a ∈ l /\ f a = Raise e.
Proof.
  induction l as [|a l IH]; simpl; [discriminate|].
  destruct (f a) as [b|e'] eqn:Ea; simpl.
  - destruct (rmapM f l) as [bs|e'']; simpl; [discriminate|].
    intros H. injection H as ->. destruct (IH eq_refl) as (x & Hx & Hfx).
    exists x. split; [right; exact Hx | exact Hfx].
  - intros H. injection H as ->. exists a. split; [left | exact Ea].
Qed.

Lemma parse_choices_raises (line : string) (e : exn) :
  parse_choices line = Raise e -> e = ValueError.
Proof.
  unfold parse_choices. intros H. apply rmapM_raises in H as (c & _ & H).
  destruct (Str.int (Str.strip c)) as [n|e'] eqn:Ei; [discriminate|].
  simpl in H. injection H as <-. eapply int_raises, Ei.
Qed.

Lemma themes_of_choices (choices : list Z) :
  forallb in_vocabulary choices = true ->
  exists themes,
    rmapM (fun c => getitem MENTAL_HEALTH_THEMES (Z.to_nat c)) choices = Return themes.
Proof.
  induction choices as [|c choices IH]; simpl; [eauto|].
  rewrite andb_true_iff. intros [Hc Hcs]. destruct (IH Hcs) as [themes ->].
  apply in_vocabulary_bounds in Hc.
  rewrite (getitem_nth MENTAL_HEALTH_THEMES (Z.to_nat c) "") by (simpl; lia).
  simpl. eauto.
Qed.

Lemma themes_loop_raises (lines : list string) :
  forall selected e rest,
    themes_loop selected lines = (Raise e, rest) -> e = EOFError /\ rest = [].
Proof.
  induction lines as [|line lines IH]; intros selected e rest;
    rewrite themes_loop_eq;
    destruct ((length selected <? 2)%nat || (4 <? length selected)%nat);
    try discriminate.
  - intros H. injection H as <- <-. auto.
  - destruct (parse_choices line) as [choices|e'] eqn:Ep.
    + destruct (forallb in_vocabulary choices) eqn:Ev; [|apply IH].
      destruct ((2 <=? length choices)%nat && (length choices <=? 4)%nat);
        [|apply IH].
      destruct (themes_of_choices choices Ev) as [themes ->]. apply IH.
    + apply parse_choices_raises in Ep as ->. apply IH.
Qed.

Lemma get_coping_strategies_raises (lines : list string) (e : exn)
    (rest : list string) :
  get_coping_strategies lines = (Raise e, rest) -> e = EOFError /\ rest = [].
Proof.
  unfold get_coping_strategies, bind, ret.
  destruct (collect 5 lines) as [[s|e'] rest'] eqn:E; [discriminate|].
  intros H. injection H as <- <-. eapply collect_raises, E.
Qed.

Lemma get_quote_from_text_raises (raw_content : string) (depth : nat) :
  forall lines e rest,
    get_quote_from_text depth raw_content lines = (Raise e, rest) ->
    (e = EOFError /\ rest = []) \/ e = RecursionError.
Proof.
  induction depth as [|depth IH]; intros lines e rest.
  - intros H. injection H as <- _. auto.
  - rewrite get_quote_from_text_eq.
    destruct (collect 10 lines) as [[quote|e'] after] eqn:Ec.
    + destruct (negb (Str.contains _ _)); [|discriminate].
      destruct after as [|answer more].
      * intros H. injection H as <- <-. auto.
      * destruct (negb (String.eqb _ _)); [apply IH | discriminate].
    + intros H. injection H as <- <-. left. eapply collect_raises, Ec.
Qed.

Lemma infer_never_raises (raw_content : string) :
  exists r, infer_role_model_name_from_raw raw_content = Return r.
Proof.
  destruct (infer_lines_value (Str.splitlines raw_content)) as (r & Hr & _).
  exists r. exact Hr.
Qed.

Lemma get_or_confirm_raises (raw_content : string) (lines : list string)
    (e : exn) (rest : list string) :
  get_or_confirm_role_model_name raw_content lines = (Raise e, rest) ->
  e = EOFError /\ rest = [].
Proof.
  unfold get_or_confirm_role_model_name, bind, of_result.
  destruct (infer_never_raises raw_content) as [r ->].
  destruct r as [inferred|]; [|apply get_role_model_name_raises].
  destruct (truthy inferred); [|apply get_role_model_name_raises].
  unfold input. destruct lines as [|line lines'].
  - intros H. injection H as <- <-. auto.
  - destruct (truthy (Str.strip line)); discriminate.
Qed.

Ltac console_try H E x :=
  unfold bind at 1 in H;
  match type of H with
  | context [console ?m ?v] =>
      destruct (console m v) as [[x|?] ?] eqn:E;
      apply console_inv in E as [E ?]
  end.

Lemma create_json_entry_raises
    (depth : nat) (raw_filepath : raw_file) (roll_number : string)
    (w : world) (e : exn) (w' : world) :
  create_json_entry depth raw_filepath roll_number w = (Raise e, w') ->
  output_folder w' = output_folder w /\
  ((e = EOFError /\ stdin w' = []) \/ e = RecursionError \/
   exists name n,
     (e = ValueError /\
      Str.contains (output_filename_of (sanitize_role_model_name name) n roll_number)
        NUL = true) \/
     (e = PathSeparatorInName /\
      Str.contains (output_filename_of (sanitize_role_model_name name) n roll_number)
        "/" = true)).
Proof.
  unfold create_json_entry. intros H.
  console_try H E role_model_name;
    [|injection H as <- <-; split; [congruence | left; eapply get_or_confirm_raises, E]].
  unfold bind at 1 in H. rewrite get_next_story_number_eq in H.
  match type of H with
  | context [next_story_number ?a ?b ?c] =>
      destruct (next_story_number_total a b c) as [n Hn]; rewrite Hn in H
  end.
  console_try H E0 ctx;
    [|injection H as <- <-; split; [congruence | left; eapply collect_raises, E0]].
  console_try H E1 situation;
    [|injection H as <- <-; split; [congruence | left; eapply collect_raises, E1]].
  console_try H E2 narrative;
    [|injection H as <- <-; split; [congruence | left; eapply collect_raises, E2]].
  console_try H E3 themes;
    [|injection H as <- <-; split; [congruence | left; eapply themes_loop_raises, E3]].
  console_try H E4 strategies;
    [|injection H as <- <-; split;
      [congruence | left; eapply get_coping_strategies_raises, E4]].
  console_try H E5 action;
    [|injection H as <- <-; split; [congruence | left; eapply collect_raises, E5]].
  console_try H E6 quote;
    [|injection H as <- <-; split; [congruence|];
      destruct (get_quote_from_text_raises _ _ _ _ _ E6); auto].
  console_try H E7 lesson;
    [|injection H as <- <-; split; [congruence | left; eapply collect_raises, E7]].
  console_try H E8 outcome;
    [|injection H as <- <-; split; [congruence | left; eapply collect_raises, E8]].
  unfold bind at 1 in H.
  match type of H with
  | context [write_json ?f ?x ?v] =>
      destruct (write_json f x v) as [[u|e'] wz] eqn:Ew; [discriminate|]
  end.
  injection H as <- <-. apply write_json_raises in Ew as [-> Hcase].
  split; [congruence|]. right. right. exists role_model_name, n. exact Hcase.
Qed.



(** ** Choosing a source file *)

Lemma select_raw_file_cons (available_files : list raw_file) (line : string)
    (rest : list string) :
  select_raw_file available_files (line :: rest) =
  match Str.int line with
  | Return choice =>
      if choice =? 0 then (Return None, rest)
      else if (1 <=? choice) && (choice <=? Z.of_nat (length available_files)) then
        match getitem available_files (Z.to_nat (choice - 1)) with
        | Return filepath => (Return (Some filepath), rest)
        | Raise e => (Raise e, rest)
        end
      else select_raw_file available_files rest
  | Raise ValueError => select_raw_file available_files rest
  | Raise e => (Raise e, rest)
  end.
Proof. reflexivity. Qed.

Lemma select_raw_file_outcome (available_files : list raw_file) (lines : list string) :
  forall r rest,
    select_raw_file available_files lines = (r, rest) ->
    (r = Raise EOFError /\ rest = [] /\ Forall (not_a_choice available_files) lines) \/
    exists pre line choice,
      lines = pre ++ line :: rest /\
      Forall (not_a_choice available_files) pre /\
      Str.int line = Return choice /\
      ((choice = 0 /\ r = Return None) \/
       (1 <= choice <= Z.of_nat (length available_files) /\
        exists filepath,
          available_files !! Z.to_nat (choice - 1) = Some filepath /\
          r = Return (Some filepath))).
Proof.
  induction lines as [|line lines IH]; intros r rest.
  - intros H. injection H as <- <-. left. auto.
  - rewrite select_raw_file_cons.
    assert (Hskip : not_a_choice available_files line ->
              select_raw_file available_files lines = (r, rest) ->
              (r = Raise EOFError /\ rest = [] /\
               Forall (not_a_choice available_files) (line :: lines)) \/
              exists pre l choice,
                line :: lines = pre ++ l :: rest /\
                Forall (not_a_choice available_files) pre /\
                Str.int l = Return choice /\
                ((choice = 0 /\ r = Return None) \/
                 (1 <= choice <= Z.of_nat (length available_files) /\
                  exists filepath,
                    available_files !! Z.to_nat (choice - 1) = Some filepath /\
                    r = Return (Some filepath)))).
    { intros Hn H. apply IH in H as [(-> & -> & Hall) | (pre & l & c & -> & Hpre & H)].
      - left. auto.
      - right. exists (line :: pre), l, c. auto. }
    unfold not_a_choice in Hskip.
    destruct (Str.int line) as [choice|e] eqn:Ei.
    + destruct (Z.eqb_spec choice 0) as [->|Hne].
      * intros H. injection H as <- <-. right. exists [], line, 0.
        split; [reflexivity|]. split; [constructor|]. split; [exact Ei|].
        left. auto.
      * destruct ((1 <=? choice) && (choice <=? Z.of_nat (length available_files)))
          eqn:Er.
        -- apply andb_true_iff in Er as [H1 H2].
           apply Z.leb_le in H1. apply Z.leb_le in H2.
           unfold getitem.
           destruct (available_files !! Z.to_nat (choice - 1)) as [filepath|] eqn:El;
             [|apply lookup_ge_None in El; lia].
           intros H. injection H as <- <-. right. exists [], line, choice.
           split; [reflexivity|]. split; [constructor|]. split; [exact Ei|].
           right. split; [lia|]. eauto.
        -- apply Hskip. apply andb_false_iff in Er as [Er|Er];
             [apply Z.leb_gt in Er | apply Z.leb_gt in Er]; lia.
    + apply int_raises in Ei as ->. apply Hskip. exact I.
Qed.

(** X12: [select_raw_file] returns on the first line that [int] reads as 0
    or as a position in the list: 0 gives no file, a position [k] gives the
    [k]-th file of the list, counted from 1.  Every line before it was not a
    number, or a number below 0 or above the length of the list, and was
    answered by asking again.  The prompt fails only when the console is
    exhausted. *)
Theorem X12_selected_file_is_at_the_typed_position
    (available_files : list raw_file) (lines : list string)
    (selected : option raw_file) (rest : list string) :
  select_raw_file available_files lines = (Return selected, rest) ->
  (exists pre line choice,
     lines = pre ++ line :: rest /\
     Forall (not_a_choice available_files) pre /\
     Str.int line = Return choice /\
     ((choice = 0 /\ selected = None) \/
      (1 <= choice <= Z.of_nat (length available_files) /\
       is_Some selected /\
       available_files !! Z.to_nat (choice - 1) = selected))) /\
  (forall lines' e rest',
     select_raw_file available_files lines' = (Raise e, rest') ->
     e = EOFError /\ rest' = [] /\ Forall (not_a_choice available_files) lines').
Proof.
  intros H. split.
  - apply select_raw_file_outcome in H
      as [(H & _) | (pre & line & choice & -> & Hpre & Hi & Hc)]; [discriminate|].
    exists pre, line, choice. repeat split; try assumption.
    destruct Hc as [[-> Hr] | (Hrange & filepath & Hf & Hr)].
    + left. split; [reflexivity|]. congruence.
    + right. injection Hr as ->. split; [exact Hrange|]. split; [eauto | exact Hf].
  - intros lines' e rest' H'.
    apply select_raw_file_outcome in H'
      as [(He & Hr & Hall) | (pre & line & choice & _ & _ & _ & Hc)].
    + injection He as ->. auto.
    + destruct Hc as [[_ Hr] | (_ & f & _ & Hr)]; discriminate.
Qed.

Lemma X12_selected_file_witness :
  (exists pre line choice,
     ["two"; "5"; "-1"; " 2 "; "more"] = pre ++ line :: ["more"] /\
     Forall (not_a_choice (display_available_files raw_folder)) pre /\
     Str.int line = Return choice /\
     ((choice = 0 /\
       Some {| rf_name := "zoe.txt"; rf_content := "Role Model: Zoe" |} = None) \/
      (1 <= choice <= Z.of_nat (length (display_available_files raw_folder)) /\
       is_Some (Some {| rf_name := "zoe.txt"; rf_content := "Role Model: Zoe" |}) /\
       display_available_files raw_folder !! Z.to_nat (choice - 1)
       = Some {| rf_name := "zoe.txt"; rf_content := "Role Model: Zoe" |}))) /\
  (forall lines' e rest',
     select_raw_file (display_available_files raw_folder) lines' = (Raise e, rest') ->
     e = EOFError /\ rest' = [] /\
     Forall (not_a_choice (display_available_files raw_folder)) lines').
Proof.
  apply (X12_selected_file_is_at_the_typed_position
           (display_available_files raw_folder)
           ["two"; "5"; "-1"; " 2 "; "more"]
           (Some {| rf_name := "zoe.txt"; rf_content := "Role Model: Zoe" |})
           ["more"]).
  vm_compute. reflexivity.
Defined.

Lemma path_le_trans : Transitive path_le.
Proof. intros a b c Hab Hbc. unfold path_le in *. etrans; eassumption. Qed.

Lemma path_le_total : Total path_le.
Proof. intros a b. unfold path_le. apply (total String.le). Qed.

(** X13: the list that [display_available_files] returns holds the files of
    the folder whose name ends in [.txt], each as often as the folder lists
    it and no other file, in increasing order of their names; it is empty
    exactly when the folder has no such file. *)
Theorem X13_available_files_are_the_text_files_in_order (raw_data : list raw_file) :
  StronglySorted path_le (display_available_files raw_data) /\
  display_available_files raw_data
  ≡ₚ List.filter (fun f => Str.endswith (rf_name f) ".txt") raw_data /\
  (forall f, f ∈ display_available_files raw_data <->
             f ∈ raw_data /\ Str.endswith (rf_name f) ".txt" = true) /\
  (display_available_files raw_data = [] <->
   forall f, f ∈ raw_data -> Str.endswith (rf_name f) ".txt" = false).
Proof.
  assert (Hperm : display_available_files raw_data
                  ≡ₚ List.filter (fun f => Str.endswith (rf_name f) ".txt") raw_data).
  { unfold display_available_files.
    destruct (List.filter _ raw_data) as [|f l]; [reflexivity|].
    apply merge_sort_Permutation. }
  assert (Hin : forall f, f ∈ display_available_files raw_data <->
                          f ∈ raw_data /\ Str.endswith (rf_name f) ".txt" = true).
  { intros f. rewrite Hperm, !list_elem_of_In, filter_In. reflexivity. }
  split; [|split; [exact Hperm | split; [exact Hin|]]].
  - unfold display_available_files.
    destruct (List.filter _ raw_data) as [|f l]; [constructor|].
    apply (@StronglySorted_merge_sort _ path_le _ path_le_trans path_le_total).
  - split.
    + intros E f Hf. destruct (Str.endswith (rf_name f) ".txt") eqn:Et; [|reflexivity].
      assert (Hd : f ∈ display_available_files raw_data) by (apply Hin; auto).
      rewrite E in Hd. inversion Hd.
    + intros Hnone. destruct (display_available_files raw_data) as [|f l];
        [reflexivity|].
      destruct (proj1 (Hin f)) as [Hf Ht]; [constructor|].
      rewrite (Hnone f Hf) in Ht. discriminate.
Qed.

(** ** More on the quotation *)



Lemma get_quote_from_text_depth (raw_content : string) (depth : nat) :
  forall lines rest,
    get_quote_from_text depth raw_content lines = (Raise RecursionError, rest) ->
    exists consumed,
      lines = consumed ++ rest /\ (2 * depth <= length consumed)%nat.
Proof.
  induction depth as [|depth IH]; intros lines rest.
  - intros H. injection H as <-. exists []. split; [reflexivity | simpl; lia].
  - rewrite get_quote_from_text_eq.
    destruct (collect 10 lines) as [[quote|e] after] eqn:Ec.
    + apply collect_returns in Ec as (_ & pre & line & -> & _ & _).
      destruct (negb (Str.contains _ _)); [|discriminate].
      destruct after as [|answer more]; [discriminate|].
      destruct (negb (String.eqb _ _)); [|discriminate].
      intros H. apply IH in H as (consumed & -> & Hlen).
      exists (pre ++ line :: answer :: consumed). split.
      * rewrite <- !app_assoc. reflexivity.
      * rewrite length_app. simpl. lia.
    + intros H. injection H as -> <-. apply collect_raises in Ec as [Ec _].
      discriminate.
Qed.

(** X15: the quote prompt calls itself once for every quote that is not
    found and not confirmed.  With depth [d], [d] such refusals end in
    [RecursionError]; and [RecursionError] never comes earlier: at least
    [2 * d] lines, a quote and an answer per call, have been read by then. *)
Theorem X15_recursion_error_after_depth_refusals
    (raw_content quote answer : string) (depth : nat) (rest : list string) :
  (10 <= len (Str.strip quote))%nat ->
  Str.contains (Str.lower raw_content) (Str.lower (Str.strip quote)) = false ->
  Str.lower answer <> "y" ->
  get_quote_from_text depth raw_content (refusals depth quote answer ++ rest)
  = (Raise RecursionError, rest) /\
  (forall lines rest',
     get_quote_from_text depth raw_content lines = (Raise RecursionError, rest') ->
     exists consumed,
       lines = consumed ++ rest' /\ (2 * depth <= length consumed)%nat).
Proof.
  intros Hlen Hin Hy. split; [|apply get_quote_from_text_depth].
  induction depth as [|depth IH]; [reflexivity|].
  cbn [refusals]. rewrite <- !app_comm_cons.
  rewrite get_quote_from_text_declined by assumption. exact IH.
Qed.

Lemma X15_recursion_error_witness :
  get_quote_from_text 2 (rf_content jane_file)
    (refusals 2 "never said this" "n" ++ ["I was not okay"])
  = (Raise RecursionError, ["I was not okay"]) /\
  (forall lines rest',
     get_quote_from_text 2 (rf_content jane_file) lines = (Raise RecursionError, rest') ->
     exists consumed,
       lines = consumed ++ rest' /\ (2 * 2 <= length consumed)%nat).
Proof.
  apply (X15_recursion_error_after_depth_refusals (rf_content jane_file)
           "never said this" "n" 2 ["I was not okay"]).
  - vm_compute. lia.
  - reflexivity.
  - discriminate.
Defined.

(** ** Strategies shown and typed again *)

Lemma strip_fixed_parts (s : string) :
  Str.strip s = s -> head_kept Str.isspace s /\ Str.rstrip_by Str.isspace s = s.
Proof.
  intros H.
  assert (Hh : head_kept Str.isspace s).
  { rewrite <- H. apply rstrip_by_head, lstrip_by_head. }
  split; [exact Hh|].
  unfold Str.strip, Str.strip_by in H. rewrite lstrip_by_fix in H; assumption.
Qed.

Lemma lstrip_app (a x : string) :
  head_kept Str.isspace a -> a <> "" ->
  Str.lstrip_by Str.isspace (a +:+ x) = a +:+ x.
Proof.
  destruct a as [|c a]; [congruence|]. simpl. intros Hc _.
  rewrite append_cons. simpl. rewrite Hc. reflexivity.
Qed.

Lemma append_nonempty_r (x b : string) : b <> "" -> x +:+ b <> "".
Proof. destruct x; [auto | discriminate]. Qed.

Lemma rstrip_app (x b : string) :
  Str.rstrip_by Str.isspace b = b -> b <> "" ->
  Str.rstrip_by Str.isspace (x +:+ b) = x +:+ b.
Proof.
  intros Hb Hne. induction x as [|c x IH]; [exact Hb|].
  rewrite append_cons. simpl. rewrite IH.
  destruct (x +:+ b) eqn:E; [|reflexivity].
  exfalso. apply (append_nonempty_r x b Hne). exact E.
Qed.

Lemma strip_between (a m b : string) :
  a <> "" -> Str.strip a = a -> b <> "" -> Str.strip b = b ->
  Str.strip (a +:+ m +:+ b) = a +:+ m +:+ b.
Proof.
  intros Ha Hsa Hb Hsb.
  apply strip_fixed_parts in Hsa as [Hha _].
  apply strip_fixed_parts in Hsb as [_ Hrb].
  unfold Str.strip, Str.strip_by. rewrite lstrip_app by assumption.
  rewrite <- append_assoc. apply rstrip_app; assumption.
Qed.

Lemma join_cons2 (sep x y : string) (l : list string) :
  join sep (x :: y :: l) = x +:+ sep +:+ join sep (y :: l).
Proof. reflexivity. Qed.

Lemma join_trimmed (items : list string) :
  Forall (fun s => s <> "" /\ Str.strip s = s) items -> items <> [] ->
  join ", " items <> "" /\ Str.strip (join ", " items) = join ", " items.
Proof.
  induction 1 as [|x l [Hx Hsx] Hl IH]; [congruence|]. intros _.
  destruct l as [|y l]; [auto|].
  destruct IH as [Hne Hs]; [discriminate|].
  rewrite join_cons2. split.
  - destruct x; [congruence | discriminate].
  - apply strip_between; assumption.
Qed.

Lemma clean_and_split_plain (s : string) :
  s <> "" -> Str.strip s = s -> has_char "," s = false ->
  clean_and_split s = [s].
Proof.
  intros Hne Hs Hc. unfold clean_and_split. rewrite split_none by exact Hc.
  simpl. rewrite Hs. apply truthy_true in Hne. rewrite Hne. simpl.
  rewrite Hs. reflexivity.
Qed.

Lemma clean_and_split_space (s : string) :
  clean_and_split (String " " s) = clean_and_split s.
Proof.
  unfold clean_and_split. simpl.
  pose proof (split_length "," s) as Hl.
  destruct (Str.split "," s) as [|p ps]; [simpl in Hl; lia|].
  simpl. change (Str.strip (String " " p)) with (Str.strip p).
  destruct (truthy (Str.strip p)); reflexivity.
Qed.

Lemma clean_and_split_first (a rest : string) :
  a <> "" -> Str.strip a = a -> has_char "," a = false ->
  clean_and_split (a +:+ ", " +:+ rest) = a :: clean_and_split rest.
Proof.
  intros Hne Hs Hc. rewrite <- (clean_and_split_space rest).
  unfold clean_and_split.
  change (a +:+ ", " +:+ rest) with (a +:+ String "," (String " " rest)).
  rewrite split_at_first by exact Hc. simpl.
  rewrite Hs. apply truthy_true in Hne. rewrite Hne. simpl.
  rewrite Hs. reflexivity.
Qed.

Lemma clean_and_split_join (items : list string) :
  Forall (fun s => s <> "" /\ Str.strip s = s /\ has_char "," s = false) items ->
  clean_and_split (join ", " items) = items.
Proof.
  induction 1 as [|x l (Hx & Hsx & Hcx) Hl IH]; [reflexivity|].
  destruct l as [|y l]; [apply clean_and_split_plain; assumption|].
  rewrite join_cons2, clean_and_split_first by assumption.
  rewrite IH. reflexivity.
Qed.

(** X16: the summary shows the strategies joined by a comma and a space.
    When no strategy is empty, untrimmed or contains a comma, that text
    splits back into the same strategies in the same order; typed at the
    strategies prompt it is accepted, when it has five characters or more,
    and gives the same list. *)
Theorem X16_joined_strategies_split_back
    (items : list string) (rest : list string) :
  Forall (fun s => s <> "" /\ Str.strip s = s /\ has_char "," s = false) items ->
  clean_and_split (join ", " items) = items /\
  ((5 <= len (join ", " items))%nat ->
   get_coping_strategies (join ", " items :: rest) = (Return items, rest)).
Proof.
  intros H. split; [apply clean_and_split_join, H|]. intros Hlen.
  assert (Hs : Str.strip (join ", " items) = join ", " items).
  { destruct items as [|x l]; [reflexivity|].
    apply join_trimmed; [|discriminate].
    eapply Forall_impl; [exact H|]. simpl. tauto. }
  unfold get_coping_strategies, bind, ret. rewrite collect_long.
  - rewrite Hs, clean_and_split_join by exact H. reflexivity.
  - rewrite Hs. destruct (too_short 5 (join ", " items)) eqn:E; [|reflexivity].
    apply too_short_lt in E; lia.
Qed.

Lemma X16_joined_strategies_witness :
  clean_and_split (join ", " ["therapy"; "taking breaks"; "rest"])
  = ["therapy"; "taking breaks"; "rest"] /\
  ((5 <= len (join ", " ["therapy"; "taking breaks"; "rest"]))%nat ->
   get_coping_strategies (join ", " ["therapy"; "taking breaks"; "rest"] :: ["more"])
   = (Return ["therapy"; "taking breaks"; "rest"], ["more"])).
Proof.
  apply (X16_joined_strategies_split_back ["therapy"; "taking breaks"; "rest"] ["more"]).
  repeat constructor; discriminate.
Defined.

(** ** The session *)

Ltac consumed :=
  subst; rewrite ?length_app; simpl; lia.

Lemma consumes_input : consumes input.
Proof.
  intros [|line lines] r rest H; injection H as <- <-; simpl; lia.
Qed.

Lemma consumes_collect (n : nat) : consumes (collect n).
Proof.
  intros lines [s|e] rest H.
  - apply collect_returns in H as (_ & pre & line & -> & _). consumed.
  - apply collect_raises in H as [_ ->]. simpl. lia.
Qed.

Lemma consumes_get_or_confirm (raw_content : string) :
  consumes (get_or_confirm_role_model_name raw_content).
Proof.
  intros lines [name|e] rest H.
  - apply get_or_confirm_returns in H as [(i & line & _ & _ & -> & _) | [_ H]].
    + simpl. lia.
    + apply get_role_model_name_returns in H as (pre & line & -> & _). consumed.
  - apply get_or_confirm_raises in H as [_ ->]. simpl. lia.
Qed.

Lemma consumes_themes : consumes select_mental_health_themes.
Proof.
  intros lines [sel|e] rest H.
  - apply themes_loop_returns in H as [(_ & -> & _) | (pre & l & c & -> & _)].
    + lia.
    + consumed.
  - apply themes_loop_raises in H as [_ ->]. simpl. lia.
Qed.

Lemma consumes_strategies : consumes get_coping_strategies.
Proof.
  intros lines [l|e] rest H.
  - apply get_coping_strategies_returns in H as (pre & line & -> & _). consumed.
  - apply get_coping_strategies_raises in H as [_ ->]. simpl. lia.
Qed.

Lemma consumes_quote (depth : nat) (raw_content : string) :
  consumes (get_quote_from_text depth raw_content).
Proof.
  intros lines [q|e] rest H.
  - apply get_quote_from_text_returns in H
      as [_ [[_ (pre & l & -> & _)] | [_ (pre & l & a & -> & _)]]]; consumed.
  - destruct (get_quote_from_text_raises _ _ _ _ _ H) as [[_ ->] | ->].
    + simpl. lia.
    + apply get_quote_from_text_depth in H as (consumed & -> & _). consumed.
Qed.

Lemma select_raw_file_reads (available_files : list raw_file) (lines : list string)
    (selected : option raw_file) (rest : list string) :
  select_raw_file available_files lines = (Return selected, rest) ->
  (length rest < length lines)%nat.
Proof.
  intros H. apply select_raw_file_outcome in H
    as [(H & _) | (pre & line & c & -> & _)]; [discriminate | consumed].
Qed.

Lemma consumes_select (available_files : list raw_file) :
  consumes (select_raw_file available_files).
Proof.
  intros lines r rest H. apply select_raw_file_outcome in H
    as [(_ & -> & _) | (pre & line & c & -> & _)]; [simpl; lia | consumed].
Qed.

Lemma ask_num_entries_cons (line : string) (rest : list string) :
  ask_num_entries (line :: rest) =
  match Str.int line with
  | Return num_entries =>
      if (1 <=? num_entries) && (num_entries <=? 3) then (Return num_entries, rest)
      else ask_num_entries rest
  | Raise ValueError => ask_num_entries rest
  | Raise e => (Raise e, rest)
  end.
Proof. reflexivity. Qed.

Lemma ask_num_entries_outcome (lines : list string) :
  forall r rest,
    ask_num_entries lines = (r, rest) ->
    (r = Raise EOFError /\ rest = [] /\ Forall not_a_count lines) \/
    exists pre line n,
      lines = pre ++ line :: rest /\ Forall not_a_count pre /\
      Str.int line = Return n /\ 1 <= n <= 3 /\ r = Return n.
Proof.
  induction lines as [|line lines IH]; intros r rest.
  - intros H. injection H as <- <-. left. auto.
  - rewrite ask_num_entries_cons.
    assert (Hskip : not_a_count line ->
              ask_num_entries lines = (r, rest) ->
              (r = Raise EOFError /\ rest = [] /\ Forall not_a_count (line :: lines)) \/
              exists pre l n,
                line :: lines = pre ++ l :: rest /\ Forall not_a_count pre /\
                Str.int l = Return n /\ 1 <= n <= 3 /\ r = Return n).
    { intros Hn H. apply IH in H as [(-> & -> & Hall) | (pre & l & n & -> & Hpre & H)].
      - left. auto.
      - right. exists (line :: pre), l, n. auto. }
    unfold not_a_count in Hskip.
    destruct (Str.int line) as [n|e] eqn:Ei.
    + destruct ((1 <=? n) && (n <=? 3)) eqn:Er.
      * apply andb_true_iff in Er as [H1 H2].
        apply Z.leb_le in H1. apply Z.leb_le in H2.
        intros H. injection H as <- <-. right. exists [], line, n.
        split; [reflexivity|]. split; [constructor|]. split; [exact Ei|].
        split; [lia | reflexivity].
      * apply Hskip. apply andb_false_iff in Er as [Er|Er];
          apply Z.leb_gt in Er; lia.
    + apply int_raises in Ei as ->. apply Hskip. exact I.
Qed.

Lemma consumes_ask_num_entries : consumes ask_num_entries.
Proof.
  intros lines r rest H. apply ask_num_entries_outcome in H
    as [(_ & -> & _) | (pre & line & n & -> & _)]; [simpl; lia | consumed].
Qed.

Lemma session_step_refl (roll_number : string) (w : world) :
  session_step roll_number w w.
Proof. repeat split; auto. Qed.

Lemma session_step_trans (roll_number : string) (w1 w2 w3 : world) :
  session_step roll_number w1 w2 -> session_step roll_number w2 w3 ->
  session_step roll_number w1 w3.
Proof.
  intros (Hl1 & Hk1 & Hn1) (Hl2 & Hk2 & Hn2). repeat split.
  - lia.
  - auto.
  - intros fname. destruct (Hn2 fname) as [E2|H2]; [|right; exact H2].
    destruct (Hn1 fname) as [E1|H1]; [left; congruence | right; exact H1].
Qed.

Lemma io_session_console (roll_number : string) {A} (m : Console A) :
  consumes m -> io_session roll_number (console m).
Proof.
  intros Hm w r w' H. apply console_inv in H as [H Hf].
  apply Hm in H. unfold session_step. rewrite Hf. repeat split; auto.
Qed.

Lemma io_session_ret (roll_number : string) {A} (a : A) :
  io_session roll_number (ret a : IO A).
Proof. intros w r w' H. injection H as _ <-. apply session_step_refl. Qed.

Lemma io_session_bind (roll_number : string) {A B} (m : IO A) (k : A -> IO B) :
  io_session roll_number m -> (forall a, io_session roll_number (k a)) ->
  io_session roll_number (bind m k).
Proof.
  intros Hm Hk w r w'. unfold bind.
  destruct (m w) as [[a|e] w1] eqn:E; intros H.
  - eapply session_step_trans; [eapply Hm, E | eapply Hk, H].
  - injection H as _ <-. eapply Hm, E.
Qed.

Lemma io_session_next (roll_number name : string) :
  io_session roll_number (get_next_story_number name roll_number).
Proof.
  intros w r w'. rewrite get_next_story_number_eq. intros H.
  injection H as _ <-. apply session_step_refl.
Qed.

Lemma io_session_write (roll_number clean_name : string) (n : Z) (entry : json_entry) :
  io_session roll_number
    (write_json (output_filename_of clean_name n roll_number) entry).
Proof.
  intros w [u|e] w' H;
    [apply write_json_returns in H as (_ & _ & ->)
    |apply write_json_raises in H as [-> _]; apply session_step_refl].
  unfold session_step. simpl. repeat split.
  - reflexivity.
  - intros fname Hs. apply lookup_insert_is_Some.
    destruct (decide (output_filename_of clean_name n roll_number = fname));
      [left; assumption | right; auto].
  - intros fname.
    destruct (decide (output_filename_of clean_name n roll_number = fname)) as [<-|Hne].
    + right. eauto.
    + left. apply lookup_insert_ne, Hne.
Qed.

Lemma io_session_create (depth : nat) (raw_filepath : raw_file) (roll_number : string) :
  io_session roll_number (create_json_entry depth raw_filepath roll_number).
Proof.
  unfold create_json_entry.
  apply io_session_bind;
    [apply io_session_console, consumes_get_or_confirm | intros role_model_name].
  apply io_session_bind; [apply io_session_next | intros story_number].
  apply io_session_bind; [apply io_session_console, consumes_collect | intros ?].
  apply io_session_bind; [apply io_session_console, consumes_collect | intros ?].
  apply io_session_bind; [apply io_session_console, consumes_collect | intros ?].
  apply io_session_bind; [apply io_session_console, consumes_themes | intros ?].
  apply io_session_bind; [apply io_session_console, consumes_strategies | intros ?].
  apply io_session_bind; [apply io_session_console, consumes_collect | intros ?].
  apply io_session_bind; [apply io_session_console, consumes_quote | intros ?].
  apply io_session_bind; [apply io_session_console, consumes_collect | intros ?].
  apply io_session_bind; [apply io_session_console, consumes_collect | intros ?].
  apply io_session_bind; [apply io_session_write | intros ?; apply io_session_ret].
Qed.

Lemma create_json_entry_size (depth : nat) (raw_filepath : raw_file)
    (roll_number : string) (w : world) (r : result (string * json_entry))
    (w' : world) :
  create_json_entry depth raw_filepath roll_number w = (r, w') ->
  (size (output_folder w') <= S (size (output_folder w)))%nat.
Proof.
  destruct r as [[path entry]|e]; intros H.
  - apply create_json_entry_returns in H as (n & _ & _ & ->).
    rewrite map_size_insert. destruct (output_folder w !! _); simpl; lia.
  - apply create_json_entry_raises in H as [-> _]. lia.
Qed.

Lemma create_entries_spec (depth : nat) (selected_file : raw_file)
    (roll_number : string) (num_entries : nat) :
  forall total w r w',
    create_entries depth num_entries selected_file roll_number total w = (r, w') ->
    session_step roll_number w w' /\
    match r with
    | Return total' =>
        total' = total + Z.of_nat num_entries /\
        (size (output_folder w') <= size (output_folder w) + num_entries)%nat
    | Raise e =>
        e = EOFError \/ e = RecursionError \/ e = ValueError \/
        e = PathSeparatorInName
    end.
Proof.
  induction num_entries as [|k IH]; intros total w r w'.
  - intros H. injection H as <- <-. split; [apply session_step_refl|].
    split; lia.
  - cbn [create_entries]. unfold bind at 1.
    destruct (create_json_entry depth selected_file roll_number w)
      as [[created|e] w1] eqn:Ec.
    + pose proof (io_session_create _ _ _ _ _ _ Ec) as Hs1.
      pose proof (create_json_entry_size _ _ _ _ _ _ Ec) as Hz1.
      unfold bind at 1.
      destruct (console input w1) as [[line|e] w2] eqn:Ei.
      * pose proof (io_session_console roll_number input consumes_input _ _ _ Ei) as Hs2.
        apply console_inv in Ei as [_ Hf2].
        intros H. apply IH in H as [Hs3 Hr]. split.
        -- eapply session_step_trans; [exact Hs1|].
           eapply session_step_trans; [exact Hs2 | exact Hs3].
        -- destruct r as [total'|e]; [|exact Hr].
           destruct Hr as [-> Hz3]. rewrite Hf2 in Hz3. split; lia.
      * pose proof (io_session_console roll_number input consumes_input _ _ _ Ei) as Hs2.
        intros H. injection H as <- <-. split.
        -- eapply session_step_trans; [exact Hs1 | exact Hs2].
        -- left. apply console_inv in Ei as [Ei _].
           unfold input in Ei. destruct (stdin w1); [|discriminate].
           injection Ei as <- _. reflexivity.
    + intros H. injection H as <- <-. split.
      * eapply io_session_create, Ec.
      * apply create_json_entry_raises in Ec
          as [_ [[-> _] | [-> | (name & n & [[-> _] | [-> _]])]]]; auto.
Qed.

Lemma console_raises_eof {A} (m : Console A) (w w' : world) (e : exn) :
  (forall lines e rest, m lines = (Raise e, rest) -> e = EOFError) ->
  console m w = (Raise e, w') -> e = EOFError.
Proof.
  intros Hm H. apply console_inv in H as [H _]. eapply Hm, H.
Qed.

Lemma input_raises (lines : list string) (e : exn) (rest : list string) :
  input lines = (Raise e, rest) -> e = EOFError.
Proof. destruct lines; [|discriminate]. intros H. injection H as <- _. reflexivity. Qed.

Lemma select_raw_file_raises (available_files : list raw_file)
    (lines : list string) (e : exn) (rest : list string) :
  select_raw_file available_files lines = (Raise e, rest) -> e = EOFError.
Proof.
  intros H. apply select_raw_file_outcome in H
    as [(H & _) | (pre & line & c & _ & _ & _ & [[_ H] | [_ (f & _ & H)]])];
    congruence.
Qed.

Lemma ask_num_entries_raises (lines : list string) (e : exn) (rest : list string) :
  ask_num_entries lines = (Raise e, rest) -> e = EOFError.
Proof.
  intros H. apply ask_num_entries_outcome in H
    as [(H & _) | (pre & line & n & _ & _ & _ & _ & H)]; congruence.
Qed.

(** One turn of the loop of [main] after the other: what the loop does to
    the world, that a bound which is reached has let it read a line at every
    turn, that the count only grows and bounds the number of new files, and
    how the loop can fail. *)
Lemma main_loop_spec (depth : nat) (raw_data : list raw_file) (roll_number : string)
    (rounds : nat) :
  forall total w r w',
    main_loop rounds depth raw_data roll_number total w = (r, w') ->
    session_step roll_number w w' /\
    match r with
    | Return None => (rounds + length (stdin w') <= length (stdin w))%nat
    | Return (Some total') =>
        total <= total' /\
        Z.of_nat (size (output_folder w')) + total
          <= Z.of_nat (size (output_folder w)) + total'
    | Raise e =>
        e = EOFError \/ e = RecursionError \/ e = ValueError \/
        e = PathSeparatorInName
    end.
Proof.
  induction rounds as [|k IH]; intros total w r w'.
  - intros H. injection H as <- <-. split; [apply session_step_refl | simpl; lia].
  - cbn [main_loop]. destruct (display_available_files raw_data) as [|f fs] eqn:Ef.
    { intros H. injection H as <- <-. split; [apply session_step_refl | lia]. }
    unfold bind at 1.
    destruct (console (select_raw_file (f :: fs)) w) as [[selected|e] w1] eqn:Es.
    2:{ intros H. injection H as <- <-. split.
        - eapply io_session_console, Es. apply consumes_select.
        - left. eapply console_raises_eof, Es. apply select_raw_file_raises. }
    pose proof (io_session_console roll_number _ (consumes_select _) _ _ _ Es) as Hs1.
    apply console_inv in Es as [Es Hf1]. apply select_raw_file_reads in Es.
    destruct selected as [selected_file|].
    2:{ intros H. injection H as <- <-. split; [exact Hs1|]. rewrite Hf1. lia. }
    unfold bind at 1.
    destruct (console ask_num_entries w1) as [[num_entries|e] w2] eqn:Ea.
    2:{ intros H. injection H as <- <-. split.
        - eapply session_step_trans; [exact Hs1|].
          eapply io_session_console, Ea. apply consumes_ask_num_entries.
        - left. eapply console_raises_eof, Ea. apply ask_num_entries_raises. }
    pose proof (io_session_console roll_number _ consumes_ask_num_entries _ _ _ Ea)
      as Hs2.
    apply console_inv in Ea as [_ Hf2].
    unfold bind at 1.
    destruct (create_entries depth (Z.to_nat num_entries) selected_file roll_number
                total w2) as [[total1|e] w3] eqn:Ec.
    2:{ apply create_entries_spec in Ec as [Hs3 He].
        intros H. injection H as <- <-. split; [|exact He].
        eapply session_step_trans; [exact Hs1|].
        eapply session_step_trans; [exact Hs2 | exact Hs3]. }
    apply create_entries_spec in Ec as [Hs3 [-> Hz3]].
    unfold bind at 1.
    destruct (console input w3) as [[answer|e] w4] eqn:Ei.
    2:{ intros H. injection H as <- <-. split.
        - eapply session_step_trans; [exact Hs1|].
          eapply session_step_trans; [exact Hs2|].
          eapply session_step_trans; [exact Hs3|].
          eapply io_session_console, Ei. apply consumes_input.
        - left. eapply console_raises_eof, Ei. apply input_raises. }
    pose proof (io_session_console roll_number _ consumes_input _ _ _ Ei) as Hs4.
    apply console_inv in Ei as [_ Hf4].
    assert (Hs : session_step roll_number w w4).
    { eapply session_step_trans; [exact Hs1|].
      eapply session_step_trans; [exact Hs2|].
      eapply session_step_trans; [exact Hs3 | exact Hs4]. }
    assert (Hz : (size (output_folder w4)
                  <= size (output_folder w) + Z.to_nat num_entries)%nat).
    { rewrite Hf4. rewrite <- Hf1, <- Hf2. exact Hz3. }
    destruct (negb (Str.lower answer =? "y")%string).
    + intros H. injection H as <- <-. split; [exact Hs | lia].
    + intros H. apply IH in H as [Hs5 Hr]. split.
      * eapply session_step_trans; [exact Hs | exact Hs5].
      * destruct r as [[total'|]|e]; [| |exact Hr].
        -- lia.
        -- destruct Hs2 as [Hl2 _], Hs3 as [Hl3 _], Hs4 as [Hl4 _]. lia.
Qed.

(** A result of the loop other than the bound being reached stays the same
    under every larger bound. *)
Lemma main_loop_enough (depth : nat) (raw_data : list raw_file) (roll_number : string)
    (rounds : nat) :
  forall more total w r w',
    main_loop rounds depth raw_data roll_number total w = (r, w') ->
    r <> Return None ->
    (rounds <= more)%nat ->
    main_loop more depth raw_data roll_number total w = (r, w').
Proof.
  induction rounds as [|k IH]; intros more total w r w'.
  - intros H. injection H as <- <-. congruence.
  - intros H Hr Hm. destruct more as [|more]; [lia|].
    revert H. cbn [main_loop].
    destruct (display_available_files raw_data) as [|f fs]; [auto|].
    unfold bind.
    destruct (console (select_raw_file (f :: fs)) w) as [[[selected_file|]|e] w1];
      [|auto|auto].
    destruct (console ask_num_entries w1) as [[num_entries|e] w2]; [|auto].
    destruct (create_entries depth (Z.to_nat num_entries) selected_file roll_number
                total w2) as [[total1|e] w3]; [|auto].
    destruct (console input w3) as [[answer|e] w4]; [|auto].
    destruct (negb (Str.lower answer =? "y")%string); [auto|].
    intros H. apply IH; [exact H | exact Hr | lia].
Qed.

Lemma main_eq (depth : nat) (raw_data : list raw_file) (w : world) :
  main depth raw_data w =
  match console (collect 0) w with
  | (Return roll_number, w1) =>
      main_loop (S (length (stdin w1))) depth raw_data roll_number 0 w1
  | (Raise e, w1) => (Raise e, w1)
  end.
Proof.
  unfold main, bind. destruct (console (collect 0) w) as [[roll_number|e] w1];
    reflexivity.
Qed.



(** X18: whatever is typed and however the session ends, it removes no file
    of the output folder; and a file it has created or changed carries the
    roll number typed at the start, which is trimmed and not empty, as the
    last part of its name. *)
Theorem X18_session_touches_only_files_of_its_roll_number
    (depth : nat) (raw_data : list raw_file) (w : world)
    (r : result (option Z)) (w' : world) :
  main depth raw_data w = (r, w') ->
  (forall fname, is_Some (output_folder w !! fname) ->
                 is_Some (output_folder w' !! fname)) /\
  (output_folder w' = output_folder w \/
   exists roll_number rest,
     collect 0 (stdin w) = (Return roll_number, rest) /\
     roll_number <> "" /\ Str.strip roll_number = roll_number /\
     forall fname,
       output_folder w' !! fname = output_folder w !! fname \/
       exists clean_name n, fname = output_filename_of clean_name n roll_number).
Proof.
  rewrite main_eq.
  destruct (console (collect 0) w) as [[roll_number|e] w1] eqn:Er;
    apply console_inv in Er as [Er Hf].
  - intros H. apply main_loop_spec in H as [(_ & Hkeep & Hnew) _].
    rewrite Hf in Hkeep, Hnew. split; [exact Hkeep|].
    right. exists roll_number, (stdin w1). split; [exact Er|].
    pose proof (collect_field_ok _ _ _ _ Er) as [Hstrip _].
    apply collect_returns in Er as [Hs _].
    apply too_short_false in Hs as [_ Hs].
    split; [exact Hs|]. split; [exact Hstrip | exact Hnew].
  - intros H. injection H as _ <-. rewrite Hf. auto.
Qed.

Lemma X18_session_witness :
  main 10 raw_folder (fresh_world session_answers) = (Return (Some 2), session_end) /\
  (forall fname,
     is_Some (output_folder (fresh_world session_answers) !! fname) ->
     is_Some (output_folder session_end !! fname)) /\
  (output_folder session_end = output_folder (fresh_world session_answers) \/
   exists roll_number rest,
     collect 0 (stdin (fresh_world session_answers)) = (Return roll_number, rest) /\
     roll_number <> "" /\ Str.strip roll_number = roll_number /\
     forall fname,
       output_folder session_end !! fname
         = output_folder (fresh_world session_answers) !! fname \/
       exists clean_name n, fname = output_filename_of clean_name n roll_number).
Proof.
  split; [reflexivity|].
  apply (X18_session_touches_only_files_of_its_roll_number 10 raw_folder
           (fresh_world session_answers) (Return (Some 2)) session_end).
  reflexivity.
Defined.

(** X19: when the raw folder holds no name that ends in [.txt], the session
    reads the roll number and nothing more, writes nothing, and ends
    normally with a count of 0 (or with [EOFError] when no roll number was
    typed): no file question is asked. *)
Theorem X19_no_text_file_ends_the_session
    (depth : nat) (raw_data : list raw_file) (w : world)
    (r : result (option Z)) (w' : world) :
  Forall (fun f => Str.endswith (rf_name f) ".txt" = false) raw_data ->
  main depth raw_data w = (r, w') ->
  output_folder w' = output_folder w /\
  ((exists roll_number,
      collect 0 (stdin w) = (Return roll_number, stdin w') /\
      r = Return (Some 0)) \/
   (collect 0 (stdin w) = (Raise EOFError, stdin w') /\ r = Raise EOFError)).
Proof.
  intros Hraw. rewrite main_eq.
  assert (Ef : display_available_files raw_data = []).
  { unfold display_available_files.
    replace (List.filter _ raw_data) with (@nil raw_file); [reflexivity|].
    induction Hraw as [|f l Hf _ IH]; [reflexivity|].
    simpl. rewrite Hf. exact IH. }
  destruct (console (collect 0) w) as [[roll_number|e] w1] eqn:Er;
    apply console_inv in Er as [Er Hf].
  - cbn [main_loop]. rewrite Ef. intros H. injection H as <- <-.
    split; [exact Hf|]. left. exists roll_number. auto.
  - intros H. injection H as <- <-. split; [exact Hf|]. right.
    pose proof (collect_raises _ _ _ _ Er) as [-> _]. auto.
Qed.

Lemma X19_no_text_file_witness :
  (Forall (fun f => Str.endswith (rf_name f) ".txt" = false) other_folder /\
   main 10 other_folder (fresh_world [" 42 "; "1"])
   = (Return (Some 0), fresh_world ["1"])) /\
  output_folder (fresh_world ["1"]) = output_folder (fresh_world [" 42 "; "1"]) /\
  ((exists roll_number,
      collect 0 (stdin (fresh_world [" 42 "; "1"]))
      = (Return roll_number, stdin (fresh_world ["1"])) /\
      Return (Some 0) = Return (Some 0)) \/
   (collect 0 (stdin (fresh_world [" 42 "; "1"]))
    = (Raise EOFError, stdin (fresh_world ["1"])) /\
    Return (Some 0) = Raise EOFError)).
Proof.
  split; [split; [repeat constructor | reflexivity]|].
  apply (X19_no_text_file_ends_the_session 10 other_folder
           (fresh_world [" 42 "; "1"]) (Return (Some 0)) (fresh_world ["1"])).
  - repeat constructor.
  - reflexivity.
Defined.
